(** * Pod sidecar handler: job orchestration, event-stream monitoring,
      output collection and callback delivery ([sidecar/handler.py]).

    The sidecar is sequential code that talks to three outside parties: the
    engine over HTTP, the engine's websocket, and the caller's callback
    endpoint.  The embedding is a state-and-exception monad over a [world]
    that records every outside call in order; what the outside answers is
    given by an [env] of answer functions indexed by the position of the call
    in that record.  Every theorem quantifies over the whole [env], so it
    holds for every behaviour of the engine and of the network. *)

From Stdlib Require Import ZArith Ascii String List Bool Lia.
From stdpp Require Import base strings list gmap pretty.

#[local] Open Scope Z_scope.

(** ** Python values as the handler sees them *)

(** What [json.loads] and [Response.json] produce.  JSON numbers are kept to
    the integers: no field the handler inspects is numeric in the engine's
    protocol, and a float has no exact image here.  A dict is an association
    list in insertion order with distinct keys. *)
#[warnings="-register-all"]
Inductive json : Type :=
| JNull
| JBool (b : bool)
| JNum (n : Z)
| JStr (s : string)
| JArr (items : list json)
| JObj (fields : list (string * json)).

#[global] Instance json_inhabited : Inhabited json := populate JNull.

Inductive exn_class : Type :=
| KeyError
| IndexError
| AttributeError
| TypeError
| ValueError
| HTTPError
| JSONDecodeError
| WebSocketTimeoutException
| WebSocketConnectionClosedException
| OtherException (name : string).

#[global] Instance exn_class_eq_dec : EqDecision exn_class.
Proof. solve_decision. Defined.

(** An exception object; [exn_msg] is what [str(e)] renders. *)
Record exn : Type := Exn { exn_kind : exn_class; exn_msg : string }.

#[global] Instance exn_eq_dec : EqDecision exn.
Proof. solve_decision. Defined.

(** The parts of the Python runtime that are used but not spelled out:
    [repr] of a list or dict (reached by [str] and by f-strings) and the
    lenient [base64.b64decode] applied to caller-supplied image data. *)
Record pylib : Type := PyLib {
  py_repr : json -> string;
  py_b64decode : string -> exn + string
}.

(** *** Dicts *)

Fixpoint dict_get {A : Type} (k : string) (d : list (string * A)) : option A :=
  match d with
  | [] => None
  | (k', v) :: d' => if String.eqb k k' then Some v else dict_get k d'
  end.

(** [d[k] = v]: overwrite in place, or append a new key at the end. *)
Fixpoint dict_set {A : Type} (k : string) (v : A) (d : list (string * A))
  : list (string * A) :=
  match d with
  | [] => [(k, v)]
  | (k', v') :: d' =>
      if String.eqb k k' then (k, v) :: d' else (k', v') :: dict_set k v d'
  end.

(** [{**a, **b}] with [a] already built. *)
Definition dict_update {A : Type} (a b : list (string * A)) : list (string * A) :=
  fold_left (fun d kv => dict_set (fst kv) (snd kv) d) b a.

(** *** Truth value, equality, [str] *)

Definition py_truthy (v : json) : bool :=
  match v with
  | JNull => false
  | JBool b => b
  | JNum n => negb (n =? 0)
  | JStr s => negb (String.eqb s "")
  | JArr l => match l with [] => false | _ => true end
  | JObj f => match f with [] => false | _ => true end
  end.

(** Python's [==] on decoded JSON: [True == 1], lists compare position by
    position, dicts compare key by key regardless of order. *)
Fixpoint py_eq (a b : json) : bool :=
  match a, b with
  | JNull, JNull => true
  | JBool x, JBool y => Bool.eqb x y
  | JBool x, JNum n | JNum n, JBool x => n =? (if x then 1 else 0)
  | JNum x, JNum y => x =? y
  | JStr x, JStr y => String.eqb x y
  | JArr xs, JArr ys =>
      (fix go (xs ys : list json) : bool :=
         match xs, ys with
         | [], [] => true
         | x :: xs', y :: ys' => py_eq x y && go xs' ys'
         | _, _ => false
         end) xs ys
  | JObj fa, JObj fb =>
      Nat.eqb (length fa) (length fb) &&
      (fix go (fa : list (string * json)) : bool :=
         match fa with
         | [] => true
         | (k, v) :: fa' =>
             match dict_get k fb with
             | Some v' => py_eq v v' && go fa'
             | None => false
             end
         end) fa
  | _, _ => false
  end.

Definition is_None (v : json) : bool :=
  match v with JNull => true | _ => false end.

Definition py_str (L : pylib) (v : json) : string :=
  match v with
  | JNull => "None"
  | JBool true => "True"
  | JBool false => "False"
  | JNum n => pretty n
  | JStr s => s
  | JArr _ | JObj _ => py_repr L v
  end.

Definition py_type_name (v : json) : string :=
  match v with
  | JNull => "NoneType"
  | JBool _ => "bool"
  | JNum _ => "int"
  | JStr _ => "str"
  | JArr _ => "list"
  | JObj _ => "dict"
  end.

Definition attribute_error (v : json) (attr : string) : exn :=
  Exn AttributeError
      ("'" +:+ py_type_name v +:+ "' object has no attribute '" +:+ attr +:+ "'").

Definition type_error (msg : string) : exn := Exn TypeError msg.

(** [d.get(k, default)]: only a dict has the method. *)
Definition py_get (d : json) (k : string) (default : json) : exn + json :=
  match d with
  | JObj fields => inr (from_option id default (dict_get k fields))
  | _ => inl (attribute_error d "get")
  end.

(** [d.items()] *)
Definition py_items (d : json) : exn + list (string * json) :=
  match d with
  | JObj fields => inr fields
  | _ => inl (attribute_error d "items")
  end.

Definition chars_of (s : string) : list json :=
  (fun c => JStr (String c "")) <$> list_ascii_of_string s.

(** [for x in v]: a list yields its items, a dict its keys, a str its
    characters; anything else is not iterable. *)
Definition py_iter (v : json) : exn + list json :=
  match v with
  | JArr items => inr items
  | JObj fields => inr ((fun kv => JStr (fst kv)) <$> fields)
  | JStr s => inr (chars_of s)
  | _ => inl (type_error ("'" +:+ py_type_name v +:+ "' object is not iterable"))
  end.

Definition unhashable (v : json) : exn :=
  type_error ("unhashable type: '" +:+ py_type_name v +:+ "'").

(** Python indexing of a sequence: a negative index counts from the end. *)
Definition py_index {A : Type} (l : list A) (i : Z) : option A :=
  let n := Z.of_nat (length l) in
  if (0 <=? i) && (i <? n) then l !! Z.to_nat i
  else if (- n <=? i) && (i <? 0) then l !! Z.to_nat (n + i)
  else None.

(** *** Strings *)

Fixpoint is_substring (sub s : string) : bool :=
  String.prefix sub s ||
  match s with
  | EmptyString => false
  | String _ s' => is_substring sub s'
  end.

Definition ends_with (s suffix : string) : bool :=
  String.prefix (String.rev suffix) (String.rev s).

Definition ends_with_any (s : string) (suffixes : list string) : bool :=
  existsb (ends_with s) suffixes.

(** Text after the first occurrence of [c], when there is one:
    [s.split(c, 1)[1]] under the guard [c in s]. *)
Fixpoint after_first (c : ascii) (s : string) : option string :=
  match s with
  | EmptyString => None
  | String a s' => if Ascii.eqb a c then Some s' else after_first c s'
  end.

(** [s.rsplit(c, 1)] under the guard [c in s]: the text before and after the
    last occurrence of [c]. *)
Fixpoint rsplit_last (c : ascii) (s : string) : option (string * string) :=
  match s with
  | EmptyString => None
  | String a s' =>
      match rsplit_last c s' with
      | Some (l, r) => Some (String a l, r)
      | None => if Ascii.eqb a c then Some (EmptyString, s') else None
      end
  end.

Definition lower_ascii (a : ascii) : ascii :=
  let n := N_of_ascii a in
  if ((65 <=? n) && (n <=? 90))%N then ascii_of_N (n + 32) else a.

(** [s.lower()] on the ASCII range. *)
Fixpoint str_lower (s : string) : string :=
  match s with
  | EmptyString => EmptyString
  | String a s' => String (lower_ascii a) (str_lower s')
  end.

Definition hex_digit (n : N) : ascii :=
  if (n <? 10)%N then ascii_of_N (48 + n) else ascii_of_N (55 + n).

Definition url_safe (a : ascii) : bool :=
  let n := N_of_ascii a in
  ((48 <=? n) && (n <=? 57) || (65 <=? n) && (n <=? 90) ||
   (97 <=? n) && (n <=? 122))%N ||
  existsb (Ascii.eqb a) ["_"; "."; "-"; "~"]%char.

(** [urllib.parse.quote_plus] *)
Fixpoint quote_plus (s : string) : string :=
  match s with
  | EmptyString => EmptyString
  | String a s' =>
      if Ascii.eqb a " "%char then String "+"%char (quote_plus s')
      else if url_safe a then String a (quote_plus s')
      else let n := N_of_ascii a in
           String "%"%char
             (String (hex_digit (n / 16)) (String (hex_digit (n mod 16)) (quote_plus s')))
  end.

(** [urllib.parse.urlencode] of a dict of str keys. *)
Definition urlencode (L : pylib) (params : list (string * json)) : string :=
  let pair kv := quote_plus (fst kv) +:+ "=" +:+ quote_plus (py_str L (snd kv)) in
  match params with
  | [] => ""
  | kv :: rest => fold_left (fun acc kv' => acc +:+ "&" +:+ pair kv') rest (pair kv)
  end.

(** [range(n)] *)
Definition py_range (n : Z) : list Z := Z.of_nat <$> seq 0 (Z.to_nat n).

(** *** Membership and subscription *)

(** [x in c] *)
Definition py_contains (c x : json) : exn + bool :=
  match c with
  | JObj fields =>
      match x with
      | JStr k => inr (bool_decide (is_Some (dict_get k fields)))
      | JArr _ | JObj _ => inl (unhashable x)
      | _ => inr false
      end
  | JArr items => inr (existsb (fun item => py_eq item x) items)
  | JStr s =>
      match x with
      | JStr sub => inr (is_substring sub s)
      | _ => inl (type_error ("'in <string>' requires string as left operand, not "
                               +:+ py_type_name x))
      end
  | _ => inl (type_error ("argument of type '" +:+ py_type_name c +:+ "' is not iterable"))
  end.

Definition index_of (x : json) : option Z :=
  match x with
  | JNum n => Some n
  | JBool b => Some (if b then 1 else 0)
  | _ => None
  end.

(** [c[x]] *)
Definition py_getitem (L : pylib) (c x : json) : exn + json :=
  match c with
  | JObj fields =>
      match x with
      | JStr k =>
          match dict_get k fields with
          | Some v => inr v
          | None => inl (Exn KeyError ("'" +:+ k +:+ "'"))
          end
      | JArr _ | JObj _ => inl (unhashable x)
      | _ => inl (Exn KeyError (py_str L x))
      end
  | JArr items =>
      match index_of x with
      | Some i =>
          match py_index items i with
          | Some v => inr v
          | None => inl (Exn IndexError "list index out of range")
          end
      | None => inl (type_error ("list indices must be integers or slices, not "
                                  +:+ py_type_name x))
      end
  | JStr s =>
      match index_of x with
      | Some i =>
          match py_index (chars_of s) i with
          | Some v => inr v
          | None => inl (Exn IndexError "string index out of range")
          end
      | None => inl (type_error ("string indices must be integers, not '"
                                  +:+ py_type_name x +:+ "'"))
      end
  | _ => inl (type_error ("'" +:+ py_type_name c +:+ "' object is not subscriptable"))
  end.

(** [d[k]] on a [Dict[str, str]] of the request. *)
Definition str_dict_item (d : gmap string string) (k : string) : exn + string :=
  match d !! k with
  | Some v => inr v
  | None => inl (Exn KeyError ("'" +:+ k +:+ "'"))
  end.

(** [str(d.get(k))] on a [Dict[str, str]]. *)
Definition str_dict_get_str (d : gmap string string) (k : string) : string :=
  from_option id "None" (d !! k).

(** ** Base64 ([base64.b64encode], and the RFC 4648 decoder that reads it back)

    Bytes are the characters of a [string]. *)

Module Base64.

#[local] Open Scope N_scope.

Definition b64_char (n : N) : ascii :=
  if n <? 26 then ascii_of_N (65 + n)
  else if n <? 52 then ascii_of_N (71 + n)
  else if n <? 62 then ascii_of_N (n - 4)
  else if n =? 62 then "+"%char
  else "/"%char.

Definition b64_index (c : ascii) : option N :=
  let n := N_of_ascii c in
  if (65 <=? n) && (n <=? 90) then Some (n - 65)
  else if (97 <=? n) && (n <=? 122) then Some (n - 71)
  else if (48 <=? n) && (n <=? 57) then Some (n + 4)
  else if n =? 43 then Some 62
  else if n =? 47 then Some 63
  else None.

Definition pad : ascii := "="%char.

(** Three bytes are one 24-bit group, written as four 6-bit digits; [rest]
    is the encoding of what follows. *)
Definition encode3 (a b c : ascii) (rest : string) : string :=
  let n := N_of_ascii a * 65536 + N_of_ascii b * 256 + N_of_ascii c in
  String (b64_char (n / 262144))
    (String (b64_char ((n / 4096) mod 64))
       (String (b64_char ((n / 64) mod 64))
          (String (b64_char (n mod 64)) rest))).

Definition encode2 (a b : ascii) : string :=
  let n := N_of_ascii a * 65536 + N_of_ascii b * 256 in
  String (b64_char (n / 262144))
    (String (b64_char ((n / 4096) mod 64))
       (String (b64_char ((n / 64) mod 64)) (String pad EmptyString))).

Definition encode1 (a : ascii) : string :=
  let n := N_of_ascii a * 65536 in
  String (b64_char (n / 262144))
    (String (b64_char ((n / 4096) mod 64)) (String pad (String pad EmptyString))).

Fixpoint b64encode (bs : string) : string :=
  match bs with
  | EmptyString => EmptyString
  | String a EmptyString => encode1 a
  | String a (String b EmptyString) => encode2 a b
  | String a (String b (String c rest)) => encode3 a b c (b64encode rest)
  end.

Definition byte_at (n : N) (shift : N) : ascii := ascii_of_N ((n / shift) mod 256).

(** The decoder: groups of four digits; padding only in the last group, and
    the bits it cuts off must be zero. *)
Fixpoint b64decode (s : string) : option string :=
  match s with
  | EmptyString => Some EmptyString
  | String c1 (String c2 (String c3 (String c4 rest))) =>
      match b64_index c1, b64_index c2 with
      | Some i1, Some i2 =>
          if Ascii.eqb c4 pad then
            match rest with
            | EmptyString =>
                if Ascii.eqb c3 pad then
                  let n := i1 * 262144 + i2 * 4096 in
                  if n mod 65536 =? 0
                  then Some (String (byte_at n 65536) EmptyString)
                  else None
                else
                  match b64_index c3 with
                  | Some i3 =>
                      let n := i1 * 262144 + i2 * 4096 + i3 * 64 in
                      if n mod 256 =? 0
                      then Some (String (byte_at n 65536)
                                   (String (byte_at n 256) EmptyString))
                      else None
                  | None => None
                  end
            | _ => None
            end
          else
            match b64_index c3, b64_index c4, b64decode rest with
            | Some i3, Some i4, Some out =>
                let n := i1 * 262144 + i2 * 4096 + i3 * 64 + i4 in
                Some (String (byte_at n 65536)
                        (String (byte_at n 256) (String (byte_at n 1) out)))
            | _, _, _ => None
            end
      | _, _ => None
      end
  | _ => None
  end.

End Base64.

(** ** The outside world *)

(** One part of a multipart upload: [(filename, content, content_type)] with
    the absent components of the tuples in the source left out. *)
Record file_part : Type := FilePart {
  part_filename : option string;
  part_content : string;
  part_content_type : option string
}.

(** Every call that leaves the process, in the order the source makes them. *)
Inductive call : Type :=
| Cleanup
| HttpGet (url : string)
| HttpPostJson (url : string) (payload : list (string * json))
| HttpPostData (url : string) (body : list (string * json))
| HttpPostFiles (url : string) (files : list (string * file_part))
| HttpPut (url : string) (data : string) (content_type : string)
| Uuid4
| WsConnect (url : string)
| WsRecv (ws : nat)
| WsClose (ws : nat)
| Sleep (seconds : Z)
| Print (line : string)
| PrintExc (e : exn).

(** A [requests.Response]. *)
Record response : Type := Response {
  status_code : Z;
  reason : string;
  content : string;
  text : string;
  json_body : exn + json
}.

(** A text frame is given by what [json.loads] makes of it: the value it
    decodes to; text that is not JSON, on which it raises JSONDecodeError; or
    JSON text on which the decoder itself gives up with an exception of
    another class (RecursionError on deep nesting, ValueError on an integer
    beyond the digit limit). *)
Inductive text_payload : Type :=
| Json (msg : json)
| NotJson (raw : string)
| Undecoded (raw : string) (e : exn).

(** What [ws.recv()] returns: a [str] or [bytes]. *)
Inductive frame : Type :=
| TextFrame (payload : text_payload)
| BinaryFrame (raw : string).

(** The answers of the outside, each read at the position the call takes in
    the record of calls.  Every network call of the source carries a timeout,
    so every call is answered: by a value or by an exception. *)
Record env : Type := Env {
  lib : pylib;
  cleanup_reply : nat -> option exn;
  http_reply : nat -> exn + response;
  uuid_reply : nat -> string;
  ws_connect_reply : nat -> option exn;
  ws_recv_reply : nat -> exn + frame
}.

(** [calls]: oldest first.  [connected]: the websocket objects whose
    [connected] flag is set; a websocket object is named by the position of
    the [WsConnect] that opened it. *)
Record world : Type := World {
  calls : list call;
  connected : gset nat
}.

Definition now (w : world) : nat := length (calls w).

Definition record (c : call) (w : world) : world :=
  World (calls w ++ [c]) (connected w).

Definition initial_world : world := World [] ∅.

(** ** The monad: state, exceptions, and a loop that has not finished *)

Inductive outcome (A : Type) : Type :=
| Ret (a : A)
| Raise (e : exn)
| Pending.

Arguments Ret {A} a.
Arguments Raise {A} e.
Arguments Pending {A}.

Definition M (A : Type) : Type := world -> outcome A * world.

Definition ret {A : Type} (a : A) : M A := fun w => (Ret a, w).

Definition raise {A : Type} (e : exn) : M A := fun w => (Raise e, w).

Definition pending {A : Type} : M A := fun w => (Pending, w).

Definition bind {A B : Type} (m : M A) (k : A -> M B) : M B :=
  fun w =>
    match m w with
    | (Ret a, w') => k a w'
    | (Raise e, w') => (Raise e, w')
    | (Pending, w') => (Pending, w')
    end.

Declare Scope sidecar_scope.
Delimit Scope sidecar_scope with sidecar.
Notation "x <- m ;; k" := (bind m (fun x => k))
  (at level 100, m at next level, right associativity) : sidecar_scope.
Notation "m ;;; k" := (bind m (fun _ => k))
  (at level 100, right associativity) : sidecar_scope.
#[local] Open Scope sidecar_scope.

(** [try: m except Exception as e: h e] *)
Definition try_except {A : Type} (m : M A) (h : exn -> M A) : M A :=
  fun w =>
    match m w with
    | (Raise e, w') => h e w'
    | r => r
    end.

(** [try: m finally: f].  A computation still in its loop has not reached
    its [finally]. *)
Definition try_finally {A : Type} (m : M A) (f : M unit) : M A :=
  fun w =>
    match m w with
    | (Pending, w') => (Pending, w')
    | (r, w') =>
        match f w' with
        | (Ret _, w'') => (r, w'')
        | (Raise e, w'') => (Raise e, w'')
        | (Pending, w'') => (Pending, w'')
        end
    end.

Definition lift {A : Type} (r : exn + A) : M A :=
  match r with
  | inl e => raise e
  | inr a => ret a
  end.

Definition emit (c : call) : M unit := fun w => (Ret tt, record c w).

(** A [for] loop whose body neither returns nor breaks. *)
Fixpoint for_each {A S : Type} (l : list A) (body : A -> S -> M S) (s : S) : M S :=
  match l with
  | [] => ret s
  | x :: l' => s' <- body x s ;; for_each l' body s'
  end.

(** A [for] loop whose body may [return]: [Some r] is the returned value,
    [None] means the loop ran to its end. *)
Fixpoint for_until {A R : Type} (l : list A) (body : A -> M (option R)) : M (option R) :=
  match l with
  | [] => ret None
  | x :: l' =>
      r <- body x ;;
      match r with
      | Some v => ret (Some v)
      | None => for_until l' body
      end
  end.

(** *** The calls *)

Section Calls.
Context (E : env).

Definition print (line : string) : M unit := emit (Print line).

(** [time.sleep] turns a whole number of seconds into a signed 64-bit count
    of nanoseconds, and refuses with OverflowError a length that does not
    fit (the text is CPython's up to 3.12); a negative length that fits it
    refuses with ValueError. *)
Definition MAX_SLEEP_S : Z := 9223372036.

Definition sleep_refusal (seconds : Z) : option exn :=
  if (seconds <? - MAX_SLEEP_S) || (MAX_SLEEP_S <? seconds) then
    Some (Exn (OtherException "OverflowError")
              "timestamp too large to convert to C _PyTime_t")
  else if seconds <? 0 then
    Some (Exn ValueError "sleep length must be non-negative")
  else None.

Definition sleep (seconds : Z) : M unit :=
  match sleep_refusal seconds with
  | Some e => raise e
  | None => emit (Sleep seconds)
  end.

Definition http (c : call) : M response :=
  fun w => (match http_reply E (now w) with
            | inl e => Raise e
            | inr r => Ret r
            end, record c w).

Definition http_error_text (r : response) (url : string) : string :=
  pretty (status_code r) +:+
  (if status_code r <? 500 then " Client Error: " else " Server Error: ") +:+
  reason r +:+ " for url: " +:+ url.

(** [Response.raise_for_status] *)
Definition raise_for_status (r : response) (url : string) : M unit :=
  if (400 <=? status_code r) && (status_code r <? 600)
  then raise (Exn HTTPError (http_error_text r url))
  else ret tt.

Definition uuid4 : M string :=
  fun w => (Ret (uuid_reply E (now w)), record Uuid4 w).

(** [ws = websocket.WebSocket(); ws.connect(url, timeout=10)] *)
Definition ws_connect (url : string) : M nat :=
  fun w =>
    match ws_connect_reply E (now w) with
    | Some e => (Raise e, record (WsConnect url) w)
    | None =>
        (Ret (now w),
         World (calls w ++ [WsConnect url]) ({[now w]} ∪ connected w))
    end.

(** [ws.recv()]; the library clears [connected] when it reports the
    connection closed. *)
Definition ws_recv (ws : nat) : M frame :=
  fun w =>
    match ws_recv_reply E (now w) with
    | inr f => (Ret f, record (WsRecv ws) w)
    | inl e =>
        (Raise e,
         World (calls w ++ [WsRecv ws])
               (if decide (exn_kind e = WebSocketConnectionClosedException)
                then connected w ∖ {[ws]} else connected w))
    end.

Definition ws_is_connected (ws : nat) : M bool :=
  fun w => (Ret (bool_decide (ws ∈ connected w)), w).

Definition ws_close (ws : nat) : M unit :=
  fun w => (Ret tt, World (calls w ++ [WsClose ws]) (connected w ∖ {[ws]})).

Definition json_loads (p : text_payload) : exn + json :=
  match p with
  | Json msg => inr msg
  | NotJson raw => inl (Exn JSONDecodeError "Expecting value: line 1 column 1 (char 0)")
  | Undecoded raw e => inl e
  end.

End Calls.

(** ** The handler *)

Record config : Type := Config {
  WEBSOCKET_RECONNECT_ATTEMPTS : Z;
  WEBSOCKET_RECONNECT_DELAY_S : Z;
  COMFY_ORG_API_KEY : option string
}.

(** The defaults of the source when the process environment sets nothing. *)
Definition default_config : config := Config 5 3 None.

Definition COMFY_HOST : string := "127.0.0.1:8188".

Definition comfy_root : string := "http://" +:+ COMFY_HOST +:+ "/".

Record RunRequest : Type := {
  workflow : list (string * json);
  callback_url : string;
  images : option (list (gmap string string));
  download_urls : option (list (gmap string string));
  upload_urls : option (list (gmap string string));
  comfy_org_api_key : option string
}.

(** The dict the two staging functions return. *)
Record staging_report : Type := StagingReport {
  status : string;
  details : list string
}.

Definition str_list (l : list string) : json := JArr (JStr <$> l).

Definition non_empty {A : Type} (l : list A) : bool :=
  match l with [] => false | _ => true end.

(** [x or []] and the truth value of an [Optional[List]]. *)
Definition or_empty {A : Type} (o : option (list A)) : list A := from_option id [] o.

Definition overwrite_part : string * file_part := ("overwrite", FilePart None "true" None).

Definition video_upload_suffixes : list string := [".mp4"; ".mov"; ".avi"; ".mkv"; ".webm"].

Definition video_output_suffixes : list string := [".mp4"; ".mov"; ".avi"].

(** [filename.endswith(...)] inside the upload of an output: only a [str]
    has the method. *)
Definition py_endswith (v : json) (suffixes : list string) : exn + bool :=
  match v with
  | JStr s => inr (ends_with_any s suffixes)
  | _ => inl (attribute_error v "endswith")
  end.

Section Handler.
Context (C : config) (E : env).

#[local] Abbreviation L := (lib E).

(** The body of the [for] of [_fire_callback]: [Some tt] is the [return]
    after a delivery. *)
Definition callback_attempt (url : string) (payload : list (string * json))
    (label : string) (attempt : Z) : M (option unit) :=
  delivered <-
    try_except
      (r <- http E (HttpPostJson url payload) ;;
       if status_code r <? 300 then
         print ("[sidecar] " +:+ label +:+ " delivered (attempt "
                +:+ pretty (attempt + 1) +:+ ")") ;;;
         ret true
       else
         print ("[sidecar] " +:+ label +:+ " got "
                +:+ pretty (status_code r) +:+ ", retrying...") ;;;
         ret false)
      (fun e =>
         print ("[sidecar] " +:+ label +:+ " attempt "
                +:+ pretty (attempt + 1) +:+ " failed: " +:+ exn_msg e) ;;;
         ret false) ;;
  if delivered : bool then ret (Some tt)
  else sleep 5 ;;; ret None.

Definition _fire_callback (url : string) (payload : list (string * json))
    (label : string) : M unit :=
  r <- for_until (py_range 3) (callback_attempt url payload label) ;;
  match r with
  | Some _ => ret tt
  | None => print ("[sidecar] " +:+ label +:+ " failed after 3 attempts")
  end.

Definition _check_server (url : string) (retries : Z) (delay : Z) : M bool :=
  r <- for_until (py_range retries) (fun _ =>
         ok <- try_except
                 (r <- http E (HttpGet url) ;; ret (status_code r =? 200))
                 (fun _ => ret false) ;;
         if ok : bool then ret (Some true)
         else sleep delay ;;; ret None) ;;
  ret (from_option id false r).

(** The directory sweep; what can escape it is an exception of
    [os.listdir]. *)
Definition _cleanup_comfyui_directories : M unit :=
  fun w => (match cleanup_reply E (now w) with
            | Some e => Raise e
            | None => Ret tt
            end, record Cleanup w).

Definition upload_image_item (image : gmap string string) : M unit :=
  name <- lift (str_dict_item image "name") ;;
  data <- lift (str_dict_item image "image") ;;
  let data := from_option id data (after_first ","%char data) in
  blob <- lift (py_b64decode L data) ;;
  let url := "http://" +:+ COMFY_HOST +:+ "/upload/image" in
  r <- http E (HttpPostFiles url
                 [("image", FilePart (Some name) blob (Some "image/png"));
                  overwrite_part]) ;;
  raise_for_status r url.

Definition _upload_images (images : list (gmap string string)) : M staging_report :=
  errors <- for_each images (fun image errors =>
              try_except
                (upload_image_item image ;;; ret errors)
                (fun e =>
                   ret (errors ++ ["Failed to upload "
                                   +:+ str_dict_get_str image "name"
                                   +:+ ": " +:+ exn_msg e]))) [] ;;
  ret (StagingReport (if non_empty errors then "error" else "success") errors).

Definition download_item (item : gmap string string) : M unit :=
  name <- lift (str_dict_item item "name") ;;
  src <- lift (str_dict_item item "url") ;;
  got <- http E (HttpGet src) ;;
  let file_bytes := content got in
  let '(subfolder, filename) :=
    from_option id (EmptyString, name) (rsplit_last "/"%char name) in
  let name_lower := str_lower filename in
  let '(endpoint, content_type, form_field) :=
    if ends_with_any name_lower video_upload_suffixes
    then ("http://" +:+ COMFY_HOST +:+ "/upload/video", "video/mp4", "video")
    else ("http://" +:+ COMFY_HOST +:+ "/upload/image", "image/png", "image") in
  let files := [(form_field, FilePart (Some filename) file_bytes (Some content_type));
                overwrite_part] in
  let files := if String.eqb subfolder "" then files
               else files ++ [("subfolder", FilePart None subfolder None)] in
  r <- http E (HttpPostFiles endpoint files) ;;
  raise_for_status r endpoint.

Definition _download_and_upload_files (download_urls : list (gmap string string))
  : M staging_report :=
  errors <- for_each download_urls (fun item errors =>
              try_except
                (download_item item ;;; ret errors)
                (fun e =>
                   ret (errors ++ ["Failed to process "
                                   +:+ str_dict_get_str item "name"
                                   +:+ ": " +:+ exn_msg e]))) [] ;;
  ret (StagingReport (if non_empty errors then "error" else "success") errors).

Definition _queue_workflow (workflow : list (string * json)) (client_id : string)
    (comfy_org_api_key : option string) : M json :=
  let payload := [("prompt", JObj workflow); ("client_id", JStr client_id)] in
  let effective_key :=
    match comfy_org_api_key with
    | Some k => if String.eqb k "" then COMFY_ORG_API_KEY C else Some k
    | None => COMFY_ORG_API_KEY C
    end in
  let payload :=
    match effective_key with
    | Some k =>
        if String.eqb k "" then payload
        else dict_set "extra_data" (JObj [("api_key_comfy_org", JStr k)]) payload
    | None => payload
    end in
  let url := "http://" +:+ COMFY_HOST +:+ "/prompt" in
  r <- http E (HttpPostData url payload) ;;
  if status_code r =? 400
  then raise (Exn ValueError ("Workflow validation failed: " +:+ text r))
  else raise_for_status r url ;;; lift (json_body r).

Definition unreachable_error : exn :=
  Exn WebSocketConnectionClosedException "ComfyUI unreachable during reconnect".

Definition exhausted_error : exn :=
  Exn WebSocketConnectionClosedException
      ("Failed to reconnect after " +:+ pretty (WEBSOCKET_RECONNECT_ATTEMPTS C)
       +:+ " attempts").

(** The body of the [for] of [_reconnect_websocket]: [Some ws] is
    [return new_ws]. *)
Definition reconnect_attempt (ws_url : string) (attempt : Z) : M (option nat) :=
  try_except
    (r <- http E (HttpGet comfy_root) ;; raise_for_status r comfy_root)
    (fun _ => raise unreachable_error) ;;;
  try_except
    (new_ws <- ws_connect E ws_url ;;
     print ("[sidecar] WebSocket reconnected on attempt " +:+ pretty (attempt + 1)) ;;;
     ret (Some new_ws))
    (fun e =>
       print ("[sidecar] Reconnect attempt " +:+ pretty (attempt + 1)
              +:+ " failed: " +:+ exn_msg e) ;;;
       sleep (WEBSOCKET_RECONNECT_DELAY_S C) ;;;
       ret None).

Definition _reconnect_websocket (ws_url : string) (initial_error : exn) : M nat :=
  r <- for_until (py_range (WEBSOCKET_RECONNECT_ATTEMPTS C)) (reconnect_attempt ws_url) ;;
  match r with
  | Some new_ws => ret new_ws
  | None => raise exhausted_error
  end.

Definition node_error_entry (data : json) : exn + string :=
  match py_get data "node_id" JNull, py_get data "node_type" JNull,
        py_get data "exception_message" JNull with
  | inr node_id, inr node_type, inr message =>
      inr ("Node " +:+ py_str L node_id +:+ " (" +:+ py_str L node_type +:+ "): "
           +:+ py_str L message)
  | inl e, _, _ | _, inl e, _ | _, _, inl e => inl e
  end.

(** The body of the [try] of the monitoring loop: [Some r] is [return r],
    [None] falls through to the next round. *)
Definition monitor_round (ws : nat) (prompt_id : json) (errors : list string)
  : M (option (bool * list string)) :=
  out <- ws_recv E ws ;;
  match out with
  | BinaryFrame _ => ret None
  | TextFrame payload =>
      msg <- lift (json_loads payload) ;;
      msg_type <- lift (py_get msg "type" JNull) ;;
      if py_eq msg_type (JStr "executing") then
        data <- lift (py_get msg "data" (JObj [])) ;;
        node <- lift (py_get data "node" JNull) ;;
        if is_None node then
          pid <- lift (py_get data "prompt_id" JNull) ;;
          if py_eq pid prompt_id then ret (Some (true, errors)) else ret None
        else ret None
      else if py_eq msg_type (JStr "execution_error") then
        data <- lift (py_get msg "data" (JObj [])) ;;
        pid <- lift (py_get data "prompt_id" JNull) ;;
        if py_eq pid prompt_id then
          entry <- lift (node_error_entry data) ;;
          ret (Some (false, errors ++ [entry]))
        else ret None
      else ret None
  end.

(** One pass through the [try ... except] of the loop: [inl] is the
    [return], [inr] the websocket to go on with. *)
Definition monitor_iteration (ws_url : string) (prompt_id : json) (ws : nat)
    (errors : list string) : M ((bool * list string) + nat) :=
  try_except
    (r <- monitor_round ws prompt_id errors ;;
     match r with
     | Some result => ret (inl result)
     | None => ret (inr ws)
     end)
    (fun e =>
       if decide (exn_kind e = WebSocketTimeoutException) then ret (inr ws)
       else if decide (exn_kind e = WebSocketConnectionClosedException) then
         new_ws <- _reconnect_websocket ws_url e ;; ret (inr new_ws)
       else if decide (exn_kind e = JSONDecodeError) then ret (inr ws)
       else raise e).

(** [while True]: one unit of [fuel] per pass; [Pending] when the loop is
    still running after [fuel] passes. *)
Fixpoint monitor_loop (fuel : nat) (ws_url : string) (prompt_id : json)
    (ws : nat) (errors : list string) : M (bool * list string) :=
  match fuel with
  | O => pending
  | S fuel' =>
      r <- monitor_iteration ws_url prompt_id ws errors ;;
      match r with
      | inl result => ret result
      | inr ws' => monitor_loop fuel' ws_url prompt_id ws' errors
      end
  end.

Definition _monitor_execution (fuel : nat) (ws : nat) (ws_url : string)
    (prompt_id : json) : M (bool * list string) :=
  monitor_loop fuel ws_url prompt_id ws [].

Definition _get_history (prompt_id : json) : M json :=
  let url := "http://" +:+ COMFY_HOST +:+ "/history/" +:+ py_str L prompt_id in
  r <- http E (HttpGet url) ;;
  raise_for_status r url ;;;
  lift (json_body r).

Definition build_upload_map (upload_urls : list (gmap string string))
  : M (gmap string string) :=
  for_each upload_urls (fun item (m : gmap string string) =>
    name <- lift (str_dict_item item "name") ;;
    dest <- lift (str_dict_item item "url") ;;
    ret (<[name := dest]> m)) ∅.

(** [upload_map.get(filename)]: the key must be hashable. *)
Definition upload_map_get (upload_map : gmap string string) (filename : json)
  : exn + option string :=
  match filename with
  | JStr s => inr (upload_map !! s)
  | JArr _ | JObj _ => inl (unhashable filename)
  | _ => inr None
  end.

Definition uploaded_entry (filename : json) : json :=
  JObj [("filename", filename); ("type", JStr "uploaded")].

Definition inlined_entry (filename : json) (file_bytes : string) : json :=
  JObj [("filename", filename); ("type", JStr "base64");
        ("data", JStr (Base64.b64encode file_bytes))].

(** The body of the innermost loop of [_process_outputs], on the pair
    [(output_data, errors)]. *)
Definition collect_artifact (upload_map : gmap string string) (file_info : json)
    (acc : list json * list string) : M (list json * list string) :=
  let '(output_data, errors) := acc in
  filename <- lift (py_get file_info "filename" JNull) ;;
  subfolder <- lift (py_get file_info "subfolder" (JStr "")) ;;
  file_type <- lift (py_get file_info "type" JNull) ;;
  if negb (py_truthy filename) || py_eq file_type (JStr "temp") then ret acc
  else
    let params := urlencode L [("filename", filename); ("subfolder", subfolder);
                               ("type", file_type)] in
    fetched <- try_except
                 (r <- http E (HttpGet ("http://" +:+ COMFY_HOST +:+ "/view?" +:+ params)) ;;
                  ret (inr (content r)))
                 (fun e => ret (inl e)) ;;
    match fetched with
    | inl e =>
        ret (output_data,
             errors ++ ["Failed to fetch " +:+ py_str L filename +:+ ": " +:+ exn_msg e])
    | inr file_bytes =>
        upload_url <- lift (upload_map_get upload_map filename) ;;
        match upload_url with
        | Some dest =>
            if String.eqb dest "" then
              ret (output_data ++ [inlined_entry filename file_bytes], errors)
            else
              try_except
                (is_video <- lift (py_endswith filename video_output_suffixes) ;;
                 let content_type := if is_video : bool then "video/mp4" else "image/png" in
                 r <- http E (HttpPut dest file_bytes content_type) ;;
                 raise_for_status r dest ;;;
                 ret (output_data ++ [uploaded_entry filename], errors))
                (fun e =>
                   ret (output_data,
                        errors ++ ["Failed to upload " +:+ py_str L filename
                                   +:+ ": " +:+ exn_msg e]))
        | None => ret (output_data ++ [inlined_entry filename file_bytes], errors)
        end
    end.

Definition output_keys : list string := ["videos"; "gifs"; "images"].

Definition _process_outputs (outputs : json)
    (upload_urls : option (list (gmap string string))) : M (list json * list string) :=
  upload_map <- build_upload_map (or_empty upload_urls) ;;
  nodes <- lift (py_items outputs) ;;
  for_each nodes (fun node acc =>
    for_each output_keys (fun key acc =>
      listed <- lift (py_get (snd node) key (JArr [])) ;;
      file_infos <- lift (py_iter listed) ;;
      for_each file_infos (collect_artifact upload_map) acc) acc) ([], []).

Definition failed (error : string) : list (string * json) :=
  [("status", JStr "failed"); ("error", JStr error)].

Definition failed_with (error : string) (details : list string) : list (string * json) :=
  [("status", JStr "failed"); ("error", JStr error); ("details", str_list details)].

(** The guard of the branch that reports a monitor that came back with
    neither a completion nor an error. *)
Definition exited_unexpectedly (execution_done : bool) (exec_errors : list string) : bool :=
  negb execution_done && negb (non_empty exec_errors).

(** Everything of [_execute_job] after the [try ... finally] around the
    monitoring. *)
Definition collect_result (req : RunRequest) (prompt_id : json)
    (execution_done : bool) (exec_errors : list string) : M (list (string * json)) :=
  if exited_unexpectedly execution_done exec_errors then
    ret (failed "Execution monitoring exited unexpectedly")
  else
    history <- _get_history prompt_id ;;
    found <- lift (py_contains history prompt_id) ;;
    if negb found then
      ret (failed ("Prompt " +:+ py_str L prompt_id +:+ " not found in history"))
    else
      record_ <- lift (py_getitem L history prompt_id) ;;
      outputs <- lift (py_get record_ "outputs" (JObj [])) ;;
      out <- _process_outputs outputs (upload_urls req) ;;
      let '(output_data, output_errors) := out in
      let all_errors := exec_errors ++ output_errors in
      if negb (non_empty output_data) && non_empty all_errors then
        ret (failed_with "Job produced no output" all_errors)
      else
        let result := [("status", JStr "completed"); ("images", JArr output_data)] in
        if non_empty all_errors
        then ret (dict_set "warnings" (str_list all_errors) result)
        else ret result.

(** The staging of one kind of input: [None] lets the job go on. *)
Definition stage_inputs (items : option (list (gmap string string)))
    (stage : list (gmap string string) -> M staging_report) (error : string)
  : M (option (list (string * json))) :=
  if non_empty (or_empty items) then
    r <- stage (or_empty items) ;;
    if String.eqb (status r) "error"
    then ret (Some (failed_with error (details r)))
    else ret None
  else ret None.

(** [_execute_job] up to the open websocket: [inl] is an early [return]. *)
Definition prepare (req : RunRequest)
  : M (list (string * json) + (string * string * nat)) :=
  _cleanup_comfyui_directories ;;;
  reachable <- _check_server comfy_root 5 1 ;;
  if negb reachable then ret (inl (failed "ComfyUI not reachable"))
  else
    staged <- stage_inputs (images req) _upload_images "Image upload failed" ;;
    match staged with
    | Some result => ret (inl result)
    | None =>
        staged <- stage_inputs (download_urls req) _download_and_upload_files
                    "File download/upload failed" ;;
        match staged with
        | Some result => ret (inl result)
        | None =>
            client_id <- uuid4 E ;;
            let ws_url := "ws://" +:+ COMFY_HOST +:+ "/ws?clientId=" +:+ client_id in
            ws <- ws_connect E ws_url ;;
            ret (inr (client_id, ws_url, ws))
        end
    end.

(** The body of the inner [try]: [inl] is the early [return]. *)
Definition submit_and_monitor (fuel : nat) (job_id : string) (req : RunRequest)
    (client_id ws_url : string) (ws : nat)
  : M (list (string * json) + (json * (bool * list string))) :=
  queued <- _queue_workflow (workflow req) client_id (comfy_org_api_key req) ;;
  prompt_id <- lift (py_get queued "prompt_id" JNull) ;;
  if negb (py_truthy prompt_id) then
    ret (inl (failed ("No prompt_id in response: " +:+ py_str L queued)))
  else
    print ("[sidecar] Job " +:+ job_id +:+ " -> prompt " +:+ py_str L prompt_id) ;;;
    r <- _monitor_execution fuel ws ws_url prompt_id ;;
    ret (inr (prompt_id, r)).

(** The [finally]: [if ws.connected: ws.close()] *)
Definition close_if_connected (ws : nat) : M unit :=
  still <- ws_is_connected ws ;;
  if still : bool then ws_close ws else ret tt.

Definition execute_job_body (fuel : nat) (job_id : string) (req : RunRequest)
  : M (list (string * json)) :=
  p <- prepare req ;;
  match p with
  | inl result => ret result
  | inr (client_id, ws_url, ws) =>
      monitored <- try_finally
                     (submit_and_monitor fuel job_id req client_id ws_url ws)
                     (close_if_connected ws) ;;
      match monitored with
      | inl result => ret result
      | inr (prompt_id, (execution_done, exec_errors)) =>
          collect_result req prompt_id execution_done exec_errors
      end
  end.

Definition _execute_job (fuel : nat) (job_id : string) (req : RunRequest)
  : M (list (string * json)) :=
  try_except (execute_job_body fuel job_id req)
    (fun e => emit (PrintExc e) ;;; ret (failed (exn_msg e))).

(** [{"job_id": job_id, **result}] *)
Definition callback_payload (job_id : string) (result : list (string * json))
  : list (string * json) :=
  dict_update [("job_id", JStr job_id)] result.

Definition _run_job (fuel : nat) (job_id : string) (req : RunRequest) : M unit :=
  result <- _execute_job fuel job_id req ;;
  _fire_callback (callback_url req) (callback_payload job_id result) "job-callback".

End Handler.

(** ** Scripted environments, for running the handler on concrete inputs *)

(** The answer to the call at one position; [Silent] stands at the position
    of a call that gets no answer ([print], [sleep], [close]). *)
Inductive answer : Type :=
| Silent
| Swept (failure : option exn)
| Replied (r : exn + response)
| Named (uuid : string)
| Connected (failure : option exn)
| Received (r : exn + frame).

Definition timed_out : exn := Exn (OtherException "Timeout") "timed out".

Definition plain_lib : pylib :=
  PyLib (fun _ => "<container>")
        (fun s => match Base64.b64decode s with
                  | Some b => inr b
                  | None => inl (Exn (OtherException "binascii.Error") "Incorrect padding")
                  end).

(** Positions beyond the script, or of another kind than the call made there,
    answer with a failure; a [recv] there times out. *)
Definition scripted (script : list answer) : env :=
  Env plain_lib
      (fun t => match script !! t with Some (Swept o) => o | _ => None end)
      (fun t => match script !! t with Some (Replied r) => r | _ => inl timed_out end)
      (fun t => match script !! t with Some (Named s) => s | _ => "uuid" end)
      (fun t => match script !! t with Some (Connected o) => o | _ => Some timed_out end)
      (fun t => match script !! t with
                | Some (Received r) => r
                | _ => inl (Exn WebSocketTimeoutException "timed out")
                end).

Definition ok_response (body : json) : response :=
  Response 200 "OK" "" "" (inr body).

Definition bytes_response (data : string) : response :=
  Response 200 "OK" data "" (inl (Exn JSONDecodeError "Expecting value")).

Definition status_response (code : Z) (why : string) : response :=
  Response code why "" "" (inl (Exn JSONDecodeError "Expecting value")).

Definition event (type : string) (data : list (string * json)) : exn + frame :=
  inr (TextFrame (Json (JObj [("type", JStr type); ("data", JObj data)]))).

Definition simple_request : RunRequest :=
  {| workflow := [("1", JObj [])]; callback_url := "http://caller/cb";
     images := None; download_urls := None; upload_urls := None;
     comfy_org_api_key := None |}.

(** ** Vocabulary of the statements *)

Definition result_of {A : Type} (m : M A) (w : world) : outcome A := fst (m w).

Definition world_after {A : Type} (m : M A) (w : world) : world := snd (m w).

(** The calls [m] makes when it starts in [w]. *)
Definition calls_made {A : Type} (m : M A) (w : world) : list call :=
  drop (now w) (calls (world_after m w)).

(** [d.get(k)] *)
Definition field (k : string) (d : list (string * json)) : json :=
  from_option id JNull (dict_get k d).

(** [msg.get("data", {})] *)
Definition event_data (fields : list (string * json)) : json :=
  from_option id (JObj []) (dict_get "data" fields).

(** An "executing" event with no node (absent or null) for this execution
    handle. *)
Definition completion_event (prompt_id msg : json) : Prop :=
  exists fields data,
    msg = JObj fields /\
    field "type" fields = JStr "executing" /\
    event_data fields = JObj data /\
    field "node" data = JNull /\
    py_eq (field "prompt_id" data) prompt_id = true.

(** An "executing" event that names a node. *)
Definition progress_event (msg : json) : Prop :=
  exists fields data,
    msg = JObj fields /\
    field "type" fields = JStr "executing" /\
    event_data fields = JObj data /\
    field "node" data <> JNull.

(** An "execution_error" event for this execution handle. *)
Definition error_event (prompt_id msg : json) (data : list (string * json)) : Prop :=
  exists fields,
    msg = JObj fields /\
    field "type" fields = JStr "execution_error" /\
    event_data fields = JObj data /\
    py_eq (field "prompt_id" data) prompt_id = true.


(** A decoded message the handler cannot read as an event: not an object, or
    an "executing" / "execution_error" object whose data is not an object. *)
Definition malformed_message (msg : json) : Prop :=
  (forall fields, msg <> JObj fields) \/
  exists fields,
    msg = JObj fields /\
    (field "type" fields = JStr "executing" \/
     field "type" fields = JStr "execution_error") /\
    forall data, event_data fields <> JObj data.

(** The entry recorded for an error event. *)
Definition error_entry (L : pylib) (data : list (string * json)) : string :=
  "Node " +:+ py_str L (field "node_id" data) +:+ " ("
  +:+ py_str L (field "node_type" data) +:+ "): "
  +:+ py_str L (field "exception_message" data).



(** *** Reconnection *)








(** *** Callback delivery *)

(** The POST made at position [t] is answered with a status below 300. *)
Definition delivered_at (E : env) (t : nat) : bool :=
  match http_reply E t with
  | inr r => status_code r <? 300
  | inl _ => false
  end.

(** The calls of attempt number [i] (from 0), begun at position [t], when it
    does not deliver. *)
Definition failed_delivery (E : env) (url : string) (payload : list (string * json))
    (label : string) (i t : nat) : list call :=
  [HttpPostJson url payload;
   Print (match http_reply E t with
          | inr r => "[sidecar] " +:+ label +:+ " got " +:+ pretty (status_code r)
                     +:+ ", retrying..."
          | inl e => "[sidecar] " +:+ label +:+ " attempt " +:+ pretty (Z.of_nat i + 1)
                     +:+ " failed: " +:+ exn_msg e
          end);
   Sleep 5].

Fixpoint failed_deliveries (E : env) (url : string) (payload : list (string * json))
    (label : string) (i t k : nat) : list call :=
  match k with
  | O => []
  | S k' => failed_delivery E url payload label i t
            ++ failed_deliveries E url payload label (S i) (t + 3) k'
  end.

Fixpoint none_delivered (E : env) (t k : nat) : Prop :=
  match k with
  | O => True
  | S k' => delivered_at E t = false /\ none_delivered E (t + 3) k'
  end.

Definition is_post (c : call) : bool :=
  match c with HttpPostJson _ _ => true | _ => false end.

(** *** Input staging *)

(** Run the body on every item in turn, whatever each run does: the outcome
    of each item, in order, and the world at the end. *)
Fixpoint run_all {A : Type} (body : A -> M unit) (items : list A) (w : world)
  : list (outcome unit) * world :=
  match items with
  | [] => ([], w)
  | x :: rest =>
      let '(r, w1) := body x w in
      let '(rs, w') := run_all body rest w1 in
      (r :: rs, w')
  end.

(** The error lines of the items whose run raised, in the order of the items. *)
Fixpoint failure_lines {A : Type} (line : A -> exn -> string) (items : list A)
    (outcomes : list (outcome unit)) : list string :=
  match items, outcomes with
  | x :: items', Raise e :: outcomes' => line x e :: failure_lines line items' outcomes'
  | _ :: items', _ :: outcomes' => failure_lines line items' outcomes'
  | _, _ => []
  end.

Definition has_raised {A : Type} (r : outcome A) : bool :=
  match r with Raise _ => true | _ => false end.

Definition upload_line (image : gmap string string) (e : exn) : string :=
  "Failed to upload " +:+ str_dict_get_str image "name" +:+ ": " +:+ exn_msg e.

Definition process_line (item : gmap string string) (e : exn) : string :=
  "Failed to process " +:+ str_dict_get_str item "name" +:+ ": " +:+ exn_msg e.

(** A computation with no loop that can be left running. *)
Definition terminates {A : Type} (m : M A) : Prop :=
  forall w, fst (m w) <> Pending.

(** The job has come to its staging: the sweep went through and the engine
    answered. *)
Definition reaches_staging (E : env) (w0 w : world) : Prop :=
  exists w1,
    _cleanup_comfyui_directories E w0 = (Ret tt, w1) /\
    _check_server E comfy_root 5 1 w1 = (Ret true, w).

(** *** Output collection *)

(** The address from which the bytes of an artifact are fetched. *)
Definition view_url (L : pylib) (fields : list (string * json)) : string :=
  "http://" +:+ COMFY_HOST +:+ "/view?"
  +:+ urlencode L [("filename", field "filename" fields);
                   ("subfolder", from_option id (JStr "") (dict_get "subfolder" fields));
                   ("type", field "type" fields)].

(** The artifact descriptors of an output manifest, in the order in which
    [_process_outputs] meets them. *)
Definition listed_artifacts (outputs : json) : list json :=
  match outputs with
  | JObj nodes =>
      flat_map (fun node =>
        flat_map (fun key =>
          match py_get (snd node) key (JArr []) with
          | inr listed => match py_iter listed with inr file_infos => file_infos | inl _ => [] end
          | inl _ => []
          end) output_keys) nodes
  | _ => []
  end.

(** The request at position [t] was answered, and [raise_for_status] accepts
    the answer. *)
Definition accepted_at (E : env) (t : nat) : bool :=
  match http_reply E t with
  | inr r => negb ((400 <=? status_code r) && (status_code r <? 600))
  | inl _ => false
  end.

(** An entry of the result is of exactly one of two kinds: uploaded, with no
    inline data; or inlined, with base64 data. *)
Definition classified (entry : json) : Prop :=
  exists fields,
    entry = JObj fields /\
    ((dict_get "type" fields = Some (JStr "uploaded") /\ dict_get "data" fields = None) \/
     (dict_get "type" fields = Some (JStr "base64") /\
      exists file_bytes,
        dict_get "data" fields = Some (JStr (Base64.b64encode file_bytes)) /\
        Base64.b64decode (Base64.b64encode file_bytes) = Some file_bytes)).

(** An entry of the result made for the descriptor [file_info]. *)
Definition entry_of (file_info entry : json) : Prop :=
  exists fields,
    file_info = JObj fields /\
    field "type" fields <> JStr "temp" /\
    py_truthy (field "filename" fields) = true /\
    (entry = uploaded_entry (field "filename" fields) \/
     exists file_bytes, entry = inlined_entry (field "filename" fields) file_bytes).

(** *** Fuel *)

(** Whenever [m1] has finished, [m2] finishes in the same way. *)
Definition finishes_as {A : Type} (m1 m2 : M A) : Prop :=
  forall w r w', m1 w = (r, w') -> r <> Pending -> m2 w = (r, w').

(** *** Stages of a job *)

(** The job has reached the monitor: the stages before it went through, and
    [w] is the world in which [_monitor_execution] starts. *)
Definition reaches_monitor (C : config) (E : env) (job_id : string) (req : RunRequest)
    (w0 : world) (ws_url : string) (ws : nat) (prompt_id : json) (w : world) : Prop :=
  exists client_id w1 queued w2,
    prepare E req w0 = (Ret (inr (client_id, ws_url, ws)), w1) /\
    _queue_workflow C E (workflow req) client_id (comfy_org_api_key req) w1
      = (Ret queued, w2) /\
    py_get queued "prompt_id" JNull = inr prompt_id /\
    py_truthy prompt_id = true /\
    w = record (Print ("[sidecar] Job " +:+ job_id +:+ " -> prompt "
                       +:+ py_str (lib E) prompt_id)) w2.

(** The four forms of a job result. *)
Inductive job_result_shape : list (string * json) -> Prop :=
| shape_failed (error : string) :
    job_result_shape (failed error)
| shape_failed_with (error : string) (details : list string) :
    job_result_shape (failed_with error details)
| shape_completed (output_data : list json) :
    job_result_shape [("status", JStr "completed"); ("images", JArr output_data)]
| shape_completed_with_warnings (output_data : list json) (all_errors : list string) :
    output_data <> [] -> all_errors <> [] ->
    job_result_shape [("status", JStr "completed"); ("images", JArr output_data);
                      ("warnings", str_list all_errors)].

(** The output manifest of this execution handle has been fetched: the
    steps of [_execute_job] between the monitor and [_process_outputs] went
    through, and [w1] is the world in which [_process_outputs] starts. *)
Definition reaches_collection (E : env) (prompt_id : json) (w : world)
    (outputs : json) (w1 : world) : Prop :=
  exists history record_,
    _get_history E prompt_id w = (Ret history, w1) /\
    py_contains history prompt_id = inr true /\
    py_getitem (lib E) history prompt_id = inr record_ /\
    py_get record_ "outputs" (JObj []) = inr outputs.

(** *** Concrete events and scripts *)

Definition oom_event : list (string * json) :=
  [("prompt_id", JStr "P1"); ("node_id", JStr "3"); ("node_type", JStr "KSampler");
   ("exception_message", JStr "OOM")].

Definition done_event : list (string * json) :=
  [("node", JNull); ("prompt_id", JStr "P1")].

Definition connection_closed : exn :=
  Exn WebSocketConnectionClosedException "Connection to remote host was lost.".

Definition engine_up : answer := Replied (inr (ok_response JNull)).



(** An engine that accepts the job and then sends nothing: every [recv]
    times out. *)
Definition silent_engine : env :=
  scripted [Swept None; engine_up; Named "c1"; Connected None;
            Replied (inr (ok_response (JObj [("prompt_id", JStr "P1")]))); Silent].

(** The engine reports an out-of-memory error in node 3 and has no output. *)
Definition out_of_memory : env :=
  scripted [Swept None; engine_up; Named "c1"; Connected None;
            Replied (inr (ok_response (JObj [("prompt_id", JStr "P1")]))); Silent;
            Received (event "execution_error" oom_event); Silent;
            Replied (inr (ok_response (JObj [("P1", JObj [("outputs", JObj [])])])))].

Definition one_image : json :=
  JObj [("9", JObj [("images", JArr [JObj [("filename", JStr "a.png");
                                          ("subfolder", JStr "");
                                          ("type", JStr "output")]])])].

(** The engine reports an error in node 3, and the history still lists one
    image, which the view endpoint serves. *)
Definition error_with_image : env :=
  scripted [Swept None; engine_up; Named "c1"; Connected None;
            Replied (inr (ok_response (JObj [("prompt_id", JStr "P1")]))); Silent;
            Received (event "execution_error" oom_event); Silent;
            Replied (inr (ok_response (JObj [("P1", JObj [("outputs", one_image)])])));
            Replied (inr (bytes_response "PNG"))].

Definition good_image : gmap string string :=
  {["name" := "a.png"; "image" := "UE5H"]}.

(** An image item with no "image" key: staging it raises KeyError. *)
Definition bad_image : gmap string string := {["name" := "b.png"]}.

Definition three_images : RunRequest :=
  {| workflow := [("1", JObj [])]; callback_url := "http://caller/cb";
     images := Some [bad_image; good_image; bad_image];
     download_urls := None; upload_urls := None; comfy_org_api_key := None |}.

(** The engine is up and takes every upload. *)
Definition accepting_engine : env :=
  scripted [Swept None; engine_up; engine_up].

Definition three_outputs : json :=
  JObj [("9", JObj [("images",
     JArr [JObj [("filename", JStr "scratch.png"); ("subfolder", JStr "");
                 ("type", JStr "temp")];
           JObj [("filename", JStr "clip.mp4"); ("subfolder", JStr "");
                 ("type", JStr "output")];
           JObj [("filename", JStr "still.png"); ("subfolder", JStr "");
                 ("type", JStr "output")]])])].

Definition clip_target : gmap string string :=
  {["name" := "clip.mp4"; "url" := "http://store/clip"]}.

(** The view endpoint serves both artifacts and the store takes the upload. *)
Definition serving_engine : env :=
  scripted [Replied (inr (bytes_response "Man"));
            Replied (inr (status_response 200 "OK"));
            Replied (inr (bytes_response "PNG"))].


(** ** The service around the job: authentication and endpoints *)

(** The settings of the process environment the endpoints read. *)
Record service_config : Type := ServiceConfig {
  SIDECAR_API_KEY : string;
  POD_ID : string
}.

(** [HTTPException(status_code=..., detail=...)], which no code of the
    module catches: it is the answer of the endpoint that raised it. *)
Inductive http_exception : Type := HTTPException (code : Z) (detail : string).

(** What [asyncio.create_task] is given: the coroutine [_run_job(job_id, req)]. *)
Inductive task : Type := RunJob (job_id : string) (req : RunRequest).

Section Service.
Context (K : service_config) (C : config) (E : env).

Definition _check_auth (authorization : option string) : http_exception + unit :=
  if String.eqb (SIDECAR_API_KEY K) "" then inr tt
  else if bool_decide (authorization = Some ("Bearer " +:+ SIDECAR_API_KEY K))
       then inr tt
       else inl (HTTPException 401 "Unauthorized").

(** [GET /health] *)
Definition health : M (list (string * json)) :=
  comfy_ok <- try_except
                (r <- http E (HttpGet comfy_root) ;; ret (status_code r =? 200))
                (fun _ => ret false) ;;
  ret [("status", JStr "ok"); ("pod_id", JStr (POD_ID K));
       ("comfy_ready", JBool comfy_ok)].

(** [POST /run]: the answer to the caller, and the task handed to the event
    loop. *)
Definition run (request : RunRequest) (authorization : option string)
  : M (http_exception + (list (string * json) * task)) :=
  match _check_auth authorization with
  | inl refusal => ret (inl refusal)
  | inr _ =>
      job_id <- uuid4 E ;;
      print ("[sidecar] Accepted job " +:+ job_id) ;;;
      ret (inr ([("job_id", JStr job_id); ("status", JStr "accepted")],
                RunJob job_id request))
  end.

(** What the event loop runs for a task. *)
Definition run_task (fuel : nat) (t : task) : M unit :=
  match t with
  | RunJob job_id req => _run_job C E fuel job_id req
  end.

End Service.

(** ** Further vocabulary of the statements *)

(** *** Probing *)

(** The GET made at position [t] is answered with status 200. *)
Definition ready_at (E : env) (t : nat) : bool :=
  match http_reply E t with
  | inr r => status_code r =? 200
  | inl _ => false
  end.

(** One pass of the [for] of [_check_server]. *)
Definition probe_attempt (E : env) (url : string) (delay : Z) : M (option bool) :=
  ok <- try_except
          (r <- http E (HttpGet url) ;; ret (status_code r =? 200))
          (fun _ => ret false) ;;
  if ok : bool then ret (Some true)
  else sleep delay ;;; ret None.

(** [k] probes in a row that do not find the engine ready, each followed by
    its pause. *)
Fixpoint failed_probes (url : string) (delay : Z) (k : nat) : list call :=
  match k with
  | O => []
  | S k' => HttpGet url :: Sleep delay :: failed_probes url delay k'
  end.

Fixpoint none_ready (E : env) (t k : nat) : Prop :=
  match k with
  | O => True
  | S k' => ready_at E t = false /\ none_ready E (t + 2) k'
  end.

Definition is_get (c : call) : bool :=
  match c with HttpGet _ => true | _ => false end.

(** *** Footprints: what a computation can do to the world *)

(** Wherever it is started, [m] moves the world along [R]. *)
Definition steps (R : relation world) {A : Type} (m : M A) : Prop :=
  forall w, R w (world_after m w).

(** The record of calls has grown, by calls that all satisfy [P]. *)
Definition extends (P : call -> Prop) : relation world :=
  fun w w' => exists cs, calls w' = calls w ++ cs /\ Forall P cs.

(** The same, and no websocket was opened or closed. *)
Definition quietly (P : call -> Prop) : relation world :=
  fun w w' => extends P w w' /\ connected w' = connected w.

(** An address of the engine. *)
Definition engine_url (url : string) : Prop := String.prefix comfy_root url = true.

(** The address of the engine's websocket, for some client id. *)
Definition engine_ws_url (url : string) : Prop :=
  String.prefix ("ws://" +:+ COMFY_HOST +:+ "/ws?clientId=") url = true.

Inductive probe_call (url : string) (delay : Z) : call -> Prop :=
| probe_get : probe_call url delay (HttpGet url)
| probe_pause : probe_call url delay (Sleep delay)
| probe_log line : probe_call url delay (Print line).

(** Staging fetches from the addresses the caller listed and posts files to
    the engine. *)
Inductive staging_call (items : list (gmap string string)) : call -> Prop :=
| staging_fetch item src :
    item ∈ items -> item !! "url" = Some src -> staging_call items (HttpGet src)
| staging_upload url files :
    engine_url url -> staging_call items (HttpPostFiles url files).

Inductive prepare_call (req : RunRequest) : call -> Prop :=
| prepare_sweep : prepare_call req Cleanup
| prepare_probe c : probe_call comfy_root 1 c -> prepare_call req c
| prepare_stage c :
    staging_call (or_empty (download_urls req)) c -> prepare_call req c
| prepare_uuid : prepare_call req Uuid4
| prepare_connect url : engine_ws_url url -> prepare_call req (WsConnect url).

Inductive monitor_call (C : config) (ws_url : string) : call -> Prop :=
| monitor_recv ws : monitor_call C ws_url (WsRecv ws)
| monitor_probe : monitor_call C ws_url (HttpGet comfy_root)
| monitor_connect : monitor_call C ws_url (WsConnect ws_url)
| monitor_pause : monitor_call C ws_url (Sleep (WEBSOCKET_RECONNECT_DELAY_S C))
| monitor_log line : monitor_call C ws_url (Print line).

(** Collection fetches from the engine and puts to the addresses the caller
    listed. *)
Inductive collect_call (targets : list (gmap string string)) : call -> Prop :=
| collect_fetch url : engine_url url -> collect_call targets (HttpGet url)
| collect_put item dest data content_type :
    item ∈ targets -> item !! "url" = Some dest ->
    collect_call targets (HttpPut dest data content_type).

(** Everything [_execute_job] can do, stage by stage. *)
Inductive job_call (C : config) (req : RunRequest) : call -> Prop :=
| job_prepare c : prepare_call req c -> job_call C req c
| job_queue body :
    job_call C req (HttpPostData ("http://" +:+ COMFY_HOST +:+ "/prompt") body)
| job_monitor ws_url c :
    engine_ws_url ws_url -> monitor_call C ws_url c -> job_call C req c
| job_close ws : job_call C req (WsClose ws)
| job_collect c : collect_call (or_empty (upload_urls req)) c -> job_call C req c
| job_log line : job_call C req (Print line)
| job_trace e : job_call C req (PrintExc e).

Definition is_queue (c : call) : bool :=
  match c with HttpPostData _ _ => true | _ => false end.

Definition is_close (c : call) : bool :=
  match c with WsClose _ => true | _ => false end.

(** What one round of the monitor does with the frame it received (the
    part of [monitor_round] after [ws.recv()]). *)
Definition read_frame (E : env) (prompt_id : json) (errors : list string) (out : frame)
  : M (option (bool * list string)) :=
  match out with
  | BinaryFrame _ => ret None
  | TextFrame payload =>
      msg <- lift (json_loads payload) ;;
      msg_type <- lift (py_get msg "type" JNull) ;;
      if py_eq msg_type (JStr "executing") then
        data <- lift (py_get msg "data" (JObj [])) ;;
        node <- lift (py_get data "node" JNull) ;;
        if is_None node then
          pid <- lift (py_get data "prompt_id" JNull) ;;
          if py_eq pid prompt_id then ret (Some (true, errors)) else ret None
        else ret None
      else if py_eq msg_type (JStr "execution_error") then
        data <- lift (py_get msg "data" (JObj [])) ;;
        pid <- lift (py_get data "prompt_id" JNull) ;;
        if py_eq pid prompt_id then
          entry <- lift (node_error_entry E data) ;;
          ret (Some (false, errors ++ [entry]))
        else ret None
      else ret None
  end.

(** The websocket [ws] is open, and was opened by a connect to [ws_url]. *)
Definition open_socket (ws_url : string) (ws : nat) (w : world) : Prop :=
  ws ∈ connected w /\ calls w !! ws = Some (WsConnect ws_url).

(** *** Accounting for the outputs *)

(** A descriptor that [_process_outputs] does not pass over: it has a name
    and is not of type "temp". *)
Definition is_eligible (file_info : json) : bool :=
  match file_info with
  | JObj fields =>
      py_truthy (field "filename" fields)
      && negb (py_eq (field "type" fields) (JStr "temp"))
  | _ => false
  end.

(** [d.get("filename")] of a descriptor or of an entry of the result. *)
Definition filename_of (v : json) : json :=
  match v with
  | JObj fields => field "filename" fields
  | _ => JNull
  end.

(** From one state of the collection to a later one, every eligible
    descriptor of [l] was fetched once and left one entry or one error. *)
Definition accounted (l : list json) (before after : list json * list string * world)
  : Prop :=
  exists entries lines cs,
    after.1.1 = before.1.1 ++ entries /\
    after.1.2 = before.1.2 ++ lines /\
    calls after.2 = calls before.2 ++ cs /\
    (length entries + length lines = length (filter is_eligible l))%nat /\
    sublist (filename_of <$> entries) (filename_of <$> filter is_eligible l) /\
    length (filter is_get cs) = length (filter is_eligible l).

(** The line [_upload_images] reports for an image item that lacks its
    "name" or, with a name, its "image". *)
Definition missing_key_line (image : gmap string string) : string :=
  "Failed to upload " +:+ str_dict_get_str image "name" +:+ ": "
  +:+ (if bool_decide (is_Some (image !! "name")) then "'image'" else "'name'").

(** The addresses the caller's targets give for [name], in the order of the
    targets. *)
Definition target_urls (name : string) (targets : list (gmap string string))
  : list string :=
  omap (fun item : gmap string string =>
          if bool_decide (item !! "name" = Some name) then item !! "url" else None)
       targets.

(** The first key an output target lacks, of the two it must have. *)
Definition lacking_key (item : gmap string string) : option string :=
  match item !! "name", item !! "url" with
  | None, _ => Some "name"
  | Some _, None => Some "url"
  | Some _, Some _ => None
  end.

(** *** Manifests that can be collected *)

(** A manifest whose listings [_process_outputs] can walk: an object whose
    nodes are objects, each with listings under "videos", "gifs" and
    "images" that are absent or can be iterated. *)
Definition walkable (outputs : json) : Prop :=
  exists nodes,
    outputs = JObj nodes /\
    forall node key,
      node ∈ nodes -> key ∈ output_keys ->
      exists listed file_infos,
        py_get (snd node) key (JArr []) = inr listed /\
        py_iter listed = inr file_infos.

(** A descriptor [_process_outputs] can handle: an object whose filename can
    be looked up in the map of targets (a list or an object cannot). *)
Definition well_described (file_info : json) : Prop :=
  exists fields,
    file_info = JObj fields /\
    match field "filename" fields with
    | JArr _ | JObj _ => False
    | _ => True
    end.

(** Targets that all carry the two keys the map of targets is built from. *)
Definition well_targeted (targets : list (gmap string string)) : Prop :=
  forall item, item ∈ targets -> is_Some (item !! "name") /\ is_Some (item !! "url").

(** *** Further scripts *)


(** The engine answers no probe at all. *)
Definition absent_engine : env := scripted [Swept None].

(** The websocket is reported closed at the first [recv]; the engine is up,
    the first reconnection succeeds, and the completion event arrives on the
    new websocket.  The history lists no output. *)
Definition reconnecting_engine : env :=
  scripted [Swept None; engine_up; Named "c1"; Connected None;
            Replied (inr (ok_response (JObj [("prompt_id", JStr "P1")]))); Silent;
            Received (inl connection_closed);
            engine_up; Connected None; Silent;
            Received (event "executing" done_event);
            Replied (inr (ok_response (JObj [("P1", JObj [("outputs", JObj [])])])))].

Definition bad_request : response := Response 400 "Bad Request" "" "bad node" (inr JNull).

(** The engine rejects the workflow with status 400. *)
Definition rejecting_engine : env :=
  scripted [Swept None; engine_up; Named "c1"; Connected None;
            Replied (inr bad_request)].

(** The engine accepts the workflow and answers without a prompt id. *)
Definition forgetful_engine : env :=
  scripted [Swept None; engine_up; Named "c1"; Connected None;
            Replied (inr (ok_response (JObj [("number", JNum 1)])))].

(** The execution completes and the history does not know the prompt. *)
Definition amnesic_engine : env :=
  scripted [Swept None; engine_up; Named "c1"; Connected None;
            Replied (inr (ok_response (JObj [("prompt_id", JStr "P1")]))); Silent;
            Received (event "executing" done_event); Silent;
            Replied (inr (ok_response (JObj [])))].

(** The execution completes and the history lists one image. *)
Definition completing_engine : env :=
  scripted [Swept None; engine_up; Named "c1"; Connected None;
            Replied (inr (ok_response (JObj [("prompt_id", JStr "P1")]))); Silent;
            Received (event "executing" done_event); Silent;
            Replied (inr (ok_response (JObj [("P1", JObj [("outputs", one_image)])])));
            Replied (inr (bytes_response "PNG"))].

(** A request whose second output target lacks its URL. *)
Definition half_targeted : RunRequest :=
  {| workflow := [("1", JObj [])]; callback_url := "http://caller/cb";
     images := None; download_urls := None;
     upload_urls := Some [clip_target; {["name" := "still.png"]}];
     comfy_org_api_key := None |}.

(** A request with two image items, neither complete. *)
Definition two_bad_images : RunRequest :=
  {| workflow := [("1", JObj [])]; callback_url := "http://caller/cb";
     images := Some [bad_image; {["image" := "UE5H"]}];
     download_urls := None; upload_urls := None; comfy_org_api_key := None |}.


Definition key_config : service_config := ServiceConfig "s3cret" "pod-1".


(** An image item given as a data URL. *)
Definition data_url_image : gmap string string :=
  {["name" := "a.png"; "image" := "data:image/png;base64,UE5H"]}.

(** Two output targets of the same name. *)
Definition rival_targets : list (gmap string string) :=
  [clip_target; {["name" := "clip.mp4"; "url" := "http://store/other"]}].

(** * Facts *)

Ltac conjuncts :=
  repeat match goal with |- _ /\ _ => split end;
  first [assumption | reflexivity | lia | idtac].

Lemma py_eq_str v s : py_eq v (JStr s) = true <-> v = JStr s.
Proof.
  destruct v; simpl; try (split; [discriminate | intros; discriminate]).
  rewrite String.eqb_eq. split; [intros ->; reflexivity | intros [= ->]; reflexivity].
Qed.

Lemma is_None_true v : is_None v = true <-> v = JNull.
Proof. destruct v; simpl; split; congruence. Qed.

Lemma now_record c w : now (record c w) = S (now w).
Proof. unfold now, record. simpl. rewrite length_app. simpl. lia. Qed.

(** ** The monitoring loop *)

Section MonitorFacts.
Context (C : config) (E : env).

Lemma round_on_completion ws pid errors w msg :
  ws_recv_reply E (now w) = inr (TextFrame (Json msg)) ->
  completion_event pid msg ->
  monitor_round E ws pid errors w = (Ret (Some (true, errors)), record (WsRecv ws) w).
Proof.
  intros Hreply (fields & data & -> & Htype & Hdata & Hnode & Hpid).
  unfold monitor_round, bind, ws_recv. rewrite Hreply. simpl.
  unfold field, event_data in *. rewrite Htype. simpl.
  rewrite Hdata. simpl. rewrite Hnode. simpl. rewrite Hpid. reflexivity.
Qed.

Lemma round_on_error ws pid errors w msg data :
  ws_recv_reply E (now w) = inr (TextFrame (Json msg)) ->
  error_event pid msg data ->
  monitor_round E ws pid errors w =
    (Ret (Some (false, errors ++ [error_entry (lib E) data])), record (WsRecv ws) w).
Proof.
  intros Hreply (fields & -> & Htype & Hdata & Hpid).
  unfold monitor_round, bind, ws_recv. rewrite Hreply. simpl.
  unfold field, event_data in *. rewrite Htype. simpl.
  rewrite Hdata. simpl. rewrite Hpid. reflexivity.
Qed.

(** Every decoded message falls in one of four classes, and the class
    fixes what the round does. *)
Lemma round_on_json ws pid errors w msg :
  ws_recv_reply E (now w) = inr (TextFrame (Json msg)) ->
  exists r,
    monitor_round E ws pid errors w = (r, record (WsRecv ws) w) /\
    ((completion_event pid msg /\ r = Ret (Some (true, errors))) \/
     (exists data, error_event pid msg data /\
                   r = Ret (Some (false, errors ++ [error_entry (lib E) data]))) \/
     (malformed_message msg /\ exists e, r = Raise e /\ exn_kind e = AttributeError) \/
     r = Ret None).
Proof.
  intros Hreply.
  unfold monitor_round, bind, ws_recv. rewrite Hreply. simpl.
  destruct msg as [| | | | |fields];
    try (eexists; split; [reflexivity|]; right; right; left;
         split; [left; intros ? [=] | eexists; split; reflexivity]).
  simpl.
  destruct (py_eq (from_option id JNull (dict_get "type" fields)) (JStr "executing"))
    eqn:Htype; simpl.
  - apply py_eq_str in Htype.
    destruct (from_option id (JObj []) (dict_get "data" fields))
      as [| | | | |data] eqn:Hdata; simpl;
      try (eexists; split; [reflexivity|]; right; right; left; split;
           [right; exists fields; split; [reflexivity|]; split; [left; exact Htype|];
            unfold event_data; rewrite Hdata; intros ? [=]
           | eexists; split; reflexivity]).
    destruct (is_None (from_option id JNull (dict_get "node" data))) eqn:Hnode; simpl;
      [|eexists; split; [reflexivity|]; right; right; right; reflexivity].
    destruct (py_eq (from_option id JNull (dict_get "prompt_id" data)) pid) eqn:Hpid;
      simpl; [|eexists; split; [reflexivity|]; right; right; right; reflexivity].
    eexists; split; [reflexivity|]. left. split; [|reflexivity].
    exists fields, data. apply is_None_true in Hnode. repeat split; assumption.
  - destruct (py_eq (from_option id JNull (dict_get "type" fields)) (JStr "execution_error"))
      eqn:Htype'; simpl;
      [|eexists; split; [reflexivity|]; right; right; right; reflexivity].
    apply py_eq_str in Htype'.
    destruct (from_option id (JObj []) (dict_get "data" fields))
      as [| | | | |data] eqn:Hdata; simpl;
      try (eexists; split; [reflexivity|]; right; right; left; split;
           [right; exists fields; split; [reflexivity|]; split; [right; exact Htype'|];
            unfold event_data; rewrite Hdata; intros ? [=]
           | eexists; split; reflexivity]).
    destruct (py_eq (from_option id JNull (dict_get "prompt_id" data)) pid) eqn:Hpid;
      simpl; [|eexists; split; [reflexivity|]; right; right; right; reflexivity].
    eexists; split; [reflexivity|]. right; left. exists data. split; [|reflexivity].
    exists fields. repeat split; assumption.
Qed.

Lemma round_returns ws pid errors w result w' :
  monitor_round E ws pid errors w = (Ret (Some result), w') ->
  w' = record (WsRecv ws) w /\
  exists msg, ws_recv_reply E (now w) = inr (TextFrame (Json msg)) /\
    ((completion_event pid msg /\ result = (true, errors)) \/
     (exists data, error_event pid msg data /\
                   result = (false, errors ++ [error_entry (lib E) data]))).
Proof.
  intros H.
  destruct (ws_recv_reply E (now w)) as [e|[[msg|raw|raw e]|raw]] eqn:Hreply.
  - unfold monitor_round, bind, ws_recv in H. rewrite Hreply in H. discriminate.
  - destruct (round_on_json ws pid errors w msg Hreply) as (r & Hr & Hcases).
    rewrite Hr in H. injection H as -> <-. split; [reflexivity|].
    exists msg. split; [reflexivity|].
    destruct Hcases as [[Hc Hr']|[(data & He & Hr')|[(_ & e & Hr' & _)|Hr']]];
      simplify_eq; eauto.
  - unfold monitor_round, bind, ws_recv in H. rewrite Hreply in H. discriminate.
  - unfold monitor_round, bind, ws_recv in H. rewrite Hreply in H. discriminate.
  - unfold monitor_round, bind, ws_recv in H. rewrite Hreply in H. discriminate.
Qed.


Lemma round_on_progress ws pid errors w msg :
  ws_recv_reply E (now w) = inr (TextFrame (Json msg)) ->
  progress_event msg ->
  monitor_round E ws pid errors w = (Ret None, record (WsRecv ws) w).
Proof.
  intros Hreply (fields & data & -> & Htype & Hdata & Hnode).
  unfold monitor_round, bind, ws_recv. rewrite Hreply. simpl.
  unfold field, event_data in *. rewrite Htype. simpl.
  rewrite Hdata. simpl.
  destruct (is_None (from_option id JNull (dict_get "node" data))) eqn:Hn; [|reflexivity].
  apply is_None_true in Hn. contradiction.
Qed.

Lemma iteration_on_round url pid ws errors w r w' :
  monitor_round E ws pid errors w = (Ret r, w') ->
  monitor_iteration C E url pid ws errors w =
    (Ret (match r with Some result => inl result | None => inr ws end), w').
Proof.
  intros H. unfold monitor_iteration, try_except, bind. rewrite H.
  destruct r; reflexivity.
Qed.


Lemma loop_unfold fuel url pid ws errors w :
  monitor_loop C E (S fuel) url pid ws errors w =
    match monitor_iteration C E url pid ws errors w with
    | (Ret (inl result), w') => (Ret result, w')
    | (Ret (inr ws'), w') => monitor_loop C E fuel url pid ws' errors w'
    | (Raise e, w') => (Raise e, w')
    | (Pending, w') => (Pending, w')
    end.
Proof.
  simpl. unfold bind.
  destruct (monitor_iteration C E url pid ws errors w) as [[[result|ws']|e|] w'];
    reflexivity.
Qed.

(** The outcome of a loop that has ended is the outcome of its last pass. *)
Lemma loop_exit fuel url pid ws errors w r w' :
  monitor_loop C E fuel url pid ws errors w = (r, w') -> r <> Pending ->
  exists ws1 w1,
    monitor_iteration C E url pid ws1 errors w1 =
      (match r with Ret x => Ret (inl x) | Raise e => Raise e | Pending => Pending end, w').
Proof.
  revert ws w. induction fuel as [|fuel IH]; intros ws w.
  - simpl. unfold pending. intros [= <- <-] Hr. destruct Hr. reflexivity.
  - rewrite loop_unfold.
    destruct (monitor_iteration C E url pid ws errors w)
      as [[[result|ws']|e|] w1] eqn:Hiter.
    + intros [= <- <-] _. eauto.
    + apply IH.
    + intros [= <- <-] _. eauto.
    + intros [= <- <-] Hr. destruct Hr. reflexivity.
Qed.

Lemma iteration_returns url pid ws errors w result w' :
  monitor_iteration C E url pid ws errors w = (Ret (inl result), w') ->
  monitor_round E ws pid errors w = (Ret (Some result), w').
Proof.
  unfold monitor_iteration, try_except, bind at 1.
  destruct (monitor_round E ws pid errors w) as [[[r|]|e|] w1]; simpl.
  - intros [= <- <-]. reflexivity.
  - intros [=].
  - repeat case_decide; unfold ret, raise, bind; simpl; try discriminate.
    destruct (_reconnect_websocket C E url e w1) as [[ws'|e'|] w2]; discriminate.
  - intros [=].
Qed.



End MonitorFacts.

(** ** Reconnection *)





Section ReconnectFacts.
Context (C : config) (E : env).








End ReconnectFacts.


(** ** From the monitor to the job result *)

Section JobFacts.
Context (C : config) (E : env).

Lemma close_if_connected_returns ws w :
  exists w', close_if_connected ws w = (Ret tt, w').
Proof.
  unfold close_if_connected, bind, ws_is_connected, ws_close, ret.
  destruct (bool_decide (ws ∈ connected w)); eauto.
Qed.

Lemma job_fails_on_exception fuel job_id req w e w' :
  execute_job_body C E fuel job_id req w = (Raise e, w') ->
  _execute_job C E fuel job_id req w
    = (Ret (failed (exn_msg e)), record (PrintExc e) w').
Proof. intros H. unfold _execute_job, try_except. rewrite H. reflexivity. Qed.

Lemma job_keeps_result fuel job_id req w result w' :
  execute_job_body C E fuel job_id req w = (Ret result, w') ->
  _execute_job C E fuel job_id req w = (Ret result, w').
Proof. intros H. unfold _execute_job, try_except. rewrite H. reflexivity. Qed.

Lemma job_pending fuel job_id req w w' :
  execute_job_body C E fuel job_id req w = (Pending, w') ->
  _execute_job C E fuel job_id req w = (Pending, w').
Proof. intros H. unfold _execute_job, try_except. rewrite H. reflexivity. Qed.

(** The job never lets an exception out. *)
Lemma job_never_raises fuel job_id req w e :
  result_of (_execute_job C E fuel job_id req) w <> Raise e.
Proof.
  unfold result_of, _execute_job, try_except.
  destruct (execute_job_body C E fuel job_id req w) as [[result|e'|] w'];
    simpl; discriminate.
Qed.

Lemma body_at_monitor fuel job_id req w0 ws_url ws prompt_id w :
  reaches_monitor C E job_id req w0 ws_url ws prompt_id w ->
  execute_job_body C E fuel job_id req w0 =
    match _monitor_execution C E fuel ws ws_url prompt_id w with
    | (Ret (execution_done, exec_errors), w3) =>
        collect_result E req prompt_id execution_done exec_errors
          (world_after (close_if_connected ws) w3)
    | (Raise e, w3) => (Raise e, world_after (close_if_connected ws) w3)
    | (Pending, w3) => (Pending, w3)
    end.
Proof.
  intros (client_id & w1 & queued & w2 & Hprep & Hqueue & Hpid & Htruthy & ->).
  assert (Hsubmit :
    submit_and_monitor C E fuel job_id req client_id ws_url ws w1 =
      match _monitor_execution C E fuel ws ws_url prompt_id
              (record (Print ("[sidecar] Job " +:+ job_id +:+ " -> prompt "
                              +:+ py_str (lib E) prompt_id)) w2) with
      | (Ret r, w3) => (Ret (inr (prompt_id, r)), w3)
      | (Raise e, w3) => (Raise e, w3)
      | (Pending, w3) => (Pending, w3)
      end).
  { unfold submit_and_monitor, bind at 1. rewrite Hqueue.
    unfold bind at 1, lift. rewrite Hpid. unfold ret at 1. rewrite Htruthy.
    reflexivity. }
  unfold execute_job_body, bind at 1. rewrite Hprep.
  unfold bind at 1, try_finally. rewrite Hsubmit.
  match goal with |- context [_monitor_execution C E fuel ws ws_url prompt_id ?wm] =>
    destruct (_monitor_execution C E fuel ws ws_url prompt_id wm)
      as [[[d errs]|e|] w3] end;
    unfold world_after.
  - destruct (close_if_connected_returns ws w3) as [w4 ->]. reflexivity.
  - destruct (close_if_connected_returns ws w3) as [w4 ->]. reflexivity.
  - reflexivity.
Qed.
End JobFacts.

(** ** Callback delivery *)

Section CallbackFacts.
Context (E : env).

Lemma callback_attempt_cases url payload label (i : nat) w :
  (delivered_at E (now w) = true /\
   callback_attempt E url payload label (Z.of_nat i) w
     = (Ret (Some tt),
        World (calls w ++ [HttpPostJson url payload;
                           Print ("[sidecar] " +:+ label +:+ " delivered (attempt "
                                  +:+ pretty (Z.of_nat i + 1) +:+ ")")])
              (connected w))) \/
  (delivered_at E (now w) = false /\
   callback_attempt E url payload label (Z.of_nat i) w
     = (Ret None,
        World (calls w ++ failed_delivery E url payload label i (now w)) (connected w))).
Proof.
  unfold callback_attempt, delivered_at, failed_delivery, bind, try_except, http.
  destruct (http_reply E (now w)) as [e|r] eqn:Hreply; simpl.
  - right. split; [reflexivity|].
    unfold print, emit, ret, record, sleep. simpl. rewrite <- !app_assoc. reflexivity.
  - destruct (status_code r <? 300) eqn:Hstatus; simpl.
    + left. split; [reflexivity|].
      unfold print, emit, ret, record. simpl. rewrite <- !app_assoc. reflexivity.
    + right. split; [reflexivity|].
      unfold print, emit, ret, record, sleep. simpl. rewrite <- !app_assoc. reflexivity.
Qed.

Lemma callback_loop url payload label n : forall (i : nat) w,
  exists (k : nat) r w' tail,
    for_until (Z.of_nat <$> seq i n) (callback_attempt E url payload label) w = (r, w') /\
    (k <= n)%nat /\ none_delivered E (now w) k /\
    calls w' = calls w ++ failed_deliveries E url payload label i (now w) k ++ tail /\
    connected w' = connected w /\
    (((k < n)%nat /\ delivered_at E (now w + k * 3) = true /\
      tail = [HttpPostJson url payload;
              Print ("[sidecar] " +:+ label +:+ " delivered (attempt "
                     +:+ pretty (Z.of_nat (i + k) + 1) +:+ ")")] /\
      r = Ret (Some tt)) \/
     (k = n /\ tail = [] /\ r = Ret None)).
Proof.
  induction n as [|n IH]; intros i w.
  - exists 0%nat, (Ret None), w, []. simpl. rewrite app_nil_r.
    conjuncts. right. conjuncts.
  - simpl. unfold bind at 1.
    destruct (callback_attempt_cases url payload label i w) as [(Hd & ->)|(Hd & ->)].
    + exists 0%nat. do 3 eexists. split; [reflexivity|]. simpl.
      conjuncts. left. rewrite !Nat.add_0_r. conjuncts.
    + specialize (IH (S i)
                     (World (calls w ++ failed_delivery E url payload label i (now w))
                            (connected w))).
      destruct IH as (k & r & w' & tail & Hrun & Hk & Hnone & Hcalls & Hconn & Hcases).
      assert (Hnow : now (World (calls w ++ failed_delivery E url payload label i (now w))
                                (connected w)) = (now w + 3)%nat).
      { unfold now. simpl. rewrite length_app. simpl. lia. }
      rewrite Hnow in *.
      exists (S k), r, w', tail. split; [exact Hrun|].
      split; [lia|]. split; [simpl; auto|].
      split.
      { rewrite Hcalls. simpl calls.
        change (failed_deliveries E url payload label i (now w) (S k))
          with (failed_delivery E url payload label i (now w)
                ++ failed_deliveries E url payload label (S i) (now w + 3) k).
        rewrite <- !app_assoc. reflexivity. }
      split; [exact Hconn|].
      replace (now w + S k * 3)%nat with (now w + 3 + k * 3)%nat by lia.
      replace (i + S k)%nat with (S i + k)%nat by lia.
      destruct Hcases as [(? & ? & ? & ?)|(? & ? & ?)].
      * left. conjuncts.
      * right. conjuncts.
Qed.

Lemma count_posts_failed url payload label i t k :
  length (filter is_post (failed_deliveries E url payload label i t k)) = k.
Proof.
  revert i t. induction k as [|k IH]; intros i t; [reflexivity|].
  change (failed_deliveries E url payload label i t (S k))
    with (failed_delivery E url payload label i t
          ++ failed_deliveries E url payload label (S i) (t + 3) k).
  rewrite filter_app, length_app, IH. reflexivity.
Qed.

(** What [_fire_callback] does, in full. *)
Lemma fire_callback_outcome url payload label w :
  exists (k : nat) w' tail,
    _fire_callback E url payload label w = (Ret tt, w') /\
    none_delivered E (now w) k /\
    calls w' = calls w ++ failed_deliveries E url payload label 0 (now w) k ++ tail /\
    connected w' = connected w /\
    (((k < 3)%nat /\ delivered_at E (now w + k * 3) = true /\
      tail = [HttpPostJson url payload;
              Print ("[sidecar] " +:+ label +:+ " delivered (attempt "
                     +:+ pretty (Z.of_nat k + 1) +:+ ")")]) \/
     (k = 3%nat /\
      tail = [Print ("[sidecar] " +:+ label +:+ " failed after 3 attempts")])).
Proof.
  unfold _fire_callback, bind.
  destruct (callback_loop url payload label 3 0%nat w)
    as (k & r & w' & tail & Hrun & Hk & Hnone & Hcalls & Hconn & Hcases).
  change (py_range 3) with (Z.of_nat <$> seq 0 3). rewrite Hrun.
  destruct Hcases as [(Hlt & Hd & -> & ->)|(-> & -> & ->)].
  - exists k, w'.
    exists [HttpPostJson url payload;
            Print ("[sidecar] " +:+ label +:+ " delivered (attempt "
                   +:+ pretty (Z.of_nat k + 1) +:+ ")")].
    split; [reflexivity|]. conjuncts. left. conjuncts.
  - exists 3%nat.
    exists (record (Print ("[sidecar] " +:+ label +:+ " failed after 3 attempts")) w').
    exists [Print ("[sidecar] " +:+ label +:+ " failed after 3 attempts")].
    split; [reflexivity|]. conjuncts.
    + unfold record. simpl calls. rewrite Hcalls.
      rewrite app_nil_r, <- app_assoc. reflexivity.
    + right. conjuncts.
Qed.

End CallbackFacts.

(** ** The result of a job *)

Lemma bind_returns {A B : Type} (m : M A) (k : A -> M B) w b w' :
  bind m k w = (Ret b, w') ->
  exists a w1, m w = (Ret a, w1) /\ k a w1 = (Ret b, w').
Proof.
  unfold bind. destruct (m w) as [[a|e|] w1]; try discriminate. eauto.
Qed.

Lemma bind_of_run {A B : Type} (m : M A) (k : A -> M B) w a w1 :
  m w = (Ret a, w1) -> bind m k w = k a w1.
Proof. intros H. unfold bind. rewrite H. reflexivity. Qed.

Lemma bind_lift_inr {A B : Type} (a : A) (k : A -> M B) w :
  bind (lift (inr a)) k w = k a w.
Proof. reflexivity. Qed.

Lemma non_empty_true {A : Type} (l : list A) : non_empty l = true <-> l <> [].
Proof. destruct l; simpl; split; congruence. Qed.

Section ResultFacts.
Context (C : config) (E : env).

Lemma stage_inputs_result items stage error w result w' :
  stage_inputs items stage error w = (Ret (Some result), w') ->
  exists report, result = failed_with error (details report).
Proof.
  unfold stage_inputs.
  destruct (non_empty (or_empty items)); [|discriminate].
  intros H. apply bind_returns in H as (report & w1 & _ & H).
  destruct (String.eqb (status report) "error"); [|discriminate].
  injection H as <- _. eauto.
Qed.

Lemma prepare_result req w result w' :
  prepare E req w = (Ret (inl result), w') -> job_result_shape result.
Proof.
  unfold prepare. intros H.
  apply bind_returns in H as ([] & w1 & _ & H).
  apply bind_returns in H as (reachable & w2 & _ & H).
  destruct reachable; simpl in H; [|injection H as <- _; constructor].
  apply bind_returns in H as (staged & w3 & Hstage & H).
  destruct staged as [r|].
  { injection H as <- _. apply stage_inputs_result in Hstage as [report ->]. constructor. }
  apply bind_returns in H as (staged & w4 & Hstage' & H).
  destruct staged as [r|].
  { injection H as <- _. apply stage_inputs_result in Hstage' as [report ->]. constructor. }
  apply bind_returns in H as (client_id & w5 & _ & H).
  apply bind_returns in H as (ws & w6 & _ & H).
  discriminate.
Qed.

Lemma submit_result fuel job_id req client_id ws_url ws w result w' :
  submit_and_monitor C E fuel job_id req client_id ws_url ws w = (Ret (inl result), w') ->
  job_result_shape result.
Proof.
  unfold submit_and_monitor. intros H.
  apply bind_returns in H as (queued & w1 & _ & H).
  apply bind_returns in H as (prompt_id & w2 & _ & H).
  destruct (negb (py_truthy prompt_id)).
  - injection H as <- _. constructor.
  - apply bind_returns in H as ([] & w3 & _ & H).
    apply bind_returns in H as (r & w4 & _ & H). discriminate.
Qed.

(** The last lines of [_execute_job], once the outputs are collected. *)
Lemma collect_result_after_outputs req prompt_id execution_done exec_errors w
    outputs w1 output_data output_errors w2 :
  exited_unexpectedly execution_done exec_errors = false ->
  reaches_collection E prompt_id w outputs w1 ->
  _process_outputs E outputs (upload_urls req) w1 = (Ret (output_data, output_errors), w2) ->
  collect_result E req prompt_id execution_done exec_errors w =
    (Ret (if negb (non_empty output_data) && non_empty (exec_errors ++ output_errors)
          then failed_with "Job produced no output" (exec_errors ++ output_errors)
          else if non_empty (exec_errors ++ output_errors)
               then [("status", JStr "completed"); ("images", JArr output_data);
                     ("warnings", str_list (exec_errors ++ output_errors))]
               else [("status", JStr "completed"); ("images", JArr output_data)]),
     w2).
Proof.
  intros Hguard (history & record_ & Hhist & Hin & Hitem & Hout) Hproc.
  unfold collect_result. rewrite Hguard.
  rewrite (bind_of_run _ _ _ _ _ Hhist). cbv beta.
  rewrite Hin, bind_lift_inr. cbn [negb].
  rewrite Hitem, bind_lift_inr.
  rewrite Hout, bind_lift_inr.
  rewrite (bind_of_run _ _ _ _ _ Hproc). cbv beta iota.
  destruct (negb (non_empty output_data) && non_empty (exec_errors ++ output_errors));
    [reflexivity|].
  destruct (non_empty (exec_errors ++ output_errors)); reflexivity.
Qed.

Lemma collect_result_shape req prompt_id execution_done exec_errors w result w' :
  collect_result E req prompt_id execution_done exec_errors w = (Ret result, w') ->
  job_result_shape result.
Proof.
  unfold collect_result.
  destruct (exited_unexpectedly execution_done exec_errors).
  { intros [= <- _]. constructor. }
  intros H.
  apply bind_returns in H as (history & w1 & _ & H).
  apply bind_returns in H as (found & w2 & _ & H).
  destruct found; simpl in H; [|injection H as <- _; constructor].
  apply bind_returns in H as (record_ & w3 & _ & H).
  apply bind_returns in H as (outputs & w4 & _ & H).
  apply bind_returns in H as ([output_data output_errors] & w5 & _ & H).
  destruct (non_empty output_data) eqn:Hdata; simpl in H.
  - destruct (non_empty (exec_errors ++ output_errors)) eqn:Herrs;
      injection H as <- _.
    + apply shape_completed_with_warnings; apply non_empty_true; assumption.
    + constructor.
  - destruct (non_empty (exec_errors ++ output_errors)) eqn:Herrs;
      injection H as <- _; constructor.
Qed.

Lemma try_finally_returns {A : Type} (m : M A) (f : M unit) w a w' :
  try_finally m f w = (Ret a, w') -> exists w1, m w = (Ret a, w1).
Proof.
  unfold try_finally.
  destruct (m w) as [[a'|e|] w1]; [| |discriminate];
    destruct (f w1) as [[[]|e'|] w2]; try discriminate.
  intros [= <- _]. eauto.
Qed.

(** Every result of a job has one of the four forms. *)
Lemma job_result_has_shape fuel job_id req w result :
  result_of (_execute_job C E fuel job_id req) w = Ret result ->
  job_result_shape result.
Proof.
  unfold result_of, _execute_job, try_except.
  destruct (execute_job_body C E fuel job_id req w) as [[r|e|] w'] eqn:Hbody;
    simpl; [|intros [= <-]; constructor|discriminate].
  intros [= <-]. unfold execute_job_body in Hbody.
  apply bind_returns in Hbody as (p & w1 & Hprep & H).
  destruct p as [early|[[client_id ws_url] ws]].
  { injection H as <- _. eapply prepare_result; eassumption. }
  apply bind_returns in H as (monitored & w2 & Hmon & H).
  apply try_finally_returns in Hmon as [w3 Hmon].
  destruct monitored as [early|[prompt_id [execution_done exec_errors]]].
  { injection H as <- _. eapply submit_result; eassumption. }
  eapply collect_result_shape; eassumption.
Qed.

Lemma payload_keeps_status job_id result :
  job_result_shape result ->
  dict_get "status" (callback_payload job_id result) = dict_get "status" result /\
  dict_get "job_id" (callback_payload job_id result) = Some (JStr job_id).
Proof. intros []; split; reflexivity. Qed.

End ResultFacts.

Lemma monitor_guard C E fuel ws ws_url prompt_id w execution_done exec_errors w' :
  _monitor_execution C E fuel ws ws_url prompt_id w
    = (Ret (execution_done, exec_errors), w') ->
  exited_unexpectedly execution_done exec_errors = false.
Proof.
  unfold _monitor_execution. intros Hloop.
  apply loop_exit in Hloop as (ws1 & w1 & Hiter); [|discriminate].
  apply iteration_returns, round_returns in Hiter as (_ & msg & _ & Hcases).
  destruct Hcases as [[_ [= -> ->]]|(data & _ & [= -> ->])]; reflexivity.
Qed.

(** A loop that only sees timeouts is still running after any number of
    passes, and has done nothing but [recv]. *)
Lemma loop_on_timeouts C E url pid ws errors fuel : forall w,
  (forall t, (now w <= t)%nat ->
             exists e, ws_recv_reply E t = inl e /\
                       exn_kind e = WebSocketTimeoutException) ->
  monitor_loop C E fuel url pid ws errors w
    = (Pending, World (calls w ++ replicate fuel (WsRecv ws)) (connected w)).
Proof.
  induction fuel as [|fuel IH]; intros w Hsilent.
  - simpl. unfold pending. rewrite app_nil_r. destruct w; reflexivity.
  - rewrite loop_unfold.
    destruct (Hsilent (now w) (Nat.le_refl _)) as (e & Hreply & Hkind).
    unfold monitor_iteration, try_except, bind at 1, monitor_round, bind at 1, ws_recv.
    rewrite Hreply. simpl.
    destruct (decide (exn_kind e = WebSocketTimeoutException)); [|contradiction].
    destruct (decide (exn_kind e = WebSocketConnectionClosedException)) as [Hc|_];
      [congruence|].
    unfold ret. rewrite IH.
    + simpl. rewrite <- app_assoc. reflexivity.
    + intros t Ht. apply Hsilent. unfold now in *. simpl in Ht.
      rewrite length_app in Ht. simpl in Ht. lia.
Qed.

Lemma scripted_recv_beyond script t :
  (length script <= t)%nat ->
  ws_recv_reply (scripted script) t = inl (Exn WebSocketTimeoutException "timed out").
Proof.
  intros Ht. unfold scripted. simpl.
  rewrite (lookup_ge_None_2 script t Ht). reflexivity.
Qed.

(** ** Input staging *)

Lemma terminates_ret {A : Type} (a : A) : terminates (ret a).
Proof. intros w. discriminate. Qed.

Lemma terminates_raise {A : Type} (e : exn) : terminates (@raise A e).
Proof. intros w. discriminate. Qed.

Lemma terminates_lift {A : Type} (r : exn + A) : terminates (lift r).
Proof. destruct r; [apply terminates_raise|apply terminates_ret]. Qed.

Lemma terminates_bind {A B : Type} (m : M A) (k : A -> M B) :
  terminates m -> (forall a, terminates (k a)) -> terminates (bind m k).
Proof.
  intros Hm Hk w. unfold bind. specialize (Hm w).
  destruct (m w) as [[a|e|] w1]; simpl in *; [apply Hk|discriminate|congruence].
Qed.

Lemma terminates_http E c : terminates (http E c).
Proof. intros w. unfold http. simpl. destruct (http_reply E (now w)); discriminate. Qed.

Lemma terminates_raise_for_status r url : terminates (raise_for_status r url).
Proof.
  unfold raise_for_status.
  destruct ((400 <=? status_code r) && (status_code r <? 600));
    [apply terminates_raise|apply terminates_ret].
Qed.

Lemma terminates_upload_image_item E image : terminates (upload_image_item E image).
Proof.
  unfold upload_image_item.
  repeat first [apply terminates_bind; [|intros ?] | apply terminates_lift
               | apply terminates_http | apply terminates_raise_for_status].
Qed.

Lemma terminates_download_item E item : terminates (download_item E item).
Proof.
  unfold download_item.
  apply terminates_bind; [apply terminates_lift|intros name].
  apply terminates_bind; [apply terminates_lift|intros src].
  apply terminates_bind; [apply terminates_http|intros got].
  destruct (from_option id ("", name) (rsplit_last "/" name)) as [subfolder filename].
  destruct (ends_with_any (str_lower filename) video_upload_suffixes);
    (apply terminates_bind; [apply terminates_http|intros r];
     apply terminates_raise_for_status).
Qed.

(** The staging loop, with its accumulator and its [try ... except], against
    the plain description: run every item, then list the failures. *)
Lemma staging_loop {A : Type} (body : A -> M unit) (line : A -> exn -> string)
    (items : list A) :
  (forall x, terminates (body x)) ->
  forall acc w,
    for_each items
      (fun x errors =>
         try_except (bind (body x) (fun _ => ret errors))
                    (fun e => ret (errors ++ [line x e])))
      acc w
    = (Ret (acc ++ failure_lines line items (run_all body items w).1),
       (run_all body items w).2).
Proof.
  intros Hbody. induction items as [|x items IH]; intros acc w.
  - simpl. rewrite app_nil_r. reflexivity.
  - simpl for_each. unfold bind at 1, try_except, bind at 1.
    simpl run_all. specialize (Hbody x w).
    destruct (body x w) as [[[]|e|] w1]; simpl in Hbody; [| |congruence].
    + unfold ret at 1. rewrite IH.
      destruct (run_all body items w1) as [rs w']. reflexivity.
    + unfold ret at 1. rewrite IH.
      destruct (run_all body items w1) as [rs w']. simpl.
      rewrite <- app_assoc. reflexivity.
Qed.

Lemma run_all_length {A : Type} (body : A -> M unit) (items : list A) w :
  length (run_all body items w).1 = length items.
Proof.
  revert w. induction items as [|x items IH]; intros w; [reflexivity|].
  simpl. destruct (body x w) as [r w1]. specialize (IH w1).
  destruct (run_all body items w1) as [rs w']. simpl in *. lia.
Qed.

Lemma failure_lines_length {A : Type} (line : A -> exn -> string) (items : list A)
    (outcomes : list (outcome unit)) :
  length items = length outcomes ->
  length (failure_lines line items outcomes) = length (filter has_raised outcomes).
Proof.
  revert outcomes. induction items as [|x items IH]; intros [|r outcomes] Hlen;
    try discriminate; [reflexivity|].
  injection Hlen as Hlen. specialize (IH outcomes Hlen).
  destruct r; simpl; rewrite ?filter_cons; simpl; lia.
Qed.

(** One entry per failed item, and only failed items. *)
Lemma failure_lines_elem {A : Type} (line : A -> exn -> string) (items : list A)
    (outcomes : list (outcome unit)) (entry : string) :
  entry ∈ failure_lines line items outcomes <->
  exists i x e, items !! i = Some x /\ outcomes !! i = Some (Raise e) /\
                entry = line x e.
Proof.
  revert outcomes. induction items as [|x items IH]; intros outcomes.
  - simpl. split; [intros H; inversion H|intros (i & y & e & H & _); discriminate].
  - destruct outcomes as [|r outcomes].
    + simpl. split; [intros H; inversion H|intros (i & y & e & _ & H & _); discriminate].
    + assert (Hrest : entry ∈ failure_lines line items outcomes <->
                      exists i y e, (x :: items) !! S i = Some y /\
                                    (r :: outcomes) !! S i = Some (Raise e) /\
                                    entry = line y e) by apply IH.
      destruct r as [[]|e|]; simpl failure_lines.
      * rewrite Hrest. split.
        -- intros (i & y & e & ?). exists (S i), y, e. assumption.
        -- intros ([|i] & y & e & Hi & Ho & He); [simplify_eq/=|].
           exists i, y, e. auto.
      * rewrite elem_of_cons, Hrest. split.
        -- intros [->|(i & y & e' & ?)]; [exists 0%nat, x, e; auto|].
           exists (S i), y, e'. assumption.
        -- intros ([|i] & y & e' & Hi & Ho & He).
           ++ left. simplify_eq/=. reflexivity.
           ++ right. exists i, y, e'. auto.
      * rewrite Hrest. split.
        -- intros (i & y & e & ?). exists (S i), y, e. assumption.
        -- intros ([|i] & y & e & Hi & Ho & He); [simplify_eq/=|].
           exists i, y, e. auto.
Qed.

Lemma failure_lines_non_empty {A : Type} (line : A -> exn -> string) (items : list A)
    (outcomes : list (outcome unit)) :
  length items = length outcomes ->
  non_empty (failure_lines line items outcomes) = existsb has_raised outcomes.
Proof.
  revert outcomes. induction items as [|x items IH]; intros [|r outcomes] Hlen;
    try discriminate; [reflexivity|].
  injection Hlen as Hlen. specialize (IH outcomes Hlen).
  destruct r; simpl; auto.
Qed.

Lemma upload_images_outcome E images w :
  _upload_images E images w
  = (Ret (StagingReport
            (if existsb has_raised (run_all (upload_image_item E) images w).1
             then "error" else "success")
            (failure_lines upload_line images
               (run_all (upload_image_item E) images w).1)),
     (run_all (upload_image_item E) images w).2).
Proof.
  unfold _upload_images.
  rewrite (bind_of_run _ _ _ _ _
             (staging_loop (upload_image_item E) upload_line images
                (terminates_upload_image_item E) [] w)).
  simpl app. unfold ret.
  rewrite failure_lines_non_empty by (symmetry; apply run_all_length).
  reflexivity.
Qed.

Lemma download_and_upload_outcome E items w :
  _download_and_upload_files E items w
  = (Ret (StagingReport
            (if existsb has_raised (run_all (download_item E) items w).1
             then "error" else "success")
            (failure_lines process_line items
               (run_all (download_item E) items w).1)),
     (run_all (download_item E) items w).2).
Proof.
  unfold _download_and_upload_files.
  rewrite (bind_of_run _ _ _ _ _
             (staging_loop (download_item E) process_line items
                (terminates_download_item E) [] w)).
  simpl app. unfold ret.
  rewrite failure_lines_non_empty by (symmetry; apply run_all_length).
  reflexivity.
Qed.

(** ** Base64 *)

Module Base64Facts.
Import Base64.
#[local] Open Scope N_scope.

Lemma b64_index_char n : n < 64 -> b64_index (b64_char n) = Some n.
Proof.
  intros Hn.
  assert (Hcases : In n (N.of_nat <$> seq 0 64)).
  { apply in_map_iff. exists (N.to_nat n). split; [lia|]. apply in_seq. lia. }
  vm_compute in Hcases.
  repeat (destruct Hcases as [<-|Hcases]; [vm_compute; reflexivity|]).
  destruct Hcases.
Qed.

Lemma b64_char_not_pad n : n < 64 -> Ascii.eqb (b64_char n) pad = false.
Proof.
  intros Hn.
  assert (Hcases : In n (N.of_nat <$> seq 0 64)).
  { apply in_map_iff. exists (N.to_nat n). split; [lia|]. apply in_seq. lia. }
  vm_compute in Hcases.
  repeat (destruct Hcases as [<-|Hcases]; [vm_compute; reflexivity|]).
  destruct Hcases.
Qed.

Lemma byte_at_high a b c :
  b < 256 -> c < 256 ->
  byte_at (N_of_ascii a * 65536 + b * 256 + c) 65536 = a.
Proof.
  intros Hb Hc. unfold byte_at.
  assert (Ha := N_ascii_bounded a).
  replace ((N_of_ascii a * 65536 + b * 256 + c) / 65536) with (N_of_ascii a).
  - rewrite N.mod_small by assumption. apply ascii_N_embedding.
  - apply N.div_unique with (r := b * 256 + c); lia.
Qed.

Lemma byte_at_middle a b c :
  c < 256 ->
  byte_at (a * 65536 + N_of_ascii b * 256 + c) 256 = b.
Proof.
  intros Hc. unfold byte_at.
  assert (Hb := N_ascii_bounded b).
  replace ((a * 65536 + N_of_ascii b * 256 + c) / 256) with (a * 256 + N_of_ascii b).
  - replace (a * 256 + N_of_ascii b) with (N_of_ascii b + a * 256) by lia.
    rewrite N.Div0.mod_add, N.mod_small by assumption. apply ascii_N_embedding.
  - apply N.div_unique with (r := c); lia.
Qed.

Lemma byte_at_low a b c :
  byte_at (a * 65536 + b * 256 + N_of_ascii c) 1 = c.
Proof.
  unfold byte_at. assert (Hc := N_ascii_bounded c).
  rewrite N.div_1_r.
  replace (a * 65536 + b * 256 + N_of_ascii c)
    with (N_of_ascii c + (a * 256 + b) * 256) by lia.
  rewrite N.Div0.mod_add, N.mod_small by assumption. apply ascii_N_embedding.
Qed.

(** The four digits of a 24-bit group put the group together again. *)
Lemma digits_of_group n :
  n < 16777216 ->
  n / 262144 < 64 /\ (n / 4096) mod 64 < 64 /\ (n / 64) mod 64 < 64 /\ n mod 64 < 64 /\
  n / 262144 * 262144 + (n / 4096) mod 64 * 4096 + (n / 64) mod 64 * 64 + n mod 64 = n.
Proof.
  intros Hn.
  assert (H1 := N.Div0.div_mod n 64).
  assert (H2 := N.Div0.div_mod (n / 64) 64).
  assert (H3 := N.Div0.div_mod (n / 64 / 64) 64).
  assert (Hm1 : n mod 64 < 64) by (apply N.mod_lt; lia).
  assert (Hm2 : (n / 64) mod 64 < 64) by (apply N.mod_lt; lia).
  assert (Hm3 : (n / 64 / 64) mod 64 < 64) by (apply N.mod_lt; lia).
  assert (E2 : n / 4096 = n / 64 / 64) by (rewrite N.Div0.div_div; reflexivity).
  assert (E3 : n / 262144 = n / 64 / 64 / 64) by (rewrite !N.Div0.div_div; reflexivity).
  rewrite E2, E3.
  assert (Hq : n / 64 / 64 / 64 < 64).
  { apply N.Div0.div_lt_upper_bound. rewrite !N.Div0.div_div.
    apply N.Div0.div_lt_upper_bound. lia. }
  repeat split; try assumption.
  lia.
Qed.

Lemma group_bound a b c :
  N_of_ascii a * 65536 + N_of_ascii b * 256 + N_of_ascii c < 16777216.
Proof.
  assert (Ha := N_ascii_bounded a). assert (Hb := N_ascii_bounded b).
  assert (Hc := N_ascii_bounded c). lia.
Qed.

(** What [b64encode] writes, the decoder reads back. *)
Lemma b64decode_b64encode : forall bs, b64decode (b64encode bs) = Some bs.
Proof.
  fix IH 1. intros [|a [|b [|c rest]]].
  - reflexivity.
  - simpl b64encode. unfold encode1.
    set (n := N_of_ascii a * 65536).
    assert (Hn : n < 16777216).
    { subst n. assert (Ha := N_ascii_bounded a). lia. }
    destruct (digits_of_group n Hn) as (H1 & H2 & H3 & H4 & Hsum).
    simpl b64decode. rewrite !b64_index_char by assumption.
    change (Ascii.eqb pad pad) with true. cbv iota.
    assert (Hlow : n mod 65536 = 0).
    { subst n. rewrite N.Div0.mod_mul. reflexivity. }
    assert (Hz3 : (n / 64) mod 64 = 0 /\ n mod 64 = 0).
    { assert (H64 : n mod 64 = 0).
      { subst n. replace (N_of_ascii a * 65536) with (N_of_ascii a * 1024 * 64) by lia.
        apply N.Div0.mod_mul. }
      split; [|exact H64].
      subst n. replace (N_of_ascii a * 65536) with (N_of_ascii a * 1024 * 64) by lia.
      rewrite N.div_mul by lia.
      replace (N_of_ascii a * 1024) with (N_of_ascii a * 16 * 64) by lia.
      apply N.Div0.mod_mul. }
    destruct Hz3 as [Hz3 Hz4]. rewrite Hz3, Hz4 in Hsum.
    replace (n / 262144 * 262144 + (n / 4096) mod 64 * 4096) with n by lia.
    rewrite Hlow. change (0 =? 0) with true. cbv iota.
    subst n. f_equal. f_equal.
    replace (N_of_ascii a * 65536) with (N_of_ascii a * 65536 + 0 * 256 + 0) by lia.
    apply byte_at_high; lia.
  - simpl b64encode. unfold encode2.
    set (n := N_of_ascii a * 65536 + N_of_ascii b * 256).
    assert (Hn : n < 16777216).
    { subst n. assert (Ha := N_ascii_bounded a). assert (Hb := N_ascii_bounded b). lia. }
    destruct (digits_of_group n Hn) as (H1 & H2 & H3 & H4 & Hsum).
    simpl b64decode. rewrite !b64_index_char by assumption.
    change (Ascii.eqb pad pad) with true. cbv iota.
    rewrite (b64_char_not_pad _ H3).
    assert (Hz4 : n mod 64 = 0).
    { subst n.
      replace (N_of_ascii a * 65536 + N_of_ascii b * 256)
        with ((N_of_ascii a * 1024 + N_of_ascii b * 4) * 64) by lia.
      apply N.Div0.mod_mul. }
    rewrite Hz4 in Hsum.
    replace (n / 262144 * 262144 + (n / 4096) mod 64 * 4096 + (n / 64) mod 64 * 64)
      with n by lia.
    assert (Hlow : n mod 256 = 0).
    { subst n.
      replace (N_of_ascii a * 65536 + N_of_ascii b * 256)
        with ((N_of_ascii a * 256 + N_of_ascii b) * 256) by lia.
      apply N.Div0.mod_mul. }
    rewrite Hlow. change (0 =? 0) with true. cbv iota.
    subst n. f_equal.
    assert (Hb := N_ascii_bounded b).
    f_equal; [|f_equal].
    + replace (N_of_ascii a * 65536 + N_of_ascii b * 256)
        with (N_of_ascii a * 65536 + N_of_ascii b * 256 + 0) by lia.
      apply byte_at_high; lia.
    + replace (N_of_ascii a * 65536 + N_of_ascii b * 256)
        with (N_of_ascii a * 65536 + N_of_ascii b * 256 + 0) by lia.
      apply byte_at_middle; lia.
  - simpl b64encode. unfold encode3.
    set (n := N_of_ascii a * 65536 + N_of_ascii b * 256 + N_of_ascii c).
    assert (Hn : n < 16777216) by apply group_bound.
    destruct (digits_of_group n Hn) as (H1 & H2 & H3 & H4 & Hsum).
    simpl b64decode. rewrite !b64_index_char by assumption.
    rewrite (b64_char_not_pad _ H4). rewrite (IH rest). rewrite Hsum.
    subst n. f_equal.
    assert (Hb := N_ascii_bounded b). assert (Hc := N_ascii_bounded c).
    f_equal; [|f_equal; [|f_equal]].
    + apply byte_at_high; assumption.
    + apply byte_at_middle; assumption.
    + apply byte_at_low.
Qed.

End Base64Facts.

(** ** Output collection *)

Lemma for_each_preserves {A S : Type} (P : S -> Prop) (l : list A)
    (body : A -> S -> M S) :
  (forall x s w s' w', x ∈ l -> P s -> body x s w = (Ret s', w') -> P s') ->
  forall s w s' w', P s -> for_each l body s w = (Ret s', w') -> P s'.
Proof.
  induction l as [|x l IH]; intros Hbody s w s' w' Hs Hrun.
  - injection Hrun as <- _. exact Hs.
  - simpl in Hrun. apply bind_returns in Hrun as (s1 & w1 & Hx & Hrest).
    eapply IH; [|eapply Hbody; [left|exact Hs|exact Hx]|exact Hrest].
    intros y t u t' u' Hy. apply Hbody. right. exact Hy.
Qed.

Lemma try_except_returns {A : Type} (m : M A) (h : exn -> M A) w a w' :
  try_except m h w = (Ret a, w') ->
  m w = (Ret a, w') \/ exists e w1, m w = (Raise e, w1) /\ h e w1 = (Ret a, w').
Proof.
  unfold try_except. destruct (m w) as [[a'|e|] w1]; eauto.
Qed.

Section OutputFacts.
Context (E : env).

(** What one pass of the innermost loop can add to the result. *)
Lemma collect_artifact_step upload_map file_info output_data errors w
    output_data' errors' w' :
  collect_artifact E upload_map file_info (output_data, errors) w
    = (Ret (output_data', errors'), w') ->
  output_data' = output_data \/
  exists entry, output_data' = output_data ++ [entry] /\ entry_of file_info entry.
Proof.
  unfold collect_artifact. intros H.
  apply bind_returns in H as (filename & w1 & Hf & H).
  apply bind_returns in H as (subfolder & w2 & Hs & H).
  apply bind_returns in H as (file_type & w3 & Ht & H).
  destruct file_info as [| | | | |fields]; try discriminate.
  simpl in Hf, Hs, Ht. injection Hf as <- <-. injection Hs as <- <-.
  injection Ht as <- <-.
  destruct (negb (py_truthy (from_option id JNull (dict_get "filename" fields))))
    eqn:Htruthy; simpl in H; [injection H as <- _ _; left; reflexivity|].
  destruct (py_eq (from_option id JNull (dict_get "type" fields)) (JStr "temp"))
    eqn:Htemp; simpl in H; [injection H as <- _ _; left; reflexivity|].
  assert (Hkept : field "type" fields <> JStr "temp").
  { intros Heq. apply py_eq_str in Heq. unfold field in Heq. congruence. }
  apply negb_false_iff in Htruthy.
  apply bind_returns in H as (fetched & w4 & _ & H).
  destruct fetched as [e|file_bytes]; [injection H as <- _ _; left; reflexivity|].
  apply bind_returns in H as (upload_url & w5 & _ & H).
  assert (Hinline : forall a b, (a, b) = (output_data', errors') ->
            a = output_data ++ [inlined_entry (field "filename" fields) file_bytes] ->
            output_data' = output_data \/
            exists entry, output_data' = output_data ++ [entry] /\
                          entry_of (JObj fields) entry).
  { intros a b [= <- _] ->. right. eexists. split; [reflexivity|].
    exists fields. repeat split; eauto. }
  destruct upload_url as [dest|]; [|injection H as Hd He _; eapply Hinline; eauto; congruence].
  destruct (String.eqb dest "");
    [injection H as Hd He _; eapply Hinline; eauto; congruence|].
  apply try_except_returns in H as [H|(e & w6 & _ & H)].
  - apply bind_returns in H as (is_video & w6 & _ & H).
    apply bind_returns in H as (r & w7 & _ & H).
    apply bind_returns in H as ([] & w8 & _ & H).
    injection H as <- _ _. right. eexists. split; [reflexivity|].
    exists fields. repeat split; eauto.
  - injection H as <- _ _. left. reflexivity.
Qed.

Lemma listed_artifacts_elem nodes node key listed file_infos file_info :
  node ∈ nodes -> key ∈ output_keys ->
  py_get (snd node) key (JArr []) = inr listed ->
  py_iter listed = inr file_infos ->
  file_info ∈ file_infos ->
  file_info ∈ listed_artifacts (JObj nodes).
Proof.
  intros Hnode Hkey Hget Hiter Hfi. unfold listed_artifacts.
  apply list_elem_of_In, in_flat_map. exists node. split; [apply list_elem_of_In, Hnode|].
  apply in_flat_map. exists key. split; [apply list_elem_of_In, Hkey|].
  rewrite Hget, Hiter. apply list_elem_of_In, Hfi.
Qed.

(** Every entry of the result was made for a descriptor of the manifest
    that is not of type "temp". *)
Lemma process_outputs_entries outputs upload_urls w output_data errors w' :
  _process_outputs E outputs upload_urls w = (Ret (output_data, errors), w') ->
  Forall (fun entry => exists file_info,
              file_info ∈ listed_artifacts outputs /\ entry_of file_info entry)
         output_data.
Proof.
  unfold _process_outputs. intros H.
  apply bind_returns in H as (upload_map & w1 & _ & H).
  apply bind_returns in H as (nodes & w2 & Hnodes & H).
  destruct outputs as [| | | | |fields]; try discriminate.
  injection Hnodes as <- <-.
  set (P := fun acc : list json * list string =>
              Forall (fun entry => exists file_info,
                          file_info ∈ listed_artifacts (JObj fields) /\
                          entry_of file_info entry) acc.1).
  change (P (output_data, errors)).
  refine (for_each_preserves P _ _ _ _ _ _ _ _ H); [|constructor].
  intros node acc u acc' u' Hnode Hacc Hkeys.
  refine (for_each_preserves P _ _ _ _ _ _ _ Hacc Hkeys).
  intros key acc1 u1 acc1' u1' Hkey Hacc1 Hinfos.
  apply bind_returns in Hinfos as (listed & u2 & Hget & Hinfos).
  apply bind_returns in Hinfos as (file_infos & u3 & Hiter & Hinfos).
  assert (Hget' : py_get node.2 key (JArr []) = inr listed).
  { destruct (py_get node.2 key (JArr [])); simpl in Hget; [discriminate|].
    injection Hget as <- _. reflexivity. }
  assert (Hiter' : py_iter listed = inr file_infos).
  { destruct (py_iter listed); simpl in Hiter; [discriminate|].
    injection Hiter as <- _. reflexivity. }
  refine (for_each_preserves P _ _ _ _ _ _ _ Hacc1 Hinfos).
  intros file_info [data errs] u4 [data' errs'] u4' Hfi Hdata Hstep.
  apply collect_artifact_step in Hstep as [->|(entry & -> & Hentry)]; [exact Hdata|].
  unfold P. simpl. apply Forall_app. split; [exact Hdata|].
  constructor; [|constructor].
  exists file_info. split; [|exact Hentry].
  eapply listed_artifacts_elem; eassumption.
Qed.

Lemma entry_is_classified file_info entry : entry_of file_info entry -> classified entry.
Proof.
  intros (fields & _ & _ & _ & [->|[file_bytes ->]]).
  - eexists. split; [reflexivity|]. left. split; reflexivity.
  - eexists. split; [reflexivity|]. right. split; [reflexivity|].
    exists file_bytes. split; [reflexivity|]. apply Base64Facts.b64decode_b64encode.
Qed.

End OutputFacts.

(** The map of output targets holds exactly the names of the caller's
    targets, each with the URL of one of the targets of that name. *)
Lemma build_upload_map_spec (targets : list (gmap string string)) :
  forall (m0 : gmap string string) w m w',
    for_each targets
      (fun item (m : gmap string string) =>
         bind (lift (str_dict_item item "name")) (fun name =>
         bind (lift (str_dict_item item "url")) (fun dest =>
         ret (<[name := dest]> m)))) m0 w = (Ret m, w') ->
    w' = w /\
    (forall name,
        m !! name = None <->
        m0 !! name = None /\ forall item, item ∈ targets -> item !! "name" <> Some name) /\
    (forall name dest,
        m !! name = Some dest ->
        m0 !! name = Some dest \/
        exists item, item ∈ targets /\ item !! "name" = Some name /\
                     item !! "url" = Some dest).
Proof.
  induction targets as [|item targets IH]; intros m0 w m w' Hrun.
  - injection Hrun as <- <-. split; [reflexivity|]. split.
    + intros name. split; [intros H; split; [exact H|]|intros [H _]; exact H].
      intros item Hin. inversion Hin.
    + intros name dest H. left. exact H.
  - simpl in Hrun. apply bind_returns in Hrun as (m1 & w1 & Hitem & Hrest).
    apply bind_returns in Hitem as (name' & w2 & Hname & Hitem).
    apply bind_returns in Hitem as (dest' & w3 & Hdest & Hitem).
    unfold str_dict_item in Hname, Hdest.
    destruct (item !! "name") as [n|] eqn:Hn; [|discriminate].
    destruct (item !! "url") as [u|] eqn:Hu; [|discriminate].
    injection Hname as <- <-. injection Hdest as <- <-. injection Hitem as <- <-.
    apply IH in Hrest as (-> & Hnone & Hsome). split; [reflexivity|]. split.
    + intros name. rewrite Hnone. split.
      * intros [Hm Hno].
        destruct (decide (n = name)) as [->|Hne];
          [rewrite lookup_insert_eq in Hm; discriminate|].
        rewrite lookup_insert_ne in Hm by exact Hne.
        split; [exact Hm|]. intros item' [->|Hin]%elem_of_cons; [congruence|auto].
      * intros [Hm Hno].
        assert (Hne : n <> name).
        { intros ->. apply (Hno item); [left|exact Hn]. }
        split; [rewrite lookup_insert_ne by exact Hne; exact Hm|].
        intros item' Hin. apply Hno. right. exact Hin.
    + intros name dest Hm. apply Hsome in Hm as [Hm|(item' & Hin & H1 & H2)].
      * destruct (decide (n = name)) as [->|Hne].
        -- rewrite lookup_insert_eq in Hm. injection Hm as <-.
           right. exists item. split; [left|auto].
        -- rewrite lookup_insert_ne in Hm by exact Hne. left. exact Hm.
      * right. exists item'. split; [right; exact Hin|auto].
Qed.

(** ** Fuel *)

Lemma finishes_as_refl {A : Type} (m : M A) : finishes_as m m.
Proof. intros w r w' H _. exact H. Qed.

Lemma finishes_as_bind {A B : Type} (m1 m2 : M A) (k1 k2 : A -> M B) :
  finishes_as m1 m2 -> (forall a, finishes_as (k1 a) (k2 a)) ->
  finishes_as (bind m1 k1) (bind m2 k2).
Proof.
  intros Hm Hk w r w'. unfold bind.
  destruct (m1 w) as [[a|e|] w1] eqn:H1.
  - rewrite (Hm w _ _ H1) by discriminate. apply Hk.
  - rewrite (Hm w _ _ H1) by discriminate. auto.
  - intros [= <- <-] Hr. destruct Hr. reflexivity.
Qed.

Lemma finishes_as_try_except {A : Type} (m1 m2 : M A) (h : exn -> M A) :
  finishes_as m1 m2 -> finishes_as (try_except m1 h) (try_except m2 h).
Proof.
  intros Hm w r w'. unfold try_except.
  destruct (m1 w) as [[a|e|] w1] eqn:H1.
  - rewrite (Hm w _ _ H1) by discriminate. auto.
  - rewrite (Hm w _ _ H1) by discriminate. auto.
  - intros [= <- <-] Hr. destruct Hr. reflexivity.
Qed.

Lemma finishes_as_try_finally {A : Type} (m1 m2 : M A) (f : M unit) :
  finishes_as m1 m2 -> finishes_as (try_finally m1 f) (try_finally m2 f).
Proof.
  intros Hm w r w'. unfold try_finally.
  destruct (m1 w) as [[a|e|] w1] eqn:H1.
  - rewrite (Hm w _ _ H1) by discriminate. auto.
  - rewrite (Hm w _ _ H1) by discriminate. auto.
  - intros [= <- <-] Hr. destruct Hr. reflexivity.
Qed.

(** A loop that has ended within [fuel] passes ends the same way with any
    larger allowance: the result does not depend on the fuel. *)
Lemma loop_more_fuel C E url pid extra fuel : forall ws errors,
  finishes_as (monitor_loop C E fuel url pid ws errors)
              (monitor_loop C E (fuel + extra) url pid ws errors).
Proof.
  induction fuel as [|fuel IH]; intros ws errors.
  - intros w r w'. simpl. unfold pending. intros [= <- <-] Hr.
    destruct Hr. reflexivity.
  - change (S fuel + extra)%nat with (S (fuel + extra)). simpl.
    apply finishes_as_bind; [apply finishes_as_refl|].
    intros [result|ws']; [apply finishes_as_refl|apply IH].
Qed.

Lemma job_more_fuel C E extra fuel job_id req :
  finishes_as (_execute_job C E fuel job_id req)
              (_execute_job C E (fuel + extra) job_id req).
Proof.
  unfold _execute_job. apply finishes_as_try_except.
  unfold execute_job_body.
  apply finishes_as_bind; [apply finishes_as_refl|].
  intros [early|[[client_id ws_url] ws]]; [apply finishes_as_refl|].
  apply finishes_as_bind; [|intros ?; apply finishes_as_refl].
  apply finishes_as_try_finally. unfold submit_and_monitor.
  apply finishes_as_bind; [apply finishes_as_refl|]. intros queued.
  apply finishes_as_bind; [apply finishes_as_refl|]. intros prompt_id.
  destruct (negb (py_truthy prompt_id)); [apply finishes_as_refl|].
  apply finishes_as_bind; [apply finishes_as_refl|]. intros _.
  apply finishes_as_bind; [|intros ?; apply finishes_as_refl].
  apply loop_more_fuel.
Qed.

Lemma run_job_more_fuel C E extra fuel job_id req :
  finishes_as (_run_job C E fuel job_id req) (_run_job C E (fuel + extra) job_id req).
Proof.
  unfold _run_job.
  apply finishes_as_bind; [apply job_more_fuel|intros ?; apply finishes_as_refl].
Qed.

(** ** Probing the engine *)

Lemma for_until_hit {A R : Type} (x : A) (l : list A) (body : A -> M (option R)) w v w' :
  body x w = (Ret (Some v), w') -> for_until (x :: l) body w = (Ret (Some v), w').
Proof. intros H. simpl. unfold bind. rewrite H. reflexivity. Qed.

Lemma for_until_miss {A R : Type} (x : A) (l : list A) (body : A -> M (option R)) w w' :
  body x w = (Ret None, w') -> for_until (x :: l) body w = for_until l body w'.
Proof. intros H. simpl. unfold bind. rewrite H. reflexivity. Qed.

Lemma now_extended w cs c : now (World (calls w ++ cs) c) = (now w + length cs)%nat.
Proof. unfold now. simpl. apply length_app. Qed.

Section ProbeFacts.
Context (E : env).

Lemma probe_attempt_cases url delay w :
  sleep_refusal delay = None ->
  (ready_at E (now w) = true /\
   probe_attempt E url delay w
     = (Ret (Some true), World (calls w ++ [HttpGet url]) (connected w))) \/
  (ready_at E (now w) = false /\
   probe_attempt E url delay w
     = (Ret None, World (calls w ++ [HttpGet url; Sleep delay]) (connected w))).
Proof.
  intros Hdelay.
  unfold probe_attempt, ready_at, bind, try_except, http, sleep. rewrite Hdelay.
  destruct (http_reply E (now w)) as [e|r]; simpl.
  - right. split; [reflexivity|].
    unfold emit, record. simpl. rewrite <- app_assoc. reflexivity.
  - destruct (status_code r =? 200); simpl.
    + left. split; reflexivity.
    + right. split; [reflexivity|].
      unfold emit, record. simpl. rewrite <- app_assoc. reflexivity.
Qed.

Lemma probe_loop url delay (l : list Z) : forall w,
  sleep_refusal delay = None ->
  exists (k : nat),
    (k <= length l)%nat /\ none_ready E (now w) k /\
    (((k < length l)%nat /\ ready_at E (now w + k * 2) = true /\
      for_until l (fun _ => probe_attempt E url delay) w
        = (Ret (Some true),
           World (calls w ++ failed_probes url delay k ++ [HttpGet url]) (connected w))) \/
     (k = length l /\
      for_until l (fun _ => probe_attempt E url delay) w
        = (Ret None, World (calls w ++ failed_probes url delay k) (connected w)))).
Proof.
  induction l as [|x l IH]; intros w Hdelay.
  - exists 0%nat. conjuncts. right.
    split; [reflexivity|]. simpl. rewrite app_nil_r. destruct w; reflexivity.
  - cbn [length].
    destruct (probe_attempt_cases url delay w Hdelay) as [(Hr & Hrun)|(Hr & Hrun)].
    + exists 0%nat. split; [lia|]. split; [exact I|]. left.
      split; [lia|]. rewrite Nat.add_0_r. split; [exact Hr|].
      apply (for_until_hit x l (fun _ => probe_attempt E url delay)). exact Hrun.
    + rewrite (for_until_miss x l (fun _ => probe_attempt E url delay) w _ Hrun).
      destruct (IH (World (calls w ++ [HttpGet url; Sleep delay]) (connected w)) Hdelay)
        as (k & Hk & Hnone & Hcases).
      rewrite now_extended in *. cbn [calls connected length] in *.
      exists (S k). split; [lia|]. split; [simpl; auto|].
      replace (now w + S k * 2)%nat with (now w + 2 + k * 2)%nat by lia.
      destruct Hcases as [(Hlt & Hr' & ->)|(-> & ->)].
      * left. split; [lia|]. split; [exact Hr'|].
        simpl. rewrite <- !app_assoc. reflexivity.
      * right. split; [reflexivity|].
        simpl. rewrite <- !app_assoc. reflexivity.
Qed.

Lemma count_gets_failed_probes url delay k :
  length (filter is_get (failed_probes url delay k)) = k.
Proof.
  induction k as [|k IH]; [reflexivity|]. cbn [failed_probes].
  rewrite filter_cons_True by exact I. rewrite filter_cons_False by (intros []).
  cbn [length]. rewrite IH. reflexivity.
Qed.

End ProbeFacts.

(** ** Footprints *)

Lemma calls_made_extended {A : Type} (m : M A) w cs :
  calls (world_after m w) = calls w ++ cs -> calls_made m w = cs.
Proof.
  intros H. unfold calls_made, now. rewrite H. apply drop_app_length.
Qed.

#[local] Instance extends_preorder (P : call -> Prop) : PreOrder (extends P).
Proof.
  split.
  - intros w. exists []. split; [symmetry; apply app_nil_r|constructor].
  - intros w1 w2 w3 (cs & H1 & HP) (cs' & H2 & HP'). exists (cs ++ cs'). split.
    + rewrite H2, H1, app_assoc. reflexivity.
    + apply Forall_app. split; assumption.
Qed.

#[local] Instance quietly_preorder (P : call -> Prop) : PreOrder (quietly P).
Proof.
  split.
  - intros w. split; reflexivity.
  - intros w1 w2 w3 [H1 H1'] [H2 H2']. split; [etrans; eassumption|congruence].
Qed.

Lemma extends_weaken (P Q : call -> Prop) w w' :
  (forall c, P c -> Q c) -> extends P w w' -> extends Q w w'.
Proof.
  intros HPQ (cs & H & HP). exists cs. split; [exact H|].
  eapply Forall_impl; [exact HP|exact HPQ].
Qed.

Lemma steps_weaken (P Q : call -> Prop) {A : Type} (m : M A) :
  (forall c, P c -> Q c) -> steps (extends P) m -> steps (extends Q) m.
Proof. intros HPQ H w. eapply extends_weaken; [exact HPQ|apply H]. Qed.

Lemma steps_quietly_weaken (P Q : call -> Prop) {A : Type} (m : M A) :
  (forall c, P c -> Q c) -> steps (quietly P) m -> steps (quietly Q) m.
Proof.
  intros HPQ H w. destruct (H w) as [H1 H2]. split; [|exact H2].
  eapply extends_weaken; [exact HPQ|exact H1].
Qed.

Lemma quietly_extends (P : call -> Prop) {A : Type} (m : M A) :
  steps (quietly P) m -> steps (extends P) m.
Proof. intros H w. apply H. Qed.

Lemma quietly_same_sockets (P : call -> Prop) {A : Type} (m : M A) w :
  steps (quietly P) m -> connected (world_after m w) = connected w.
Proof. intros H. apply H. Qed.

Lemma steps_now (P : call -> Prop) {A : Type} (m : M A) w r w' :
  steps (extends P) m -> m w = (r, w') -> (now w <= now w')%nat.
Proof.
  intros H Hrun. destruct (H w) as (cs & Hcs & _).
  unfold world_after in Hcs. rewrite Hrun in Hcs. cbn [snd] in Hcs.
  unfold now. rewrite Hcs, length_app. lia.
Qed.

Lemma steps_calls_made (P : call -> Prop) {A : Type} (m : M A) w :
  steps (extends P) m -> Forall P (calls_made m w).
Proof.
  intros H. destruct (H w) as (cs & Hcs & HP).
  rewrite (calls_made_extended m w cs Hcs). exact HP.
Qed.

Section Steps.
Context (R : relation world) `{!PreOrder R}.

Lemma steps_ret {A : Type} (a : A) : steps R (ret a).
Proof. intros w. reflexivity. Qed.

Lemma steps_raise {A : Type} (e : exn) : steps R (@raise A e).
Proof. intros w. reflexivity. Qed.

Lemma steps_pending {A : Type} : steps R (@pending A).
Proof. intros w. reflexivity. Qed.

Lemma steps_lift {A : Type} (r : exn + A) : steps R (lift r).
Proof. intros w. destruct r; reflexivity. Qed.

Lemma steps_bind {A B : Type} (m : M A) (k : A -> M B) :
  steps R m -> (forall a, steps R (k a)) -> steps R (bind m k).
Proof.
  intros Hm Hk w. specialize (Hm w). unfold world_after, bind in *.
  destruct (m w) as [[a|e|] w1]; simpl in *; try exact Hm.
  etrans; [exact Hm|apply Hk].
Qed.

(** [bind] when more is known of what [m] returns. *)
Lemma steps_bind_post {A B : Type} (Q : A -> Prop) (m : M A) (k : A -> M B) :
  steps R m -> (forall w a w', m w = (Ret a, w') -> Q a) ->
  (forall a, Q a -> steps R (k a)) -> steps R (bind m k).
Proof.
  intros Hm HQ Hk w. specialize (Hm w). specialize (HQ w). unfold world_after, bind in *.
  destruct (m w) as [[a|e|] w1]; simpl in *; try exact Hm.
  etrans; [exact Hm|]. apply Hk. eapply HQ. reflexivity.
Qed.

Lemma steps_bind_lift {A B : Type} (r : exn + A) (k : A -> M B) :
  (forall a, r = inr a -> steps R (k a)) -> steps R (bind (lift r) k).
Proof.
  intros Hk. apply (steps_bind_post (fun a => r = inr a)).
  - destruct r; intros w; reflexivity.
  - intros w a w' H. destruct r; [discriminate|]. injection H as -> _. reflexivity.
  - exact Hk.
Qed.

Lemma steps_try_except {A : Type} (m : M A) (h : exn -> M A) :
  steps R m -> (forall e, steps R (h e)) -> steps R (try_except m h).
Proof.
  intros Hm Hh w. specialize (Hm w). unfold world_after, try_except in *.
  destruct (m w) as [[a|e|] w1]; simpl in *; try exact Hm.
  etrans; [exact Hm|apply Hh].
Qed.

Lemma steps_try_finally {A : Type} (m : M A) (f : M unit) :
  steps R m -> steps R f -> steps R (try_finally m f).
Proof.
  intros Hm Hf w. specialize (Hm w). unfold world_after, try_finally in *.
  destruct (m w) as [[a|e|] w1]; simpl in *; try exact Hm.
  - specialize (Hf w1). unfold world_after in Hf.
    destruct (f w1) as [[[]|e|] w2]; simpl in *; etrans; eassumption.
  - specialize (Hf w1). unfold world_after in Hf.
    destruct (f w1) as [[[]|e'|] w2]; simpl in *; etrans; eassumption.
Qed.

Lemma steps_for_each {A S : Type} (l : list A) (body : A -> S -> M S) :
  (forall x s, x ∈ l -> steps R (body x s)) -> forall s, steps R (for_each l body s).
Proof.
  induction l as [|x l IH]; intros Hbody s; [apply steps_ret|].
  cbn [for_each]. apply steps_bind.
  - apply Hbody. left.
  - intros s'. apply IH. intros y t Hy. apply Hbody. right. exact Hy.
Qed.

Lemma steps_for_until {A B : Type} (l : list A) (body : A -> M (option B)) :
  (forall x, steps R (body x)) -> steps R (for_until l body).
Proof.
  intros Hbody. induction l as [|x l IH]; [apply steps_ret|].
  cbn [for_until]. apply steps_bind; [apply Hbody|].
  intros [v|]; [apply steps_ret|exact IH].
Qed.

End Steps.

(** The calls, one by one. *)
Section CallSteps.
Context (E : env) (P : call -> Prop).

Lemma quietly_one c w : P c -> quietly P w (World (calls w ++ [c]) (connected w)).
Proof.
  intros Hc. split; [|reflexivity].
  exists [c]. split; [reflexivity|]. repeat constructor. exact Hc.
Qed.

Lemma extends_one c w sockets : P c -> extends P w (World (calls w ++ [c]) sockets).
Proof. intros Hc. exists [c]. split; [reflexivity|]. repeat constructor. exact Hc. Qed.

Lemma quiet_emit c : P c -> steps (quietly P) (emit c).
Proof. intros Hc w. apply quietly_one. exact Hc. Qed.

Lemma quiet_print line : P (Print line) -> steps (quietly P) (print line).
Proof. apply quiet_emit. Qed.

Lemma quiet_sleep seconds : P (Sleep seconds) -> steps (quietly P) (sleep seconds).
Proof.
  intros Hc. unfold sleep.
  destruct (sleep_refusal seconds); [apply steps_raise; apply _|].
  apply quiet_emit. exact Hc.
Qed.

Lemma quiet_http c : P c -> steps (quietly P) (http E c).
Proof. intros Hc w. apply quietly_one. exact Hc. Qed.

Lemma quiet_uuid4 : P Uuid4 -> steps (quietly P) (uuid4 E).
Proof. intros Hc w. apply quietly_one. exact Hc. Qed.

Lemma quiet_cleanup : P Cleanup -> steps (quietly P) (_cleanup_comfyui_directories E).
Proof. intros Hc w. apply quietly_one. exact Hc. Qed.

Lemma quiet_raise_for_status r url : steps (quietly P) (raise_for_status r url).
Proof.
  unfold raise_for_status.
  destruct ((400 <=? status_code r) && (status_code r <? 600));
    [apply steps_raise|apply steps_ret]; apply _.
Qed.

Lemma steps_emit c : P c -> steps (extends P) (emit c).
Proof. intros Hc. apply quietly_extends, quiet_emit, Hc. Qed.

Lemma steps_print line : P (Print line) -> steps (extends P) (print line).
Proof. apply steps_emit. Qed.

Lemma steps_sleep seconds : P (Sleep seconds) -> steps (extends P) (sleep seconds).
Proof. intros Hc. apply quietly_extends, quiet_sleep, Hc. Qed.

Lemma steps_http c : P c -> steps (extends P) (http E c).
Proof. intros Hc. apply quietly_extends, quiet_http, Hc. Qed.

Lemma steps_uuid4 : P Uuid4 -> steps (extends P) (uuid4 E).
Proof. intros Hc. apply quietly_extends, quiet_uuid4, Hc. Qed.

Lemma steps_cleanup : P Cleanup -> steps (extends P) (_cleanup_comfyui_directories E).
Proof. intros Hc. apply quietly_extends, quiet_cleanup, Hc. Qed.

Lemma steps_raise_for_status r url : steps (extends P) (raise_for_status r url).
Proof. apply quietly_extends, quiet_raise_for_status. Qed.

Lemma steps_ws_connect url : P (WsConnect url) -> steps (extends P) (ws_connect E url).
Proof.
  intros Hc w. unfold world_after, ws_connect.
  destruct (ws_connect_reply E (now w)); apply extends_one; exact Hc.
Qed.

Lemma steps_ws_recv ws : P (WsRecv ws) -> steps (extends P) (ws_recv E ws).
Proof.
  intros Hc w. unfold world_after, ws_recv.
  destruct (ws_recv_reply E (now w)); apply extends_one; exact Hc.
Qed.

Lemma steps_ws_close ws : P (WsClose ws) -> steps (extends P) (ws_close ws).
Proof. intros Hc w. apply extends_one. exact Hc. Qed.

Lemma steps_ws_is_connected ws : steps (quietly P) (ws_is_connected ws).
Proof. intros w. reflexivity. Qed.

End CallSteps.

Create HintDb steps discriminated.

#[local] Hint Resolve steps_ret steps_raise steps_pending steps_lift steps_bind
  steps_try_except steps_try_finally steps_for_until steps_emit steps_print
  steps_sleep steps_http steps_uuid4 steps_cleanup steps_ws_connect steps_ws_recv
  steps_ws_close steps_ws_is_connected steps_raise_for_status quiet_emit quiet_print
  quiet_sleep quiet_http quiet_uuid4 quiet_cleanup quiet_raise_for_status : steps.
#[local] Hint Extern 1 (PreOrder _) => apply _ : steps.
#[local] Hint Extern 3 (steps _ (if ?b then _ else _)) => destruct b : steps.
#[local] Hint Extern 3 (steps _ (match ?x with _ => _ end)) => destruct x : steps.
#[local] Hint Constructors probe_call staging_call monitor_call collect_call : steps.

Lemma prefix_nil (t : string) : String.prefix "" t = true.
Proof. destruct t; reflexivity. Qed.

Lemma prefix_cons (a : ascii) (s t : string) :
  String.prefix s t = true -> String.prefix (String a s) (String a t) = true.
Proof. intros H. simpl. destruct (ascii_dec a a); [exact H|congruence]. Qed.

(** An address built on the engine's host is an address of the engine. *)
Ltac at_engine :=
  unfold engine_url, engine_ws_url;
  cbv [comfy_root COMFY_HOST String.append];
  repeat apply prefix_cons; apply prefix_nil.

#[local] Hint Extern 1 (engine_url _) => at_engine : steps.
#[local] Hint Extern 1 (engine_ws_url _) => at_engine : steps.

Ltac footprint := eauto 200 with steps.

Section Footprints.
Context (C : config) (E : env).

Lemma check_server_steps url retries delay :
  steps (quietly (probe_call url delay)) (_check_server E url retries delay).
Proof. unfold _check_server. footprint. Qed.

Lemma upload_image_item_steps items image :
  steps (quietly (staging_call items)) (upload_image_item E image).
Proof. unfold upload_image_item. footprint. Qed.

Lemma upload_images_steps items images :
  steps (quietly (staging_call items)) (_upload_images E images).
Proof.
  unfold _upload_images. apply steps_bind; [apply _| |footprint].
  apply steps_for_each; [apply _|]. intros image errors _.
  pose proof (upload_image_item_steps items image). footprint.
Qed.

Lemma download_item_steps items item :
  item ∈ items -> steps (quietly (staging_call items)) (download_item E item).
Proof.
  intros Hin. unfold download_item.
  apply steps_bind; [apply _|footprint|]. intros name.
  apply steps_bind_lift; [apply _|]. intros src Hsrc.
  assert (Hurl : item !! "url" = Some src).
  { unfold str_dict_item in Hsrc. destruct (item !! "url"); congruence. }
  apply steps_bind; [apply _|apply quiet_http; eapply staging_fetch; eassumption|].
  intros got.
  destruct (from_option id (EmptyString, name) (rsplit_last "/" name))
    as [subfolder filename].
  destruct (ends_with_any (str_lower filename) video_upload_suffixes); footprint.
Qed.

Lemma download_and_upload_steps items :
  steps (quietly (staging_call items)) (_download_and_upload_files E items).
Proof.
  unfold _download_and_upload_files. apply steps_bind; [apply _| |footprint].
  apply steps_for_each; [apply _|]. intros item errors Hin.
  pose proof (download_item_steps items item Hin). footprint.
Qed.

Lemma stage_inputs_steps P items stage error :
  (forall l, steps (quietly P) (stage l)) ->
  steps (quietly P) (stage_inputs items stage error).
Proof. intros Hstage. unfold stage_inputs. footprint. Qed.

Lemma prepare_steps req : steps (extends (prepare_call req)) (prepare E req).
Proof.
  unfold prepare.
  apply steps_bind; [apply _|apply steps_cleanup; apply prepare_sweep|intros _].
  apply steps_bind; [apply _| |intros reachable].
  { apply quietly_extends.
    eapply steps_quietly_weaken; [|apply check_server_steps]. apply prepare_probe. }
  destruct (negb reachable); [footprint|].
  apply steps_bind; [apply _| |intros staged].
  { apply quietly_extends, stage_inputs_steps. intros l.
    eapply steps_quietly_weaken; [|apply upload_images_steps]. apply prepare_stage. }
  destruct staged; [footprint|].
  apply steps_bind; [apply _| |intros staged].
  { apply quietly_extends. unfold stage_inputs.
    destruct (non_empty (or_empty (download_urls req))); [|footprint].
    apply steps_bind; [apply _| |footprint].
    eapply steps_quietly_weaken; [|apply download_and_upload_steps]. apply prepare_stage. }
  destruct staged; [footprint|].
  apply steps_bind; [apply _|apply steps_uuid4; apply prepare_uuid|intros client_id].
  apply steps_bind; [apply _| |footprint].
  apply steps_ws_connect. apply prepare_connect. at_engine.
Qed.

Lemma queue_workflow_steps P workflow client_id key :
  (forall body, P (HttpPostData ("http://" +:+ COMFY_HOST +:+ "/prompt") body)) ->
  steps (quietly P) (_queue_workflow C E workflow client_id key).
Proof. intros HP. unfold _queue_workflow. footprint. Qed.

Lemma reconnect_steps ws_url e :
  steps (extends (monitor_call C ws_url)) (_reconnect_websocket C E ws_url e).
Proof. unfold _reconnect_websocket, reconnect_attempt. footprint. Qed.

Lemma monitor_round_steps ws_url ws prompt_id errors :
  steps (extends (monitor_call C ws_url)) (monitor_round E ws prompt_id errors).
Proof. unfold monitor_round. footprint. Qed.

Lemma monitor_iteration_steps ws_url prompt_id ws errors :
  steps (extends (monitor_call C ws_url)) (monitor_iteration C E ws_url prompt_id ws errors).
Proof.
  unfold monitor_iteration.
  pose proof (monitor_round_steps ws_url ws prompt_id errors).
  pose proof (reconnect_steps ws_url).
  footprint.
Qed.

Lemma monitor_loop_steps fuel ws_url prompt_id : forall ws errors,
  steps (extends (monitor_call C ws_url)) (monitor_loop C E fuel ws_url prompt_id ws errors).
Proof.
  induction fuel as [|fuel IH]; intros ws errors; [apply steps_pending; apply _|].
  cbn [monitor_loop].
  pose proof (monitor_iteration_steps ws_url prompt_id ws errors).
  footprint.
Qed.

Lemma fire_callback_steps P url payload label :
  P (HttpPostJson url payload) -> P (Sleep 5) -> (forall line, P (Print line)) ->
  steps (quietly P) (_fire_callback E url payload label).
Proof. intros Hpost Hsleep Hlog. unfold _fire_callback, callback_attempt. footprint. Qed.

Lemma get_history_steps targets prompt_id :
  steps (quietly (collect_call targets)) (_get_history E prompt_id).
Proof. unfold _get_history. footprint. Qed.

Lemma collect_artifact_steps targets upload_map file_info acc :
  (forall name dest,
      upload_map !! name = Some dest ->
      exists item, item ∈ targets /\ item !! "url" = Some dest) ->
  steps (quietly (collect_call targets)) (collect_artifact E upload_map file_info acc).
Proof.
  intros Hmap. unfold collect_artifact. destruct acc as [output_data errors].
  apply steps_bind; [apply _|footprint|intros filename].
  apply steps_bind; [apply _|footprint|intros subfolder].
  apply steps_bind; [apply _|footprint|intros file_type].
  destruct (negb (py_truthy filename) || py_eq file_type (JStr "temp")); [footprint|].
  apply steps_bind; [apply _|footprint|intros [e|file_bytes]]; [footprint|].
  apply steps_bind_lift; [apply _|]. intros [dest|] Hget; [|footprint].
  destruct (String.eqb dest ""); [footprint|].
  assert (Hput : exists item, item ∈ targets /\ item !! "url" = Some dest).
  { destruct filename; try discriminate. injection Hget as Hget. eapply Hmap, Hget. }
  destruct Hput as (item & Hin & Hurl).
  pose proof (fun data content_type =>
                collect_put targets item dest data content_type Hin Hurl).
  footprint.
Qed.

Lemma build_upload_map_steps P targets :
  steps (quietly P) (build_upload_map targets).
Proof.
  unfold build_upload_map. apply steps_for_each; [apply _|]. intros. footprint.
Qed.

Lemma process_outputs_steps outputs upload_urls :
  steps (quietly (collect_call (or_empty upload_urls))) (_process_outputs E outputs upload_urls).
Proof.
  unfold _process_outputs.
  apply (steps_bind_post _
           (fun upload_map : gmap string string =>
              forall name dest,
                upload_map !! name = Some dest ->
                exists item, item ∈ or_empty upload_urls /\ item !! "url" = Some dest)).
  - apply build_upload_map_steps.
  - intros w upload_map w' Hrun name dest Hsome.
    apply build_upload_map_spec in Hrun as (_ & _ & Hfrom).
    apply Hfrom in Hsome as [Hempty|(item & Hin & _ & Hurl)]; [|eauto].
    rewrite lookup_empty in Hempty. discriminate.
  - intros upload_map Hmap.
    apply steps_bind; [apply _|footprint|intros nodes].
    apply steps_for_each; [apply _|]. intros node acc _.
    apply steps_for_each; [apply _|]. intros key acc' _.
    apply steps_bind; [apply _|footprint|intros listed].
    apply steps_bind; [apply _|footprint|intros file_infos].
    apply steps_for_each; [apply _|]. intros file_info acc'' _.
    apply collect_artifact_steps. exact Hmap.
Qed.

Lemma collect_result_steps req prompt_id execution_done exec_errors :
  steps (quietly (collect_call (or_empty (upload_urls req))))
        (collect_result E req prompt_id execution_done exec_errors).
Proof.
  unfold collect_result.
  pose proof (get_history_steps (or_empty (upload_urls req)) prompt_id).
  pose proof (fun outputs => process_outputs_steps outputs (upload_urls req)).
  footprint.
Qed.

(** What [prepare] hands on when it has opened the websocket. *)
Lemma prepare_opens req w client_id ws_url ws w' :
  prepare E req w = (Ret (inr (client_id, ws_url, ws)), w') ->
  ws_url = "ws://" +:+ COMFY_HOST +:+ "/ws?clientId=" +:+ client_id /\
  ws ∈ connected w' /\
  (now w <= ws)%nat /\ now w' = S ws /\
  calls w' !! ws = Some (WsConnect ws_url).
Proof.
  intros Hrun. unfold prepare in Hrun.
  apply bind_returns in Hrun as ([] & w1 & H1 & H).
  apply bind_returns in H as (reachable & w2 & H2 & H).
  destruct reachable; simpl in H; [|discriminate].
  apply bind_returns in H as (staged & w3 & H3 & H).
  destruct staged as [r|]; [discriminate|].
  apply bind_returns in H as (staged & w4 & H4 & H).
  destruct staged as [r|]; [discriminate|].
  apply bind_returns in H as (client & w5 & H5 & H).
  apply bind_returns in H as (ws' & w6 & Hconnect & H).
  injection H as <- <- <- <-.
  unfold ws_connect in Hconnect.
  destruct (ws_connect_reply E (now w5)); [discriminate|].
  injection Hconnect as <- <-.
  assert (Hnow : (now w <= now w5)%nat).
  { apply (steps_now (fun _ => True)) in H1;
      [|apply steps_cleanup; exact I].
    apply (steps_now (probe_call comfy_root 1)) in H2;
      [|apply quietly_extends, check_server_steps].
    apply (steps_now (staging_call [])) in H3;
      [|apply quietly_extends, stage_inputs_steps; intros l; apply upload_images_steps].
    apply (steps_now (fun _ => True)) in H4;
      [|apply quietly_extends, stage_inputs_steps; intros l;
        eapply steps_quietly_weaken; [|apply download_and_upload_steps];
        intros; exact I].
    apply (steps_now (fun _ => True)) in H5; [|apply steps_uuid4; exact I].
    lia. }
  split; [reflexivity|]. split; [set_solver|]. split; [exact Hnow|]. split.
  { unfold now. cbn [calls]. rewrite length_app. simpl. lia. }
  cbn [calls]. unfold now. rewrite lookup_app_r by lia.
  rewrite Nat.sub_diag. reflexivity.
Qed.

Lemma close_if_connected_steps P ws :
  P (WsClose ws) -> steps (extends P) (close_if_connected ws).
Proof.
  intros HP. unfold close_if_connected.
  apply steps_bind; [apply _|apply quietly_extends, steps_ws_is_connected|].
  footprint.
Qed.

Lemma submit_and_monitor_steps fuel job_id req client_id ws_url ws :
  engine_ws_url ws_url ->
  steps (extends (job_call C req))
        (submit_and_monitor C E fuel job_id req client_id ws_url ws).
Proof.
  intros Hurl. unfold submit_and_monitor, _monitor_execution.
  apply steps_bind; [apply _| |intros queued].
  { apply quietly_extends, queue_workflow_steps. apply job_queue. }
  apply steps_bind; [apply _|footprint|intros prompt_id].
  destruct (negb (py_truthy prompt_id)); [footprint|].
  apply steps_bind; [apply _|apply steps_print, job_log|intros _].
  apply steps_bind; [apply _| |footprint].
  eapply steps_weaken; [|apply monitor_loop_steps].
  intros c. apply job_monitor. exact Hurl.
Qed.

Lemma execute_job_body_steps fuel job_id req :
  steps (extends (job_call C req)) (execute_job_body C E fuel job_id req).
Proof.
  unfold execute_job_body.
  apply (steps_bind_post _
           (fun p => match p with
                     | inl _ => True
                     | inr (_, ws_url, _) => engine_ws_url ws_url
                     end)).
  - eapply steps_weaken; [|apply prepare_steps]. apply job_prepare.
  - intros w [result|[[client_id ws_url] ws]] w' Hrun; [exact I|].
    apply prepare_opens in Hrun as (-> & _). at_engine.
  - intros [result|[[client_id ws_url] ws]] Hurl; [footprint|].
    apply steps_bind; [apply _| |].
    + apply steps_try_finally; [apply _| |].
      * apply submit_and_monitor_steps. exact Hurl.
      * apply close_if_connected_steps, job_close.
    + intros [result|[prompt_id [execution_done exec_errors]]]; [footprint|].
      apply quietly_extends.
      eapply steps_quietly_weaken; [|apply collect_result_steps]. apply job_collect.
Qed.

Lemma execute_job_steps fuel job_id req :
  steps (extends (job_call C req)) (_execute_job C E fuel job_id req).
Proof.
  unfold _execute_job. apply steps_try_except; [apply _|apply execute_job_body_steps|].
  intros e. apply steps_bind; [apply _|apply steps_emit, job_trace|footprint].
Qed.

End Footprints.

(** ** The stages of a job, in the order of their calls *)

Ltac settle := unfold ret, bind, emit, record; cbv beta iota; cbn [snd calls].

Section StageFacts.
Context (C : config) (E : env).

Lemma queue_workflow_calls workflow client_id key w :
  exists body,
    calls (world_after (_queue_workflow C E workflow client_id key) w)
      = calls w ++ [HttpPostData ("http://" +:+ COMFY_HOST +:+ "/prompt") body] /\
    connected (world_after (_queue_workflow C E workflow client_id key) w) = connected w /\
    dict_get "prompt" body = Some (JObj workflow) /\
    dict_get "client_id" body = Some (JStr client_id).
Proof.
  unfold _queue_workflow.
  match goal with |- context [http E (HttpPostData _ ?p)] => exists p end.
  split; [|split].
  - unfold world_after, bind, http.
    destruct (http_reply E (now w)) as [e|r]; [reflexivity|].
    destruct (status_code r =? 400); [reflexivity|].
    unfold raise_for_status.
    destruct ((400 <=? status_code r) && (status_code r <? 600)); [reflexivity|].
    simpl. destruct (json_body r); reflexivity.
  - unfold world_after, bind, http.
    destruct (http_reply E (now w)) as [e|r]; [reflexivity|].
    destruct (status_code r =? 400); [reflexivity|].
    unfold raise_for_status.
    destruct ((400 <=? status_code r) && (status_code r <? 600)); [reflexivity|].
    simpl. destruct (json_body r); reflexivity.
  - cbv zeta.
    repeat match goal with
           | |- context [if String.eqb ?k "" then _ else _] => destruct (String.eqb k "")
           | |- context [match ?o with Some _ => _ | None => _ end] => destruct o
           end;
      split; reflexivity.
Qed.

(** What follows the submission inside the inner [try]. *)
Lemma after_queue_steps fuel job_id ws_url ws queued :
  steps (extends (monitor_call C ws_url))
    (prompt_id <- lift (py_get queued "prompt_id" JNull) ;;
     if negb (py_truthy prompt_id) then
       ret (inl (failed ("No prompt_id in response: " +:+ py_str (lib E) queued)))
     else
       print ("[sidecar] Job " +:+ job_id +:+ " -> prompt "
              +:+ py_str (lib E) prompt_id) ;;;
       r <- _monitor_execution C E fuel ws ws_url prompt_id ;;
       ret (inr (prompt_id, r))).
Proof.
  unfold _monitor_execution.
  pose proof (monitor_loop_steps C E fuel ws_url).
  footprint.
Qed.

Lemma submit_and_monitor_calls fuel job_id req client_id ws_url ws w :
  exists body monitoring,
    calls (world_after (submit_and_monitor C E fuel job_id req client_id ws_url ws) w)
      = calls w ++ [HttpPostData ("http://" +:+ COMFY_HOST +:+ "/prompt") body]
        ++ monitoring /\
    Forall (monitor_call C ws_url) monitoring /\
    dict_get "prompt" body = Some (JObj (workflow req)) /\
    dict_get "client_id" body = Some (JStr client_id).
Proof.
  destruct (queue_workflow_calls (workflow req) client_id (comfy_org_api_key req) w)
    as (body & Hq & _ & Hbody).
  exists body. unfold submit_and_monitor, world_after, bind at 1.
  unfold world_after in Hq.
  destruct (_queue_workflow C E (workflow req) client_id (comfy_org_api_key req) w)
    as [[queued|e|] w1]; cbn [snd] in *.
  - destruct (after_queue_steps fuel job_id ws_url ws queued w1) as (cs & Hcs & HP).
    exists cs. split; [|split; [exact HP|exact Hbody]]. unfold world_after in Hcs.
    rewrite Hcs, Hq, <- app_assoc. reflexivity.
  - exists []. split; [rewrite Hq; reflexivity|split; [constructor|exact Hbody]].
  - exists []. split; [rewrite Hq; reflexivity|split; [constructor|exact Hbody]].
Qed.

Lemma close_if_connected_calls ws w :
  close_if_connected ws w
    = (Ret tt, World (calls w ++ (if bool_decide (ws ∈ connected w) then [WsClose ws] else []))
                     (connected w ∖ {[ws]})).
Proof.
  unfold close_if_connected, bind, ws_is_connected, ws_close.
  case_bool_decide as Hin; [reflexivity|].
  unfold ret. rewrite app_nil_r. destruct w as [cs sockets]. cbn [calls connected] in *.
  assert (Hsame : sockets = sockets ∖ {[ws]}).
  { apply set_eq. intros x. rewrite elem_of_difference, elem_of_singleton.
    split; [intros Hx; split; [exact Hx|intros ->; contradiction]|tauto]. }
  rewrite <- Hsame. reflexivity.
Qed.

(** The calls of a job come stage by stage: the preparation, the one
    submission, the monitoring, the close of the websocket, the collection,
    and the traceback of an exception that ended the job. *)
Lemma job_calls_in_order fuel job_id req w0 :
  exists preparing submitting monitoring closing collecting trace ws_url,
    calls (world_after (_execute_job C E fuel job_id req) w0)
      = calls w0 ++ preparing ++ submitting ++ monitoring ++ closing ++ collecting
        ++ trace /\
    Forall (prepare_call req) preparing /\
    (submitting = [] \/
     exists client_id ws w1 body,
       prepare E req w0 = (Ret (inr (client_id, ws_url, ws)), w1) /\
       submitting = [HttpPostData ("http://" +:+ COMFY_HOST +:+ "/prompt") body] /\
       dict_get "prompt" body = Some (JObj (workflow req)) /\
       dict_get "client_id" body = Some (JStr client_id)) /\
    Forall (monitor_call C ws_url) monitoring /\
    (closing = [] \/
     exists client_id ws w1,
       prepare E req w0 = (Ret (inr (client_id, ws_url, ws)), w1) /\
       closing = [WsClose ws]) /\
    Forall (collect_call (or_empty (upload_urls req))) collecting /\
    (trace = [] \/ exists e, trace = [PrintExc e]).
Proof.
  destruct (prepare_steps E req w0) as (cs1 & H1 & HP1). unfold world_after in *.
  unfold _execute_job, try_except, execute_job_body, bind at 1.
  destruct (prepare E req w0) as [[[result|[[client_id ws_url] ws]]|e|] w1] eqn:Hprep;
    cbn [snd] in H1.
  - exists cs1, [], [], [], [], [], "". settle. rewrite H1, !app_nil_r.
    split; [reflexivity|]. split; [exact HP1|]. split; [left; reflexivity|].
    split; [constructor|]. split; [left; reflexivity|]. split; [constructor|].
    left. reflexivity.
  - destruct (submit_and_monitor_calls fuel job_id req client_id ws_url ws w1)
      as (body & mon & H2 & HP2 & Hprompt & Hclient).
    unfold world_after in H2. unfold bind at 1, try_finally.
    destruct (submit_and_monitor C E fuel job_id req client_id ws_url ws w1)
      as [[[result|[prompt_id [execution_done exec_errors]]]|e|] w2];
      cbn [snd] in H2; rewrite ?close_if_connected_calls.
    + exists cs1, [HttpPostData ("http://" +:+ COMFY_HOST +:+ "/prompt") body], mon,
        (if bool_decide (ws ∈ connected w2) then [WsClose ws] else []), [], [], ws_url.
      settle. rewrite H2, H1, !app_nil_r, <- !app_assoc.
      split; [reflexivity|]. split; [exact HP1|]. split; [right; eauto 10|].
      split; [exact HP2|]. split; [|split; [constructor|left; reflexivity]].
      case_bool_decide; [right; eauto 6|left; reflexivity].
    + destruct (collect_result_steps E req prompt_id execution_done exec_errors
                  (World (calls w2 ++ (if bool_decide (ws ∈ connected w2)
                                       then [WsClose ws] else []))
                         (connected w2 ∖ {[ws]})))
        as [(cs5 & H5 & HP5) _].
      unfold world_after in H5. cbn [calls] in H5.
      destruct (collect_result E req prompt_id execution_done exec_errors _)
        as [[result|e|] w5]; cbn [snd] in H5.
      * exists cs1, [HttpPostData ("http://" +:+ COMFY_HOST +:+ "/prompt") body], mon,
          (if bool_decide (ws ∈ connected w2) then [WsClose ws] else []), cs5, [], ws_url.
        settle. rewrite H5, H2, H1, !app_nil_r, <- !app_assoc.
        split; [reflexivity|]. split; [exact HP1|]. split; [right; eauto 10|].
        split; [exact HP2|]. split; [|split; [exact HP5|left; reflexivity]].
        case_bool_decide; [right; eauto 6|left; reflexivity].
      * exists cs1, [HttpPostData ("http://" +:+ COMFY_HOST +:+ "/prompt") body], mon,
          (if bool_decide (ws ∈ connected w2) then [WsClose ws] else []), cs5,
          [PrintExc e], ws_url.
        settle.
        rewrite H5, H2, H1, <- !app_assoc.
        split; [reflexivity|]. split; [exact HP1|]. split; [right; eauto 10|].
        split; [exact HP2|]. split; [|split; [exact HP5|right; eauto]].
        case_bool_decide; [right; eauto 6|left; reflexivity].
      * exists cs1, [HttpPostData ("http://" +:+ COMFY_HOST +:+ "/prompt") body], mon,
          (if bool_decide (ws ∈ connected w2) then [WsClose ws] else []), cs5, [], ws_url.
        settle. rewrite H5, H2, H1, !app_nil_r, <- !app_assoc.
        split; [reflexivity|]. split; [exact HP1|]. split; [right; eauto 10|].
        split; [exact HP2|]. split; [|split; [exact HP5|left; reflexivity]].
        case_bool_decide; [right; eauto 6|left; reflexivity].
    + exists cs1, [HttpPostData ("http://" +:+ COMFY_HOST +:+ "/prompt") body], mon,
        (if bool_decide (ws ∈ connected w2) then [WsClose ws] else []), [],
        [PrintExc e], ws_url.
      settle.
      rewrite H2, H1, <- !app_assoc.
      split; [reflexivity|]. split; [exact HP1|]. split; [right; eauto 10|].
      split; [exact HP2|]. split; [|split; [constructor|right; eauto]].
      case_bool_decide; [right; eauto 6|left; reflexivity].
    + exists cs1, [HttpPostData ("http://" +:+ COMFY_HOST +:+ "/prompt") body], mon,
        [], [], [], ws_url.
      settle. rewrite H2, H1, !app_nil_r, <- !app_assoc.
      split; [reflexivity|]. split; [exact HP1|]. split; [right; eauto 10|].
      split; [exact HP2|]. split; [left; reflexivity|].
      split; [constructor|left; reflexivity].
  - exists cs1, [], [], [], [], [PrintExc e], "". settle. rewrite H1, <- !app_assoc.
    split; [reflexivity|]. split; [exact HP1|]. split; [left; reflexivity|].
    split; [constructor|]. split; [left; reflexivity|]. split; [constructor|].
    right. eauto.
  - exists cs1, [], [], [], [], [], "". settle. rewrite H1, !app_nil_r.
    split; [reflexivity|]. split; [exact HP1|]. split; [left; reflexivity|].
    split; [constructor|]. split; [left; reflexivity|]. split; [constructor|].
    left. reflexivity.
Qed.

End StageFacts.

(** ** Every output is accounted for *)

Lemma accounted_nil s : accounted [] s s.
Proof.
  exists [], [], []. rewrite !app_nil_r. repeat split; reflexivity.
Qed.

Lemma accounted_app l1 l2 s1 s2 s3 :
  accounted l1 s1 s2 -> accounted l2 s2 s3 -> accounted (l1 ++ l2) s1 s3.
Proof.
  intros (en1 & ln1 & cs1 & He1 & Hl1 & Hc1 & Hn1 & Hs1 & Hg1)
         (en2 & ln2 & cs2 & He2 & Hl2 & Hc2 & Hn2 & Hs2 & Hg2).
  exists (en1 ++ en2), (ln1 ++ ln2), (cs1 ++ cs2).
  rewrite He2, He1, Hl2, Hl1, Hc2, Hc1, !filter_app, !length_app, !fmap_app, !app_assoc.
  repeat split; try reflexivity; try lia.
  apply sublist_app; assumption.
Qed.

Lemma for_each_accounted {A : Type} (f : A -> list json) (l : list A)
    (body : A -> list json * list string -> M (list json * list string)) :
  (forall x s w s' w',
      x ∈ l -> body x s w = (Ret s', w') -> accounted (f x) (s, w) (s', w')) ->
  forall s w s' w',
    for_each l body s w = (Ret s', w') -> accounted (flat_map f l) (s, w) (s', w').
Proof.
  induction l as [|x l IH]; intros Hbody s w s' w' Hrun.
  - injection Hrun as <- <-. apply accounted_nil.
  - cbn [for_each] in Hrun. apply bind_returns in Hrun as (s1 & w1 & Hx & Hrest).
    cbn [flat_map]. eapply accounted_app.
    + apply Hbody; [left|exact Hx].
    + apply IH; [|exact Hrest]. intros y t u t' u' Hy. apply Hbody. right. exact Hy.
Qed.

Section AccountFacts.
Context (E : env).

Lemma accounted_one file_info output_data errors w output_data' errors' w'
    entries lines cs :
  output_data' = output_data ++ entries ->
  errors' = errors ++ lines ->
  calls w' = calls w ++ cs ->
  (length entries + length lines = if is_eligible file_info then 1 else 0)%nat ->
  (forall entry, entry ∈ entries -> filename_of entry = filename_of file_info) ->
  length (filter is_get cs) = (if is_eligible file_info then 1 else 0)%nat ->
  accounted [file_info] (output_data, errors, w) (output_data', errors', w').
Proof.
  intros -> -> Hcalls Hcount Hnames Hgets. exists entries, lines, cs.
  split; [reflexivity|]. split; [reflexivity|]. split; [exact Hcalls|].
  destruct (is_eligible file_info) eqn:Hel.
  - rewrite filter_cons_True by (rewrite Hel; exact I).
    split; [exact Hcount|]. split; [|exact Hgets].
    destruct entries as [|entry [|entry' entries]];
      [apply sublist_nil_l| |simpl in Hcount; lia].
    cbn [fmap list_fmap]. rewrite (Hnames entry) by left. reflexivity.
  - rewrite filter_cons_False by (rewrite Hel; intros []).
    split; [exact Hcount|]. split; [|exact Hgets].
    destruct entries; [constructor|simpl in Hcount; lia].
Qed.

Ltac account entries lines cs :=
  apply (accounted_one _ _ _ _ _ _ _ entries lines cs);
  [ rewrite ?app_nil_r; reflexivity
  | rewrite ?app_nil_r; reflexivity
  | unfold record; cbn [calls]; rewrite ?app_nil_r, <- ?app_assoc; reflexivity
  | match goal with H : is_eligible _ = _ |- _ => rewrite H end; reflexivity
  | intros ? Hin;
    first [ apply list_elem_of_singleton in Hin as ->; reflexivity
          | inversion Hin ]
  | match goal with H : is_eligible _ = _ |- _ => rewrite H end; reflexivity ].

Lemma collect_artifact_accounted upload_map file_info output_data errors w s' w' :
  collect_artifact E upload_map file_info (output_data, errors) w = (Ret s', w') ->
  accounted [file_info] (output_data, errors, w) (s', w').
Proof.
  unfold collect_artifact. intros H.
  apply bind_returns in H as (filename & w1 & Hf & H).
  apply bind_returns in H as (subfolder & w2 & Hs & H).
  apply bind_returns in H as (file_type & w3 & Ht & H).
  destruct file_info as [| | | | |fields]; try discriminate.
  simpl in Hf, Hs, Ht. injection Hf as <- <-. injection Hs as <- <-.
  injection Ht as <- <-.
  change (from_option id JNull (dict_get "filename" fields))
    with (field "filename" fields) in H.
  change (from_option id JNull (dict_get "type" fields)) with (field "type" fields) in H.
  assert (Hel : is_eligible (JObj fields)
                = negb (negb (py_truthy (field "filename" fields))
                        || py_eq (field "type" fields) (JStr "temp"))).
  { unfold is_eligible. rewrite negb_orb, negb_involutive. reflexivity. }
  destruct (negb (py_truthy (field "filename" fields))
            || py_eq (field "type" fields) (JStr "temp")) eqn:Hskip; cbn [negb] in Hel.
  { injection H as <- <-. account (@nil json) (@nil string) (@nil call). }
  apply bind_returns in H as (fetched & w4 & Hfetch & H).
  set (view := HttpGet ("http://" +:+ COMFY_HOST +:+ "/view?"
                         +:+ urlencode (lib E)
                               [("filename", field "filename" fields);
                                ("subfolder", from_option id (JStr "")
                                                (dict_get "subfolder" fields));
                                ("type", field "type" fields)])) in *.
  assert (Hw4 : w4 = record view w).
  { unfold try_except, bind, http in Hfetch.
    destruct (http_reply E (now w)); injection Hfetch as _ <-; reflexivity. }
  subst w4.
  destruct fetched as [e|file_bytes].
  { injection H as <- <-.
    account (@nil json)
            ["Failed to fetch " +:+ py_str (lib E) (field "filename" fields)
             +:+ ": " +:+ exn_msg e] [view]. }
  apply bind_returns in H as (upload_url & w5 & Hget & H).
  assert (w5 = record view w) as ->.
  { destruct (upload_map_get upload_map (field "filename" fields));
      [discriminate|]. injection Hget as _ <-. reflexivity. }
  destruct upload_url as [dest|];
    [|injection H as <- <-;
      account [inlined_entry (field "filename" fields) file_bytes] (@nil string) [view]].
  destruct (String.eqb dest "");
    [injection H as <- <-;
     account [inlined_entry (field "filename" fields) file_bytes] (@nil string) [view]|].
  unfold try_except in H.
  destruct (py_endswith (field "filename" fields) video_output_suffixes) as [e|is_video].
  { cbn in H. injection H as <- <-.
    account (@nil json)
            ["Failed to upload " +:+ py_str (lib E) (field "filename" fields)
             +:+ ": " +:+ exn_msg e] [view]. }
  cbn in H.
  destruct (http_reply E _) as [e|r].
  { cbn in H. injection H as <- <-.
    account (@nil json)
            ["Failed to upload " +:+ py_str (lib E) (field "filename" fields)
             +:+ ": " +:+ exn_msg e]
            [view; HttpPut dest file_bytes (if is_video then "video/mp4" else "image/png")]. }
  cbn in H. unfold raise_for_status in H.
  destruct ((400 <=? status_code r) && (status_code r <? 600)); cbn in H;
    injection H as <- <-.
  - account (@nil json)
            ["Failed to upload " +:+ py_str (lib E) (field "filename" fields)
             +:+ ": " +:+ http_error_text r dest]
            [view; HttpPut dest file_bytes (if is_video then "video/mp4" else "image/png")].
  - account [uploaded_entry (field "filename" fields)] (@nil string)
            [view; HttpPut dest file_bytes (if is_video then "video/mp4" else "image/png")].
Qed.

End AccountFacts.

Lemma flat_map_singleton {A : Type} (l : list A) : flat_map (fun x => [x]) l = l.
Proof. induction l as [|x l IH]; [reflexivity|]. simpl. rewrite IH. reflexivity. Qed.

Lemma process_outputs_accounted (E : env) outputs upload_urls w output_data errors w' :
  _process_outputs E outputs upload_urls w = (Ret (output_data, errors), w') ->
  accounted (listed_artifacts outputs) ([], [], w) (output_data, errors, w').
Proof.
  unfold _process_outputs. intros H.
  apply bind_returns in H as (upload_map & w1 & Hmap & H).
  apply build_upload_map_spec in Hmap as (-> & _).
  apply bind_returns in H as (nodes & w2 & Hnodes & H).
  destruct outputs as [| | | | |fields]; try discriminate.
  injection Hnodes as <- <-. cbn [listed_artifacts].
  revert H. apply for_each_accounted. intros node acc u acc' u' _.
  apply for_each_accounted. clear. intros key acc u acc' u' _ H.
  apply bind_returns in H as (listed & w1 & Hlisted & H).
  apply bind_returns in H as (file_infos & w2 & Hiter & H).
  destruct (py_get (snd node) key (JArr [])) as [e|listed']; [discriminate|].
  injection Hlisted as <- <-.
  destruct (py_iter listed') as [e|file_infos']; [discriminate|].
  injection Hiter as <- <-.
  rewrite <- (flat_map_singleton file_infos').
  revert H. apply for_each_accounted. intros file_info [od er] v acc'' v' _.
  apply collect_artifact_accounted.
Qed.

(** ** The calls of a job are not callbacks *)

Lemma filter_none {A : Type} (f : A -> bool) (l : list A) :
  Forall (fun x => f x = false) l -> filter f l = [].
Proof.
  induction 1 as [|x l Hx _ IH]; [reflexivity|].
  rewrite filter_cons_False; [exact IH|]. rewrite Hx. intros [].
Qed.

Lemma prepare_call_plain req c :
  prepare_call req c -> is_queue c = false /\ is_close c = false /\ is_post c = false.
Proof.
  intros [|c' [| |]|c' [item src|url files]| |]; repeat split; reflexivity.
Qed.

Lemma monitor_call_plain C ws_url c :
  monitor_call C ws_url c -> is_queue c = false /\ is_close c = false /\ is_post c = false.
Proof. intros []; repeat split; reflexivity. Qed.

Lemma collect_call_plain targets c :
  collect_call targets c -> is_queue c = false /\ is_close c = false /\ is_post c = false.
Proof. intros []; repeat split; reflexivity. Qed.

Lemma job_call_plain C req c : job_call C req c -> is_post c = false.
Proof.
  intros [c' H| |ws_url c' _ H| |c' H| |]; try reflexivity.
  - apply prepare_call_plain in H. apply H.
  - apply (monitor_call_plain C ws_url) in H. apply H.
  - apply collect_call_plain in H. apply H.
Qed.

(** What [_execute_job] adds to the record of calls, whatever its outcome,
    holds no POST of a JSON payload. *)
Lemma job_posts_nothing C E fuel job_id req w0 :
  exists cs,
    calls (world_after (_execute_job C E fuel job_id req) w0) = calls w0 ++ cs /\
    calls_made (_execute_job C E fuel job_id req) w0 = cs /\
    filter is_post cs = [].
Proof.
  destruct (execute_job_steps C E fuel job_id req w0) as (cs & Hcs & Hall).
  exists cs. split; [exact Hcs|]. split; [apply calls_made_extended; exact Hcs|].
  apply filter_none. eapply Forall_impl; [exact Hall|].
  intros c. apply job_call_plain.
Qed.

Lemma posts_of_failed_deliveries E url payload label i t k :
  filter is_post (failed_deliveries E url payload label i t k)
  = replicate k (HttpPostJson url payload).
Proof.
  revert i t. induction k as [|k IH]; intros i t; [reflexivity|].
  change (failed_deliveries E url payload label i t (S k))
    with (failed_delivery E url payload label i t
          ++ failed_deliveries E url payload label (S i) (t + 3) k).
  rewrite filter_app, IH. unfold failed_delivery.
  rewrite filter_cons_True by exact I.
  rewrite !filter_cons_False by (intros []). reflexivity.
Qed.

Lemma replicate_snoc {A : Type} (n : nat) (x : A) : replicate n x ++ [x] = replicate (S n) x.
Proof. induction n as [|n IH]; [reflexivity|]. simpl. rewrite IH. reflexivity. Qed.

(** ** The collection loop, flattened *)

Lemma for_each_app {A S : Type} (l1 l2 : list A) (body : A -> S -> M S) s w :
  for_each (l1 ++ l2) body s w = bind (for_each l1 body s) (for_each l2 body) w.
Proof.
  revert s w. induction l1 as [|x l1 IH]; intros s w.
  - cbn [app for_each]. unfold bind, ret. reflexivity.
  - cbn [app for_each]. unfold bind in *.
    destruct (body x s w) as [[s1|e|] w1]; [apply IH|reflexivity|reflexivity].
Qed.

(** A loop that ran to its end over [before ++ x :: after] went through the
    state in which it met [x]. *)
Lemma for_each_split {A S : Type} (before after : list A) (x : A)
    (body : A -> S -> M S) s w s' w' :
  for_each (before ++ x :: after) body s w = (Ret s', w') ->
  exists s1 w1 s2 w2,
    for_each before body s w = (Ret s1, w1) /\
    body x s1 w1 = (Ret s2, w2) /\
    for_each after body s2 w2 = (Ret s', w').
Proof.
  rewrite for_each_app. intros H.
  apply bind_returns in H as (s1 & w1 & Hbefore & H).
  cbn [for_each] in H. apply bind_returns in H as (s2 & w2 & Hx & Hafter).
  eauto 8.
Qed.

Lemma for_each_flat_map {A B S : Type} (f : A -> list B) (outer : A -> S -> M S)
    (body : B -> S -> M S) (l : list A) :
  (forall x s w, x ∈ l -> outer x s w = for_each (f x) body s w) ->
  forall s w, for_each l outer s w = for_each (flat_map f l) body s w.
Proof.
  induction l as [|x l IH]; intros Houter s w; [reflexivity|].
  cbn [for_each flat_map]. rewrite for_each_app. unfold bind.
  rewrite Houter by left.
  destruct (for_each (f x) body s w) as [[s1|e|] w1]; [|reflexivity|reflexivity].
  apply IH. intros y t u Hy. apply Houter. right. exact Hy.
Qed.

Lemma for_each_flat_map_returns {A B S : Type} (f : A -> list B) (outer : A -> S -> M S)
    (body : B -> S -> M S) (l : list A) :
  (forall x s w s' w',
      x ∈ l -> outer x s w = (Ret s', w') -> for_each (f x) body s w = (Ret s', w')) ->
  forall s w s' w',
    for_each l outer s w = (Ret s', w') ->
    for_each (flat_map f l) body s w = (Ret s', w').
Proof.
  induction l as [|x l IH]; intros Houter s w s' w' Hrun; [exact Hrun|].
  cbn [for_each] in Hrun. apply bind_returns in Hrun as (s1 & w1 & Hx & Hrest).
  cbn [flat_map]. rewrite for_each_app.
  rewrite (bind_of_run _ _ _ _ _ (Houter x s w s1 w1 ltac:(left) Hx)).
  apply IH; [|exact Hrest]. intros y t u t' u' Hy. apply Houter. right. exact Hy.
Qed.

Lemma for_each_returns {A S : Type} (l : list A) (body : A -> S -> M S) :
  (forall x s w, x ∈ l -> exists s' w', body x s w = (Ret s', w')) ->
  forall s w, exists s' w', for_each l body s w = (Ret s', w').
Proof.
  induction l as [|x l IH]; intros Hbody s w; [eexists _, _; reflexivity|].
  destruct (Hbody x s w ltac:(left)) as (s1 & w1 & Hx).
  destruct (IH (fun y t u Hy => Hbody y t u ltac:(right; exact Hy)) s1 w1)
    as (s' & w' & Hrest).
  exists s', w'. cbn [for_each]. rewrite (bind_of_run _ _ _ _ _ Hx). exact Hrest.
Qed.

Section FlatFacts.
Context (E : env).

(** The map of targets is built without a call. *)
Lemma build_upload_map_pure targets w upload_map w' :
  build_upload_map targets w = (Ret upload_map, w') -> w' = w.
Proof. intros H. apply build_upload_map_spec in H. apply H. Qed.

Lemma build_upload_map_returns targets w :
  well_targeted targets ->
  exists upload_map, build_upload_map targets w = (Ret upload_map, w).
Proof.
  unfold build_upload_map. generalize (∅ : gmap string string).
  induction targets as [|item targets IH]; intros m Hok; [eexists; reflexivity|].
  destruct (Hok item ltac:(left)) as [[name Hname] [dest Hdest]].
  destruct (IH (<[name := dest]> m) (fun i Hi => Hok i ltac:(right; exact Hi)))
    as (upload_map & Hrest).
  exists upload_map. cbn [for_each]. unfold bind at 1, bind at 1, str_dict_item.
  rewrite Hname. cbn. rewrite Hdest. cbn. exact Hrest.
Qed.

(** The three nested loops of [_process_outputs] are one loop over the
    descriptors the manifest lists, when [_process_outputs] returns. *)
Lemma process_outputs_flat outputs upload_urls w result w' :
  _process_outputs E outputs upload_urls w = (Ret result, w') ->
  exists upload_map,
    build_upload_map (or_empty upload_urls) w = (Ret upload_map, w) /\
    for_each (listed_artifacts outputs) (collect_artifact E upload_map) ([], []) w
      = (Ret result, w').
Proof.
  unfold _process_outputs. intros H.
  apply bind_returns in H as (upload_map & w1 & Hmap & H).
  pose proof (build_upload_map_pure _ _ _ _ Hmap) as ->.
  exists upload_map. split; [exact Hmap|].
  apply bind_returns in H as (nodes & w2 & Hnodes & H).
  destruct outputs as [| | | | |fields]; try discriminate.
  injection Hnodes as <- <-. cbn [listed_artifacts].
  revert H. apply for_each_flat_map_returns. intros node acc u acc' u' _.
  apply for_each_flat_map_returns. clear. intros key acc u acc' u' _ H.
  apply bind_returns in H as (listed & w1 & Hlisted & H).
  apply bind_returns in H as (file_infos & w2 & Hiter & H).
  destruct (py_get (snd node) key (JArr [])) as [e|listed']; [discriminate|].
  injection Hlisted as <- <-.
  destruct (py_iter listed') as [e|file_infos']; [discriminate|].
  injection Hiter as <- <-. exact H.
Qed.

(** On a manifest that can be walked they are that one loop whatever the
    outcome. *)
Lemma process_outputs_walk outputs upload_urls w upload_map :
  walkable outputs ->
  build_upload_map (or_empty upload_urls) w = (Ret upload_map, w) ->
  _process_outputs E outputs upload_urls w
  = for_each (listed_artifacts outputs) (collect_artifact E upload_map) ([], []) w.
Proof.
  intros (nodes & -> & Hwalk) Hmap. unfold _process_outputs.
  rewrite (bind_of_run _ _ _ _ _ Hmap). cbn [py_items]. rewrite bind_lift_inr.
  cbn [listed_artifacts].
  apply for_each_flat_map. intros node acc u Hnode.
  apply for_each_flat_map. intros key acc' u' Hkey.
  destruct (Hwalk node key Hnode Hkey) as (listed & file_infos & Hget & Hiter).
  rewrite Hget, bind_lift_inr, Hiter, bind_lift_inr. reflexivity.
Qed.

Lemma collect_artifact_returns upload_map file_info acc w :
  well_described file_info ->
  exists acc' w', collect_artifact E upload_map file_info acc w = (Ret acc', w').
Proof.
  intros (fields & -> & Hkey). destruct acc as [output_data errors].
  unfold collect_artifact. cbn [py_get]. rewrite !bind_lift_inr.
  fold (field "filename" fields) in *. fold (field "type" fields).
  destruct (negb (py_truthy (field "filename" fields))
            || py_eq (field "type" fields) (JStr "temp")); [eexists _, _; reflexivity|].
  unfold bind at 1, try_except, bind at 1, http.
  destruct (http_reply E (now w)) as [e|r]; cbv beta iota; unfold ret at 1; cbv beta iota;
    [eexists _, _; reflexivity|].
  assert (Hget : exists o, upload_map_get upload_map (field "filename" fields) = inr o).
  { destruct (field "filename" fields); cbn [upload_map_get]; try contradiction; eauto. }
  destruct Hget as [o Hget]. rewrite Hget, bind_lift_inr.
  destruct o as [dest|]; [|eexists _, _; reflexivity].
  destruct (String.eqb dest ""); [eexists _, _; reflexivity|].
  unfold try_except.
  match goal with |- context [bind ?m ?k ?w1] => destruct (bind m k w1) as [[a|e|] w2] eqn:Hput end.
  - eexists _, _; reflexivity.
  - eexists _, _; reflexivity.
  - exfalso. revert Hput. unfold bind, http, raise_for_status, lift, raise, ret.
    destruct (py_endswith _ _); [discriminate|]. cbv beta iota.
    match goal with |- context [http_reply E ?t] => destruct (http_reply E t) end;
      [discriminate|]. cbv beta iota.
    match goal with |- context [?a && ?b] => destruct (a && b) end; discriminate.
Qed.

(** [_process_outputs] returns on every manifest it can walk whose
    descriptors it can handle, given targets that carry their keys. *)
Lemma process_outputs_returns outputs upload_urls w :
  walkable outputs ->
  Forall well_described (listed_artifacts outputs) ->
  well_targeted (or_empty upload_urls) ->
  exists output_data errors w',
    _process_outputs E outputs upload_urls w = (Ret (output_data, errors), w').
Proof.
  intros Hwalk Hall Htargets.
  destruct (build_upload_map_returns (or_empty upload_urls) w Htargets)
    as (upload_map & Hmap).
  rewrite (process_outputs_walk outputs upload_urls w upload_map Hwalk Hmap).
  rewrite Forall_forall in Hall.
  destruct (for_each_returns (listed_artifacts outputs) (collect_artifact E upload_map)
              (fun x s u Hx => collect_artifact_returns upload_map x s u (Hall x Hx))
              ([], []) w) as ([output_data errors] & w' & Hrun).
  eauto.
Qed.

(** A loop of [collect_artifact] only appends to what was collected. *)
Lemma collection_grows upload_map l s w s' w' :
  for_each l (collect_artifact E upload_map) s w = (Ret s', w') ->
  exists entries lines, s'.1 = s.1 ++ entries /\ s'.2 = s.2 ++ lines.
Proof.
  intros H.
  assert (Hacc : accounted (flat_map (fun x => [x]) l) (s, w) (s', w')).
  { revert H. apply for_each_accounted. intros x [od er] u t u' _.
    apply collect_artifact_accounted. }
  destruct Hacc as (entries & lines & cs & He & Hl & _). eauto.
Qed.

End FlatFacts.

(** ** What the collection loop does with one descriptor *)

Section ArtifactFacts.
Context (E : env).

Lemma type_not_temp fields :
  field "type" fields <> JStr "temp" ->
  py_eq (from_option id JNull (dict_get "type" fields)) (JStr "temp") = false.
Proof.
  intros Hne. destruct (py_eq _ _) eqn:Heq; [|reflexivity].
  apply py_eq_str in Heq. contradiction.
Qed.

Lemma named_is_truthy name : name <> "" -> negb (py_truthy (JStr name)) = false.
Proof.
  intros Hne. simpl. destruct (String.eqb_spec name ""); [contradiction|reflexivity].
Qed.

Lemma collect_artifact_on_temp upload_map fields acc w :
  field "type" fields = JStr "temp" ->
  collect_artifact E upload_map (JObj fields) acc w = (Ret acc, w).
Proof.
  destruct acc as [output_data errors]. intros Htemp.
  unfold collect_artifact, field in *. simpl py_get. rewrite !bind_lift_inr.
  rewrite Htemp. simpl py_eq. rewrite orb_true_r. reflexivity.
Qed.

Lemma collect_artifact_uploads upload_map fields name dest output_data errors w fetched :
  field "filename" fields = JStr name -> name <> "" ->
  field "type" fields <> JStr "temp" ->
  upload_map !! name = Some dest -> dest <> "" ->
  http_reply E (now w) = inr fetched ->
  accepted_at E (S (now w)) = true ->
  collect_artifact E upload_map (JObj fields) (output_data, errors) w
    = (Ret (output_data ++ [JObj [("filename", JStr name); ("type", JStr "uploaded")]],
            errors),
       World (calls w
              ++ [HttpGet (view_url (lib E) fields);
                  HttpPut dest (content fetched)
                    (if ends_with_any name video_output_suffixes
                     then "video/mp4" else "image/png")])
             (connected w)).
Proof.
  intros Hname Hne Hkept Htarget Hdest Hfetch Hput.
  unfold collect_artifact. simpl py_get. rewrite !bind_lift_inr.
  rewrite (type_not_temp fields Hkept). unfold field in Hname. rewrite Hname.
  rewrite (named_is_truthy name Hne). cbn [orb].
  unfold bind at 1, try_except, bind at 1, http. rewrite Hfetch. cbv beta iota.
  unfold ret at 1. cbv beta iota.
  simpl upload_map_get. rewrite Htarget, bind_lift_inr.
  destruct (String.eqb_spec dest ""); [contradiction|].
  unfold try_except. simpl py_endswith. rewrite bind_lift_inr.
  unfold bind at 1, http. rewrite now_record.
  unfold accepted_at in Hput.
  destruct (http_reply E (S (now w))) as [e|r]; [discriminate|].
  unfold bind at 1, raise_for_status.
  apply negb_true_iff in Hput. rewrite Hput. unfold ret.
  unfold record, view_url, field. simpl calls. rewrite Hname.
  rewrite <- app_assoc. reflexivity.
Qed.

Lemma collect_artifact_inlines upload_map fields name output_data errors w fetched :
  field "filename" fields = JStr name -> name <> "" ->
  field "type" fields <> JStr "temp" ->
  upload_map !! name = None ->
  http_reply E (now w) = inr fetched ->
  collect_artifact E upload_map (JObj fields) (output_data, errors) w
    = (Ret (output_data
            ++ [JObj [("filename", JStr name); ("type", JStr "base64");
                      ("data", JStr (Base64.b64encode (content fetched)))]],
            errors),
       record (HttpGet (view_url (lib E) fields)) w).
Proof.
  intros Hname Hne Hkept Htarget Hfetch.
  unfold collect_artifact. simpl py_get. rewrite !bind_lift_inr.
  rewrite (type_not_temp fields Hkept). unfold field in Hname. rewrite Hname.
  rewrite (named_is_truthy name Hne). cbn [orb].
  unfold bind at 1, try_except, bind at 1, http. rewrite Hfetch. cbv beta iota.
  unfold ret at 1. cbv beta iota.
  simpl upload_map_get. rewrite Htarget, bind_lift_inr.
  unfold ret, view_url, field, inlined_entry. rewrite Hname. reflexivity.
Qed.

(** The entry recorded for a descriptor stays where it was put: at the
    position the result had reached when the descriptor was met. *)
Lemma entry_stays upload_map after (reached : list json * list string) entry lines w2
    (result : list json * list string) w' :
  for_each after (collect_artifact E upload_map) (reached.1 ++ [entry], lines) w2
    = (Ret result, w') ->
  result.1 !! length reached.1 = Some entry.
Proof.
  intros H. apply collection_grows in H as (entries & more & He & _).
  cbn [fst] in He. rewrite He, <- app_assoc.
  rewrite lookup_app_r by lia. rewrite Nat.sub_diag. reflexivity.
Qed.

End ArtifactFacts.

(** * The claims *)

(** C1: the monitor reports completion exactly on an "executing" event with
    no node (absent or null) whose prompt_id equals the execution handle.
    A round returns [True] if and only if the frame it received is such an
    event; a loop that receives one returns [(True, errors)] at once; a loop
    that returned [True] received one as the answer to its last call; and an
    "executing" event that names a node is passed over, whatever the handle. *)
Theorem completion_iff_matching_executing_event
    (C : config) (E : env) (fuel : nat) (ws_url : string) (prompt_id : json)
    (ws : nat) (errors : list string) (w : world) :
  ((exists errs, result_of (monitor_round E ws prompt_id errors) w
                 = Ret (Some (true, errs))) <->
   (exists msg, ws_recv_reply E (now w) = inr (TextFrame (Json msg)) /\
                completion_event prompt_id msg)) /\
  (forall msg,
      ws_recv_reply E (now w) = inr (TextFrame (Json msg)) ->
      completion_event prompt_id msg ->
      monitor_loop C E (S fuel) ws_url prompt_id ws errors w
        = (Ret (true, errors), record (WsRecv ws) w)) /\
  (forall errs,
      result_of (monitor_loop C E fuel ws_url prompt_id ws errors) w = Ret (true, errs) ->
      errs = errors /\
      exists ws1 w1 msg,
        world_after (monitor_loop C E fuel ws_url prompt_id ws errors) w
          = record (WsRecv ws1) w1 /\
        ws_recv_reply E (now w1) = inr (TextFrame (Json msg)) /\
        completion_event prompt_id msg) /\
  (forall msg,
      ws_recv_reply E (now w) = inr (TextFrame (Json msg)) ->
      progress_event msg ->
      ~ completion_event prompt_id msg /\
      monitor_loop C E (S fuel) ws_url prompt_id ws errors w
        = monitor_loop C E fuel ws_url prompt_id ws errors (record (WsRecv ws) w)).
Proof.
  split; [split|split; [|split]].
  - intros [errs H]. unfold result_of in H.
    destruct (monitor_round E ws prompt_id errors w) as [r w'] eqn:Hround.
    simpl in H. subst r.
    apply round_returns in Hround as (_ & msg & Hreply & Hcases).
    exists msg. split; [assumption|].
    destruct Hcases as [[Hc _]|(data & _ & [=])]. assumption.
  - intros (msg & Hreply & Hc). exists errors. unfold result_of.
    rewrite (round_on_completion E ws prompt_id errors w msg Hreply Hc). reflexivity.
  - intros msg Hreply Hc. rewrite loop_unfold.
    rewrite (iteration_on_round C E ws_url prompt_id ws errors w _ _
               (round_on_completion E ws prompt_id errors w msg Hreply Hc)).
    reflexivity.
  - intros errs H. unfold result_of, world_after in *.
    destruct (monitor_loop C E fuel ws_url prompt_id ws errors w) as [r w'] eqn:Hloop.
    simpl in *. subst r.
    apply loop_exit in Hloop as (ws1 & w1 & Hiter); [|discriminate].
    apply iteration_returns, round_returns in Hiter as (-> & msg & Hreply & Hcases).
    destruct Hcases as [[Hc [= ->]]|(data & _ & [=])]. eauto 7.
  - intros msg Hreply Hp. split.
    + intros (fields & data & -> & _ & Hdata & Hnode & _).
      destruct Hp as (fields' & data' & [= <-] & _ & Hdata' & Hnode').
      rewrite Hdata in Hdata'. injection Hdata' as <-. contradiction.
    + rewrite loop_unfold.
      rewrite (iteration_on_round C E ws_url prompt_id ws errors w _ _
                 (round_on_progress E ws prompt_id errors w msg Hreply Hp)).
      reflexivity.
Qed.

(** C2: a matching "execution_error" event makes the monitor record the one
    entry "Node {node_id} ({node_type}): {exception_message}" and return
    [(False, errors)] in that same pass: the only call made is the [recv]
    that brought the event, whatever the stream holds after it. *)
Theorem error_event_ends_monitoring
    (C : config) (E : env) (fuel : nat) (ws_url : string) (prompt_id : json)
    (ws : nat) (w : world) (msg : json) (data : list (string * json)) :
  ws_recv_reply E (now w) = inr (TextFrame (Json msg)) ->
  error_event prompt_id msg data ->
  _monitor_execution C E (S fuel) ws ws_url prompt_id w
    = (Ret (false, ["Node " +:+ py_str (lib E) (field "node_id" data) +:+ " ("
                    +:+ py_str (lib E) (field "node_type" data) +:+ "): "
                    +:+ py_str (lib E) (field "exception_message" data)]),
       record (WsRecv ws) w) /\
  calls_made (_monitor_execution C E (S fuel) ws ws_url prompt_id) w = [WsRecv ws] /\
  forall errors,
    monitor_loop C E (S fuel) ws_url prompt_id ws errors w
      = (Ret (false, errors ++ [error_entry (lib E) data]), record (WsRecv ws) w).
Proof.
  intros Hreply He.
  assert (Hloop : forall errors,
             monitor_loop C E (S fuel) ws_url prompt_id ws errors w
             = (Ret (false, errors ++ [error_entry (lib E) data]),
                record (WsRecv ws) w)).
  { intros errors. rewrite loop_unfold.
    rewrite (iteration_on_round C E ws_url prompt_id ws errors w _ _
               (round_on_error E ws prompt_id errors w msg data Hreply He)).
    reflexivity. }
  split; [exact (Hloop [])|]. split; [|exact Hloop].
  unfold calls_made, world_after, _monitor_execution. rewrite Hloop. simpl.
  unfold now. rewrite drop_app_length. reflexivity.
Qed.

Lemma error_event_ends_monitoring_witness :
  _monitor_execution default_config
      (scripted [Received (event "execution_error" oom_event);
                 Received (event "executing" done_event)])
      2 0 "ws://engine/ws" (JStr "P1") initial_world
    = (Ret (false, ["Node 3 (KSampler): OOM"]), record (WsRecv 0) initial_world).
Proof.
  refine (proj1 (error_event_ends_monitoring default_config _ 1 "ws://engine/ws"
                   (JStr "P1") 0 initial_world _ oom_event _ _)).
  - reflexivity.
  - eexists. repeat split; reflexivity.
Defined.




(** C4: every result of [_execute_job] has status "failed" or "completed"; a
    "failed" result carries an "error" text; a "completed" result with no
    artifact carries no warning; and when output collection comes back with
    no artifact while an execution or output error was recorded, the result
    is the failure "Job produced no output" whose details are all the errors
    collected, execution errors first. *)
Theorem failed_results_carry_an_error
    (C : config) (E : env) (fuel : nat) (job_id : string) (req : RunRequest)
    (w0 : world) :
  (forall result,
      result_of (_execute_job C E fuel job_id req) w0 = Ret result ->
      (dict_get "status" result = Some (JStr "failed") \/
       dict_get "status" result = Some (JStr "completed")) /\
      (dict_get "status" result = Some (JStr "failed") ->
       exists error, dict_get "error" result = Some (JStr error)) /\
      (dict_get "status" result = Some (JStr "completed") ->
       dict_get "images" result = Some (JArr []) ->
       dict_get "warnings" result = None)) /\
  (forall ws_url ws prompt_id wm execution_done exec_errors w3 outputs w4
          output_errors w5,
      reaches_monitor C E job_id req w0 ws_url ws prompt_id wm ->
      _monitor_execution C E fuel ws ws_url prompt_id wm
        = (Ret (execution_done, exec_errors), w3) ->
      reaches_collection E prompt_id (world_after (close_if_connected ws) w3) outputs w4 ->
      _process_outputs E outputs (upload_urls req) w4 = (Ret ([], output_errors), w5) ->
      exec_errors ++ output_errors <> [] ->
      _execute_job C E fuel job_id req w0
        = (Ret [("status", JStr "failed"); ("error", JStr "Job produced no output");
                ("details", str_list (exec_errors ++ output_errors))], w5)).
Proof.
  split.
  - intros result Hres. apply job_result_has_shape in Hres.
    destruct Hres as [error|error details|output_data|output_data all_errors Hd He].
    + split; [left; reflexivity|]. split; [eauto|discriminate].
    + split; [left; reflexivity|]. split; [eauto|discriminate].
    + split; [right; reflexivity|]. split; [discriminate|reflexivity].
    + split; [right; reflexivity|]. split; [discriminate|].
      intros _ [= ->]. contradiction.
  - intros ws_url ws prompt_id wm execution_done exec_errors w3 outputs w4
      output_errors w5 Hreach Hmon Hcoll Hproc Herrs.
    apply job_keeps_result.
    rewrite (body_at_monitor C E fuel job_id req w0 ws_url ws prompt_id wm Hreach), Hmon.
    rewrite (collect_result_after_outputs E req prompt_id execution_done exec_errors
               _ outputs w4 [] output_errors w5
               (monitor_guard _ _ _ _ _ _ _ _ _ _ Hmon) Hcoll Hproc).
    apply non_empty_true in Herrs. rewrite Herrs. reflexivity.
Qed.

Lemma failed_results_carry_an_error_witness :
  _execute_job default_config out_of_memory 1 "J" simple_request initial_world
    = (Ret [("status", JStr "failed"); ("error", JStr "Job produced no output");
            ("details", JArr [JStr "Node 3 (KSampler): OOM"])],
       world_after (_execute_job default_config out_of_memory 1 "J" simple_request)
                   initial_world).
Proof.
  pose (w1 := world_after (prepare out_of_memory simple_request) initial_world).
  pose (w2 := world_after (_queue_workflow default_config out_of_memory
                             (workflow simple_request) "c1" None) w1).
  pose (wm := record (Print "[sidecar] Job J -> prompt P1") w2).
  pose (w3 := record (WsRecv 3) wm).
  pose (w4 := world_after (_get_history out_of_memory (JStr "P1"))
                          (world_after (close_if_connected 3) w3)).
  refine (proj2 (failed_results_carry_an_error default_config out_of_memory 1 "J"
                   simple_request initial_world)
            "ws://127.0.0.1:8188/ws?clientId=c1" 3%nat (JStr "P1") wm false
            ["Node 3 (KSampler): OOM"] w3 (JObj []) w4 [] _ _ _ _ _ _).
  - exists "c1", w1, (JObj [("prompt_id", JStr "P1")]), w2.
    repeat split; vm_compute; reflexivity.
  - vm_compute; reflexivity.
  - exists (JObj [("P1", JObj [("outputs", JObj [])])]), (JObj [("outputs", JObj [])]).
    repeat split; vm_compute; reflexivity.
  - vm_compute; reflexivity.
  - discriminate.
Defined.

(** C5: output collection.  A descriptor of type "temp" is passed over: no
    call is made for it and nothing is recorded.  A named artifact whose name
    has an output target (with a URL), whose bytes were fetched and whose PUT
    to the target was accepted is recorded as [{filename, type: "uploaded"}],
    with no data.  A named artifact with no target of its name, whose bytes
    were fetched, is recorded as [{filename, type: "base64", data}], and the
    data decodes to the bytes fetched.  The map of targets holds a name
    exactly when a target of the caller carries it.  In the result of
    [_process_outputs] every entry was made for a descriptor of the manifest
    that is not of type "temp", and is of one kind only: "uploaded" without
    data, or "base64" with data.  That result is the one the loop body leaves
    after handling, in order, every descriptor the manifest lists, with the
    map built from the caller's targets: entries and error lines together
    are as many as the named descriptors not of type "temp"; and for every
    descriptor of the manifest, met by the loop in the world [w1] with the
    result [reached], a descriptor of type "temp" leaves the result as it
    was, an uploaded artifact has its "uploaded" entry in the final result
    and an inlined artifact its "base64" entry, at the position the result
    had reached.  [_process_outputs] returns on every manifest it can walk
    whose descriptors are objects with a filename that is not a list or an
    object, when the caller's targets all carry a name and a URL. *)
Theorem outputs_are_uploaded_or_inlined (E : env) :
  (forall upload_map fields acc w,
      field "type" fields = JStr "temp" ->
      collect_artifact E upload_map (JObj fields) acc w = (Ret acc, w)) /\
  (forall upload_map fields name dest output_data errors w fetched,
      field "filename" fields = JStr name -> name <> "" ->
      field "type" fields <> JStr "temp" ->
      upload_map !! name = Some dest -> dest <> "" ->
      http_reply E (now w) = inr fetched ->
      accepted_at E (S (now w)) = true ->
      collect_artifact E upload_map (JObj fields) (output_data, errors) w
        = (Ret (output_data ++ [JObj [("filename", JStr name); ("type", JStr "uploaded")]],
                errors),
           World (calls w
                  ++ [HttpGet (view_url (lib E) fields);
                      HttpPut dest (content fetched)
                        (if ends_with_any name video_output_suffixes
                         then "video/mp4" else "image/png")])
                 (connected w))) /\
  (forall upload_map fields name output_data errors w fetched,
      field "filename" fields = JStr name -> name <> "" ->
      field "type" fields <> JStr "temp" ->
      upload_map !! name = None ->
      http_reply E (now w) = inr fetched ->
      collect_artifact E upload_map (JObj fields) (output_data, errors) w
        = (Ret (output_data
                ++ [JObj [("filename", JStr name); ("type", JStr "base64");
                          ("data", JStr (Base64.b64encode (content fetched)))]],
                errors),
           record (HttpGet (view_url (lib E) fields)) w) /\
      Base64.b64decode (Base64.b64encode (content fetched)) = Some (content fetched)) /\
  (forall targets w upload_map w',
      build_upload_map targets w = (Ret upload_map, w') ->
      (forall name,
          upload_map !! name = None <->
          forall item, item ∈ targets -> item !! "name" <> Some name) /\
      (forall name dest,
          upload_map !! name = Some dest ->
          exists item, item ∈ targets /\ item !! "name" = Some name /\
                       item !! "url" = Some dest)) /\
  (forall outputs upload_urls w output_data errors w',
      _process_outputs E outputs upload_urls w = (Ret (output_data, errors), w') ->
      Forall classified output_data /\
      Forall (fun entry => exists file_info,
                  file_info ∈ listed_artifacts outputs /\ entry_of file_info entry)
             output_data) /\
  (forall outputs upload_urls w output_data errors w',
      _process_outputs E outputs upload_urls w = (Ret (output_data, errors), w') ->
      exists upload_map,
        build_upload_map (or_empty upload_urls) w = (Ret upload_map, w) /\
        for_each (listed_artifacts outputs) (collect_artifact E upload_map) ([], []) w
          = (Ret (output_data, errors), w') /\
        (length output_data + length errors
         = length (filter is_eligible (listed_artifacts outputs)))%nat /\
        forall before fields after,
          listed_artifacts outputs = before ++ JObj fields :: after ->
          exists reached w1,
            for_each before (collect_artifact E upload_map) ([], []) w
              = (Ret reached, w1) /\
            (field "type" fields = JStr "temp" ->
             for_each after (collect_artifact E upload_map) reached w1
               = (Ret (output_data, errors), w')) /\
            (forall name dest fetched,
                field "filename" fields = JStr name -> name <> "" ->
                field "type" fields <> JStr "temp" ->
                upload_map !! name = Some dest -> dest <> "" ->
                http_reply E (now w1) = inr fetched ->
                accepted_at E (S (now w1)) = true ->
                output_data !! length reached.1
                  = Some (JObj [("filename", JStr name); ("type", JStr "uploaded")])) /\
            (forall name fetched,
                field "filename" fields = JStr name -> name <> "" ->
                field "type" fields <> JStr "temp" ->
                upload_map !! name = None ->
                http_reply E (now w1) = inr fetched ->
                output_data !! length reached.1
                  = Some (JObj [("filename", JStr name); ("type", JStr "base64");
                                ("data", JStr (Base64.b64encode (content fetched)))]))) /\
  (forall outputs upload_urls w,
      walkable outputs ->
      Forall well_described (listed_artifacts outputs) ->
      well_targeted (or_empty upload_urls) ->
      exists output_data errors w',
        _process_outputs E outputs upload_urls w = (Ret (output_data, errors), w')).
Proof.
  split; [|split; [|split; [|split; [|split; [|split]]]]].
  - intros upload_map fields acc w. apply collect_artifact_on_temp.
  - intros upload_map fields name dest output_data errors w fetched.
    apply collect_artifact_uploads.
  - intros upload_map fields name output_data errors w fetched
      Hname Hne Hkept Htarget Hfetch.
    split; [|apply Base64Facts.b64decode_b64encode].
    apply collect_artifact_inlines; assumption.
  - intros targets w upload_map w' Hbuild.
    apply build_upload_map_spec in Hbuild as (_ & Hnone & Hsome).
    split.
    + intros name. rewrite Hnone. split; [intros [_ H]; exact H|].
      intros H. split; [apply lookup_empty|exact H].
    + intros name dest Hm. apply Hsome in Hm as [Hm|Hm]; [|exact Hm].
      rewrite lookup_empty in Hm. discriminate.
  - intros outputs upload_urls w output_data errors w' Hrun.
    assert (Hentries := process_outputs_entries E _ _ _ _ _ _ Hrun).
    split; [|exact Hentries].
    eapply Forall_impl; [exact Hentries|].
    intros entry (file_info & _ & Hentry). eapply entry_is_classified. exact Hentry.
  - intros outputs upload_urls w output_data errors w' Hrun.
    destruct (process_outputs_flat E _ _ _ _ _ Hrun) as (upload_map & Hmap & Hflat).
    exists upload_map. split; [exact Hmap|]. split; [exact Hflat|]. split.
    { destruct (process_outputs_accounted E _ _ _ _ _ _ Hrun)
        as (entries & lines & cs & He & Hl & _ & Hcount & _).
      cbn [fst snd app] in He, Hl. subst entries lines. exact Hcount. }
    intros before fields after Hlisted. rewrite Hlisted in Hflat.
    apply for_each_split in Hflat
      as ([reached lines] & w1 & collected & w2 & Hbefore & Hone & Hafter).
    exists (reached, lines), w1. split; [exact Hbefore|]. split; [|split].
    + intros Htemp.
      rewrite (collect_artifact_on_temp E upload_map fields _ w1 Htemp) in Hone.
      injection Hone as <- <-. exact Hafter.
    + intros name dest fetched Hname Hne Hkept Htarget Hdest Hfetch Hput.
      rewrite (collect_artifact_uploads E upload_map fields name dest reached lines w1
                 fetched Hname Hne Hkept Htarget Hdest Hfetch Hput) in Hone.
      injection Hone as <- <-.
      apply (entry_stays E upload_map after (reached, lines) _ _ _ _ _ Hafter).
    + intros name fetched Hname Hne Hkept Htarget Hfetch.
      rewrite (collect_artifact_inlines E upload_map fields name reached lines w1
                 fetched Hname Hne Hkept Htarget Hfetch) in Hone.
      injection Hone as <- <-.
      apply (entry_stays E upload_map after (reached, lines) _ _ _ _ _ Hafter).
  - intros outputs upload_urls w. apply process_outputs_returns.
Qed.

Lemma outputs_are_uploaded_or_inlined_witness :
  exists output_data errors w',
    _process_outputs serving_engine three_outputs (Some [clip_target]) initial_world
      = (Ret (output_data, errors), w') /\
    output_data !! 0%nat
      = Some (JObj [("filename", JStr "clip.mp4"); ("type", JStr "uploaded")]) /\
    output_data !! 1%nat
      = Some (JObj [("filename", JStr "still.png"); ("type", JStr "base64");
                    ("data", JStr "UE5H")]) /\
    (length output_data + length errors = 2)%nat.
Proof.
  pose proof (outputs_are_uploaded_or_inlined serving_engine)
    as (_ & _ & _ & _ & _ & Hlisted & Hreturns).
  destruct (Hreturns three_outputs (Some [clip_target]) initial_world)
    as (output_data & errors & w' & Hrun).
  { eexists. split; [reflexivity|]. intros node key Hnode Hkey.
    apply list_elem_of_singleton in Hnode as ->.
    repeat (apply elem_of_cons in Hkey as [->|Hkey]);
      [eexists _, _; split; reflexivity ..|inversion Hkey]. }
  { repeat constructor; eexists; (split; [reflexivity|exact I]). }
  { intros item Hitem. apply list_elem_of_singleton in Hitem as ->.
    split; eexists; reflexivity. }
  exists output_data, errors, w'. split; [exact Hrun|].
  destruct (Hlisted _ _ _ _ _ _ Hrun) as (upload_map & Hmap & _ & Hcount & Hat).
  injection Hmap as <-.
  split; [|split; [|exact Hcount]].
  - destruct (Hat [JObj [("filename", JStr "scratch.png"); ("subfolder", JStr "");
                         ("type", JStr "temp")]]
                  [("filename", JStr "clip.mp4"); ("subfolder", JStr "");
                   ("type", JStr "output")]
                  [JObj [("filename", JStr "still.png"); ("subfolder", JStr "");
                         ("type", JStr "output")]]
                  eq_refl)
      as (reached & w1 & Hbefore & _ & Hup & _).
    injection Hbefore as <- <-.
    apply (Hup "clip.mp4" "http://store/clip" (bytes_response "Man"));
      first [reflexivity | discriminate].
  - destruct (Hat [JObj [("filename", JStr "scratch.png"); ("subfolder", JStr "");
                         ("type", JStr "temp")];
                   JObj [("filename", JStr "clip.mp4"); ("subfolder", JStr "");
                         ("type", JStr "output")]]
                  [("filename", JStr "still.png"); ("subfolder", JStr "");
                   ("type", JStr "output")]
                  []
                  eq_refl)
      as (reached & w1 & Hbefore & _ & _ & Hin).
    vm_compute in Hbefore. injection Hbefore as <- <-.
    apply (Hin "still.png" (bytes_response "PNG"));
      first [reflexivity | discriminate].
Defined.

(** C6, against the claim as worded: an engine that accepts the job and then
    sends nothing.  Every [recv] times out and the loop of the monitor goes
    round again, so however many passes are allowed the job is still being
    monitored, and no POST has been made: this accepted job gets no callback
    delivery at all. *)
Lemma silent_engine_never_calls_back :
  exists req : RunRequest,
    forall fuel,
      result_of (_run_job default_config silent_engine fuel "J" req) initial_world
        = Pending /\
      filter is_post
        (calls (world_after (_run_job default_config silent_engine fuel "J" req)
                            initial_world)) = [].
Proof.
  exists simple_request. intros fuel.
  pose (w1 := world_after (prepare silent_engine simple_request) initial_world).
  pose (w2 := world_after (_queue_workflow default_config silent_engine
                             (workflow simple_request) "c1" None) w1).
  pose (wm := record (Print "[sidecar] Job J -> prompt P1") w2).
  assert (Hreach : reaches_monitor default_config silent_engine "J" simple_request
                     initial_world "ws://127.0.0.1:8188/ws?clientId=c1" 3 (JStr "P1") wm).
  { exists "c1", w1, (JObj [("prompt_id", JStr "P1")]), w2.
    repeat split; vm_compute; reflexivity. }
  assert (Hmon : _monitor_execution default_config silent_engine fuel 3
                   "ws://127.0.0.1:8188/ws?clientId=c1" (JStr "P1") wm
                 = (Pending, World (calls wm ++ replicate fuel (WsRecv 3)) (connected wm))).
  { apply loop_on_timeouts. intros t Ht.
    assert (Hnow : now wm = 6%nat) by (vm_compute; reflexivity).
    exists (Exn WebSocketTimeoutException "timed out"). split; [|reflexivity].
    apply scripted_recv_beyond. simpl. lia. }
  assert (Hjob : _execute_job default_config silent_engine fuel "J" simple_request
                   initial_world
                 = (Pending, World (calls wm ++ replicate fuel (WsRecv 3)) (connected wm))).
  { apply job_pending.
    rewrite (body_at_monitor _ _ fuel _ _ _ _ _ _ _ Hreach), Hmon. reflexivity. }
  unfold result_of, world_after, _run_job, bind. rewrite Hjob. cbn [fst snd calls].
  split; [reflexivity|].
  rewrite filter_app.
  replace (filter is_post (calls wm)) with (@nil call) by (vm_compute; reflexivity).
  simpl. clear Hmon Hjob. induction fuel as [|fuel IH]; [reflexivity|].
  simpl replicate. rewrite filter_cons. simpl. exact IH.
Qed.

(** C6, amended: [_execute_job] lets no exception out, and among the calls
    it makes, whatever its outcome, there is no POST of a JSON payload, the
    form in which callbacks are delivered (its own POSTs, to the upload and
    prompt endpoints of the engine, carry files or raw data).  Once it has
    returned its result, [_run_job] is exactly one run of [_fire_callback] on
    the payload built from that result, whatever further passes the monitor
    would have been allowed, and that run makes [k] undelivered POSTs, each
    followed by a sleep of 5, and then either a POST answered with a status
    below 300, at which it stops ([k] below 3), or, after 3 undelivered
    POSTs, the log line of the failure; it returns normally in both cases.
    The JSON POSTs of the whole job, from its start, are therefore those of
    this one run: between one and three, every one to the callback URL of
    the request with the same payload, whose status is the one the job
    computed.  While [_execute_job] is still in its monitoring loop,
    [_run_job] has made no such POST at all. *)
Theorem callback_once_after_execution
    (C : config) (E : env) (fuel : nat) (job_id : string) (req : RunRequest)
    (w0 : world) :
  (forall e, result_of (_execute_job C E fuel job_id req) w0 <> Raise e) /\
  filter is_post (calls_made (_execute_job C E fuel job_id req) w0) = [] /\
  (forall result w1,
      _execute_job C E fuel job_id req w0 = (Ret result, w1) ->
      _run_job C E fuel job_id req w0
        = _fire_callback E (callback_url req) (callback_payload job_id result)
            "job-callback" w1 /\
      (forall extra,
          _run_job C E (fuel + extra) job_id req w0
            = _fire_callback E (callback_url req) (callback_payload job_id result)
                "job-callback" w1) /\
      result_of (_run_job C E fuel job_id req) w0 = Ret tt /\
      dict_get "status" (callback_payload job_id result) = dict_get "status" result /\
      exists (k : nat) (tail : list call),
        calls (world_after (_run_job C E fuel job_id req) w0)
          = calls w1
            ++ failed_deliveries E (callback_url req) (callback_payload job_id result)
                 "job-callback" 0 (now w1) k
            ++ tail /\
        none_delivered E (now w1) k /\
        (1 <= length (filter is_post
                        (failed_deliveries E (callback_url req)
                           (callback_payload job_id result) "job-callback" 0 (now w1) k
                         ++ tail)) <= 3)%nat /\
        filter is_post (calls_made (_run_job C E fuel job_id req) w0)
          = replicate (Nat.min (S k) 3)
              (HttpPostJson (callback_url req) (callback_payload job_id result)) /\
        (((k < 3)%nat /\ delivered_at E (now w1 + k * 3) = true /\
          tail = [HttpPostJson (callback_url req) (callback_payload job_id result);
                  Print ("[sidecar] job-callback delivered (attempt "
                         +:+ pretty (Z.of_nat k + 1) +:+ ")")]) \/
         (k = 3%nat /\
          tail = [Print "[sidecar] job-callback failed after 3 attempts"]))) /\
  (forall w1,
      _execute_job C E fuel job_id req w0 = (Pending, w1) ->
      _run_job C E fuel job_id req w0 = (Pending, w1) /\
      filter is_post (calls_made (_run_job C E fuel job_id req) w0) = []).
Proof.
  destruct (job_posts_nothing C E fuel job_id req w0) as (cs & Hcs & Hmade & Hnone).
  split; [|split; [|split]].
  - intros e. apply job_never_raises.
  - rewrite Hmade. exact Hnone.
  - intros result w1 Hjob.
    assert (Hrun : _run_job C E fuel job_id req w0
                   = _fire_callback E (callback_url req) (callback_payload job_id result)
                       "job-callback" w1).
    { unfold _run_job, bind. rewrite Hjob. reflexivity. }
    destruct (fire_callback_outcome E (callback_url req) (callback_payload job_id result)
                "job-callback" w1)
      as (k & w' & tail & Hfire & Hnd & Hcalls & _ & Hcases).
    split; [exact Hrun|].
    split.
    { intros extra. unfold _run_job, bind.
      rewrite (job_more_fuel C E extra fuel job_id req w0 _ _ Hjob) by discriminate.
      reflexivity. }
    unfold result_of, world_after in *. rewrite Hrun, Hfire. rewrite Hjob in Hcs.
    cbn [fst snd] in *.
    split; [reflexivity|]. split.
    { apply payload_keeps_status. eapply job_result_has_shape.
      unfold result_of. rewrite Hjob. reflexivity. }
    exists k, tail. split; [exact Hcalls|]. split; [exact Hnd|].
    assert (Hall : calls_made (_run_job C E fuel job_id req) w0
                   = cs ++ failed_deliveries E (callback_url req)
                             (callback_payload job_id result) "job-callback" 0 (now w1) k
                        ++ tail).
    { apply calls_made_extended. unfold world_after. rewrite Hrun, Hfire. cbn [snd].
      rewrite Hcalls, Hcs, <- app_assoc. reflexivity. }
    rewrite Hall, !filter_app, Hnone, length_app, count_posts_failed,
      posts_of_failed_deliveries.
    cbn [app].
    destruct Hcases as [(Hlt & Hd & ->)|(-> & ->)].
    + split; [simpl; lia|]. split.
      * rewrite filter_cons_True by exact I. rewrite filter_cons_False by (intros []).
        rewrite filter_nil, replicate_snoc.
        replace (Nat.min (S k) 3) with (S k) by lia. reflexivity.
      * left. repeat split; assumption.
    + split; [simpl; lia|]. split.
      * rewrite filter_cons_False by (intros []). rewrite filter_nil, app_nil_r.
        reflexivity.
      * right. split; reflexivity.
  - intros w1 Hjob.
    assert (Hrun : _run_job C E fuel job_id req w0 = (Pending, w1)).
    { unfold _run_job, bind. rewrite Hjob. reflexivity. }
    split; [exact Hrun|].
    unfold calls_made, world_after in *. rewrite Hrun. rewrite Hjob in Hmade.
    cbn [snd] in *. rewrite Hmade. exact Hnone.
Qed.

Lemma callback_once_after_execution_witness :
  _run_job default_config out_of_memory 1 "J" simple_request initial_world
    = _fire_callback out_of_memory "http://caller/cb"
        [("job_id", JStr "J"); ("status", JStr "failed");
         ("error", JStr "Job produced no output");
         ("details", JArr [JStr "Node 3 (KSampler): OOM"])]
        "job-callback"
        (world_after (_execute_job default_config out_of_memory 1 "J" simple_request)
                     initial_world) /\
  filter is_post
    (calls_made (_execute_job default_config out_of_memory 1 "J" simple_request)
                initial_world) = [].
Proof.
  pose proof (callback_once_after_execution default_config out_of_memory 1 "J"
                simple_request initial_world) as (_ & Hquiet & Hreturned & _).
  split; [|exact Hquiet].
  refine (proj1 (Hreturned (failed_with "Job produced no output"
                              ["Node 3 (KSampler): OOM"]) _ _)).
  vm_compute; reflexivity.
Defined.

(** C7: each of the two staging functions runs every item of its list, and
    the failure of one item leaves the others to be run: the world at the end
    is the one reached by running the items one after the other, whatever
    each run did.  The function never raises; its status is "error" exactly
    when the run of some item raised; its details hold one line per item
    whose run raised, in the order of the items, and no other line.  When a
    staging function reports "error", [_execute_job] returns the failure for
    that stage with those details. *)
Theorem staging_collects_every_failure (C : config) (E : env) :
  (forall images w,
      exists report,
        _upload_images E images w
          = (Ret report, (run_all (upload_image_item E) images w).2) /\
        length (run_all (upload_image_item E) images w).1 = length images /\
        (status report = "error" <->
         exists i e, (run_all (upload_image_item E) images w).1 !! i = Some (Raise e)) /\
        (status report = "error" \/ status report = "success") /\
        details report
          = failure_lines upload_line images (run_all (upload_image_item E) images w).1 /\
        length (details report)
          = length (filter has_raised (run_all (upload_image_item E) images w).1) /\
        (forall entry,
            entry ∈ details report <->
            exists i image e,
              images !! i = Some image /\
              (run_all (upload_image_item E) images w).1 !! i = Some (Raise e) /\
              entry = "Failed to upload " +:+ str_dict_get_str image "name"
                      +:+ ": " +:+ exn_msg e)) /\
  (forall items w,
      exists report,
        _download_and_upload_files E items w
          = (Ret report, (run_all (download_item E) items w).2) /\
        length (run_all (download_item E) items w).1 = length items /\
        (status report = "error" <->
         exists i e, (run_all (download_item E) items w).1 !! i = Some (Raise e)) /\
        (status report = "error" \/ status report = "success") /\
        details report
          = failure_lines process_line items (run_all (download_item E) items w).1 /\
        length (details report)
          = length (filter has_raised (run_all (download_item E) items w).1) /\
        (forall entry,
            entry ∈ details report <->
            exists i item e,
              items !! i = Some item /\
              (run_all (download_item E) items w).1 !! i = Some (Raise e) /\
              entry = "Failed to process " +:+ str_dict_get_str item "name"
                      +:+ ": " +:+ exn_msg e)) /\
  (forall fuel job_id req w0 w staged report w',
      reaches_staging E w0 w ->
      images req = Some staged -> staged <> [] ->
      _upload_images E staged w = (Ret report, w') ->
      status report = "error" ->
      _execute_job C E fuel job_id req w0
        = (Ret [("status", JStr "failed"); ("error", JStr "Image upload failed");
                ("details", str_list (details report))], w')) /\
  (forall fuel job_id req w0 w w2 staged report w',
      reaches_staging E w0 w ->
      stage_inputs (images req) (_upload_images E) "Image upload failed" w
        = (Ret None, w2) ->
      download_urls req = Some staged -> staged <> [] ->
      _download_and_upload_files E staged w2 = (Ret report, w') ->
      status report = "error" ->
      _execute_job C E fuel job_id req w0
        = (Ret [("status", JStr "failed"); ("error", JStr "File download/upload failed");
                ("details", str_list (details report))], w')).
Proof.
  assert (Hraised : forall outcomes : list (outcome unit),
             existsb has_raised outcomes = true <->
             exists i e, outcomes !! i = Some (Raise e)).
  { intros outcomes. rewrite existsb_exists. split.
    - intros (r & Hin & Hr). destruct r as [|e|]; try discriminate.
      apply list_elem_of_In, list_elem_of_lookup in Hin as [i Hi]. eauto.
    - intros (i & e & Hi). exists (Raise e). split; [|reflexivity].
      apply list_elem_of_In, list_elem_of_lookup. eauto. }
  assert (Hstatus : forall b : bool,
             (if b then "error" else "success") = "error" <-> b = true).
  { intros []; split; congruence. }
  split; [|split; [|split]].
  - intros images w. eexists. split; [apply upload_images_outcome|].
    cbn [status details].
    split; [apply run_all_length|].
    split; [rewrite Hstatus; apply Hraised|].
    split; [destruct (existsb _ _); auto|].
    split; [reflexivity|].
    split; [apply failure_lines_length; symmetry; apply run_all_length|].
    intros entry. apply failure_lines_elem.
  - intros items w. eexists. split; [apply download_and_upload_outcome|].
    cbn [status details].
    split; [apply run_all_length|].
    split; [rewrite Hstatus; apply Hraised|].
    split; [destruct (existsb _ _); auto|].
    split; [reflexivity|].
    split; [apply failure_lines_length; symmetry; apply run_all_length|].
    intros entry. apply failure_lines_elem.
  - intros fuel job_id req w0 w staged report w' (w1 & Hclean & Hcheck)
      Himages Hne Hupload Hstatus'.
    apply non_empty_true in Hne.
    assert (Hstage : stage_inputs (images req) (_upload_images E) "Image upload failed" w
                     = (Ret (Some (failed_with "Image upload failed" (details report))),
                        w')).
    { unfold stage_inputs. rewrite Himages. cbn [or_empty from_option id]. rewrite Hne.
      rewrite (bind_of_run _ _ _ _ _ Hupload), Hstatus'. reflexivity. }
    assert (Hprep : prepare E req w0
                    = (Ret (inl (failed_with "Image upload failed" (details report))),
                       w')).
    { unfold prepare.
      rewrite (bind_of_run _ _ _ _ _ Hclean), (bind_of_run _ _ _ _ _ Hcheck).
      cbn [negb]. rewrite (bind_of_run _ _ _ _ _ Hstage). reflexivity. }
    apply job_keeps_result. unfold execute_job_body.
    rewrite (bind_of_run _ _ _ _ _ Hprep). reflexivity.
  - intros fuel job_id req w0 w w2 staged report w' (w1 & Hclean & Hcheck)
      Hfirst Hdownloads Hne Hrun Hstatus'.
    apply non_empty_true in Hne.
    assert (Hstage : stage_inputs (download_urls req) (_download_and_upload_files E)
                       "File download/upload failed" w2
                     = (Ret (Some (failed_with "File download/upload failed"
                                     (details report))), w')).
    { unfold stage_inputs. rewrite Hdownloads. cbn [or_empty from_option id]. rewrite Hne.
      rewrite (bind_of_run _ _ _ _ _ Hrun), Hstatus'. reflexivity. }
    assert (Hprep : prepare E req w0
                    = (Ret (inl (failed_with "File download/upload failed"
                                   (details report))), w')).
    { unfold prepare.
      rewrite (bind_of_run _ _ _ _ _ Hclean), (bind_of_run _ _ _ _ _ Hcheck).
      cbn [negb]. rewrite (bind_of_run _ _ _ _ _ Hfirst).
      rewrite (bind_of_run _ _ _ _ _ Hstage). reflexivity. }
    apply job_keeps_result. unfold execute_job_body.
    rewrite (bind_of_run _ _ _ _ _ Hprep). reflexivity.
Qed.

Lemma staging_collects_every_failure_witness :
  _execute_job default_config accepting_engine 0 "J" three_images initial_world
    = (Ret [("status", JStr "failed"); ("error", JStr "Image upload failed");
            ("details", JArr [JStr "Failed to upload b.png: 'image'";
                              JStr "Failed to upload b.png: 'image'"])],
       World [Cleanup; HttpGet comfy_root;
              HttpPostFiles "http://127.0.0.1:8188/upload/image"
                [("image", FilePart (Some "a.png") "PNG" (Some "image/png"));
                 overwrite_part]]
             ∅).
Proof.
  refine (proj1 (proj2 (proj2 (staging_collects_every_failure default_config
                                 accepting_engine)))
            0%nat "J" three_images initial_world
            (World [Cleanup; HttpGet comfy_root] ∅)
            [bad_image; good_image; bad_image]
            (StagingReport "error" ["Failed to upload b.png: 'image'";
                                    "Failed to upload b.png: 'image'"])
            _ _ _ _ _ _).
  - exists (World [Cleanup] ∅). split; vm_compute; reflexivity.
  - reflexivity.
  - discriminate.
  - vm_compute; reflexivity.
  - reflexivity.
Defined.




(** C9: when the monitor comes back with [(False, exec_errors)], as it does
    on a matching "execution_error" event, and output collection still
    yields an artifact, the job is reported "completed" with the artifacts
    under "images" and the execution errors, followed by the output errors,
    under "warnings". *)
Theorem execution_error_with_artifacts_completes
    (C : config) (E : env) (fuel : nat) (job_id : string) (req : RunRequest)
    (w0 : world) (ws_url : string) (ws : nat) (prompt_id : json) (wm : world)
    (exec_errors : list string) (w3 : world) (outputs : json) (w4 : world)
    (output_data : list json) (output_errors : list string) (w5 : world) :
  reaches_monitor C E job_id req w0 ws_url ws prompt_id wm ->
  _monitor_execution C E fuel ws ws_url prompt_id wm = (Ret (false, exec_errors), w3) ->
  reaches_collection E prompt_id (world_after (close_if_connected ws) w3) outputs w4 ->
  _process_outputs E outputs (upload_urls req) w4
    = (Ret (output_data, output_errors), w5) ->
  output_data <> [] ->
  exec_errors <> [] /\
  _execute_job C E fuel job_id req w0
    = (Ret [("status", JStr "completed"); ("images", JArr output_data);
            ("warnings", str_list (exec_errors ++ output_errors))], w5).
Proof.
  intros Hreach Hmon Hcoll Hproc Hdata.
  assert (Hguard := monitor_guard _ _ _ _ _ _ _ _ _ _ Hmon).
  assert (Herrs : exec_errors <> []).
  { intros ->. discriminate Hguard. }
  split; [exact Herrs|].
  apply job_keeps_result.
  rewrite (body_at_monitor C E fuel job_id req w0 ws_url ws prompt_id wm Hreach), Hmon.
  rewrite (collect_result_after_outputs E req prompt_id false exec_errors
             _ outputs w4 output_data output_errors w5 Hguard Hcoll Hproc).
  apply non_empty_true in Hdata. rewrite Hdata. simpl negb. cbn [andb].
  assert (Hall : non_empty (exec_errors ++ output_errors) = true).
  { apply non_empty_true. destruct exec_errors; [contradiction|discriminate]. }
  rewrite Hall. reflexivity.
Qed.

Lemma execution_error_with_artifacts_completes_witness :
  ["Node 3 (KSampler): OOM"] <> [] /\
  _execute_job default_config error_with_image 1 "J" simple_request initial_world
    = (Ret [("status", JStr "completed");
            ("images", JArr [JObj [("filename", JStr "a.png"); ("type", JStr "base64");
                                   ("data", JStr "UE5H")]]);
            ("warnings", JArr [JStr "Node 3 (KSampler): OOM"])],
       world_after (_execute_job default_config error_with_image 1 "J" simple_request)
                   initial_world).
Proof.
  pose (w1 := world_after (prepare error_with_image simple_request) initial_world).
  pose (w2 := world_after (_queue_workflow default_config error_with_image
                             (workflow simple_request) "c1" None) w1).
  pose (wm := record (Print "[sidecar] Job J -> prompt P1") w2).
  pose (w3 := record (WsRecv 3) wm).
  pose (w4 := world_after (_get_history error_with_image (JStr "P1"))
                          (world_after (close_if_connected 3) w3)).
  refine (execution_error_with_artifacts_completes default_config error_with_image 1 "J"
            simple_request initial_world
            "ws://127.0.0.1:8188/ws?clientId=c1" 3%nat (JStr "P1") wm
            ["Node 3 (KSampler): OOM"] w3 one_image w4 _ [] _ _ _ _ _ _).
  - exists "c1", w1, (JObj [("prompt_id", JStr "P1")]), w2.
    repeat split; vm_compute; reflexivity.
  - vm_compute; reflexivity.
  - exists (JObj [("P1", JObj [("outputs", one_image)])]),
      (JObj [("outputs", one_image)]).
    repeat split; vm_compute; reflexivity.
  - vm_compute; reflexivity.
  - discriminate.
Defined.

(** C10: [_monitor_execution] never returns [(False, [])].  Whatever it
    returns is [(True, errors)] or [(False, errors)] with an entry in
    [errors], so the guard [not execution_done and not exec_errors] of the
    "Execution monitoring exited unexpectedly" branch of [_execute_job] is
    false on every value the monitor can hand back. *)
Theorem monitor_never_returns_empty_handed
    (C : config) (E : env) (fuel : nat) (ws : nat) (ws_url : string) (prompt_id : json)
    (w : world) (execution_done : bool) (exec_errors : list string) :
  result_of (_monitor_execution C E fuel ws ws_url prompt_id) w
    = Ret (execution_done, exec_errors) ->
  (execution_done = true \/ exec_errors <> []) /\
  (execution_done = false -> exists entry, exec_errors = [entry]) /\
  exited_unexpectedly execution_done exec_errors = false.
Proof.
  unfold result_of, _monitor_execution. intros H.
  destruct (monitor_loop C E fuel ws_url prompt_id ws [] w) as [r w'] eqn:Hloop.
  simpl in H. subst r.
  apply loop_exit in Hloop as (ws1 & w1 & Hiter); [|discriminate].
  apply iteration_returns, round_returns in Hiter as (_ & msg & _ & Hcases).
  destruct Hcases as [[_ [= -> ->]]|(data & _ & [= -> ->])].
  - split; [left; reflexivity|]. split; [discriminate|reflexivity].
  - split; [right; discriminate|]. split; [eauto|reflexivity].
Qed.

Lemma monitor_never_returns_empty_handed_witness :
  (false = true \/ ["Node 3 (KSampler): OOM"] <> []) /\
  (false = false -> exists entry, ["Node 3 (KSampler): OOM"] = [entry]) /\
  exited_unexpectedly false ["Node 3 (KSampler): OOM"] = false.
Proof.
  apply (monitor_never_returns_empty_handed default_config
           (scripted [Received (event "execution_error" oom_event)])
           1 0 "ws://engine/ws" (JStr "P1") initial_world).
  reflexivity.
Defined.

(** * Further properties of the handler *)



(** ** The endpoints, and a job that finds no engine *)

Lemma none_ready_at (E : env) k : forall t n,
  none_ready E t n -> (k < n)%nat -> ready_at E (t + k * 2) = false.
Proof.
  induction k as [|k IH]; intros t n Hnone Hlt.
  - destruct n; [lia|]. rewrite Nat.add_0_r. apply Hnone.
  - destruct n; [lia|]. destruct Hnone as [_ Hnone].
    replace (t + S k * 2)%nat with (t + 2 + k * 2)%nat by lia.
    apply (IH _ n); [exact Hnone|lia].
Qed.

Lemma check_server_gives_up (E : env) url retries delay w :
  sleep_refusal delay = None ->
  none_ready E (now w) (Z.to_nat retries) ->
  _check_server E url retries delay w
    = (Ret false,
       World (calls w ++ failed_probes url delay (Z.to_nat retries)) (connected w)).
Proof.
  intros Hdelay Hnone.
  assert (Hlen : length (py_range retries) = Z.to_nat retries).
  { unfold py_range. rewrite length_fmap, length_seq. reflexivity. }
  destruct (probe_loop E url delay (py_range retries) w Hdelay)
    as (k & Hk & _ & Hcases).
  rewrite Hlen in *.
  change (_check_server E url retries delay)
    with (r <- for_until (py_range retries) (fun _ => probe_attempt E url delay) ;;
          ret (from_option id false r)).
  destruct Hcases as [(Hlt & Hr & _)|(-> & Hrun)].
  - rewrite (none_ready_at E k _ _ Hnone Hlt) in Hr. discriminate.
  - rewrite (bind_of_run _ _ _ _ _ Hrun). reflexivity.
Qed.

(** X2: a job that finds no engine fails fast.  When the sweep of the
    directories goes through and none of the five probes of [_check_server]
    finds the engine ready, [_execute_job] returns the failed result "ComfyUI
    not reachable" after exactly the sweep and five probes, each followed by
    a sleep of one second: nothing is staged, no websocket is opened and no
    workflow is submitted. *)
Theorem unreachable_engine_fails_fast
    (C : config) (E : env) (fuel : nat) (job_id : string) (req : RunRequest)
    (w0 : world) :
  cleanup_reply E (now w0) = None ->
  none_ready E (S (now w0)) 5 ->
  _execute_job C E fuel job_id req w0
    = (Ret [("status", JStr "failed"); ("error", JStr "ComfyUI not reachable")],
       World (calls w0 ++ Cleanup :: failed_probes comfy_root 1 5) (connected w0)).
Proof.
  intros Hsweep Hnone.
  assert (Hclean : _cleanup_comfyui_directories E w0 = (Ret tt, record Cleanup w0)).
  { unfold _cleanup_comfyui_directories. rewrite Hsweep. reflexivity. }
  assert (Hprobe : _check_server E comfy_root 5 1 (record Cleanup w0)
                   = (Ret false,
                      World (calls w0 ++ Cleanup :: failed_probes comfy_root 1 5)
                            (connected w0))).
  { rewrite check_server_gives_up; [|reflexivity|].
    - unfold record. cbn [calls connected]. rewrite <- app_assoc. reflexivity.
    - rewrite now_record. exact Hnone. }
  assert (Hprep : prepare E req w0
                  = (Ret (inl (failed "ComfyUI not reachable")),
                     World (calls w0 ++ Cleanup :: failed_probes comfy_root 1 5)
                           (connected w0))).
  { unfold prepare. rewrite (bind_of_run _ _ _ _ _ Hclean).
    rewrite (bind_of_run _ _ _ _ _ Hprobe). reflexivity. }
  unfold _execute_job, try_except, execute_job_body.
  rewrite (bind_of_run _ _ _ _ _ Hprep). reflexivity.
Qed.

Lemma probe_call_plain url delay c : probe_call url delay c -> is_post c = false.
Proof. intros []; reflexivity. Qed.

Section CallbackReach.
Context (E : env).

(** Every POST of [_fire_callback] is the one it was asked to deliver, and
    there are between one and three. *)
Lemma fire_callback_posts url payload label w :
  result_of (_fire_callback E url payload label) w = Ret tt /\
  (1 <= length (filter is_post (calls_made (_fire_callback E url payload label) w)) <= 3)%nat /\
  Forall (fun c => is_post c = true -> c = HttpPostJson url payload)
         (calls_made (_fire_callback E url payload label) w).
Proof.
  destruct (fire_callback_outcome E url payload label w)
    as (k & w' & tail & Hrun & _ & Hcalls & _ & Hcases).
  unfold result_of. rewrite Hrun. split; [reflexivity|].
  assert (Hmade : calls_made (_fire_callback E url payload label) w
                  = failed_deliveries E url payload label 0 (now w) k ++ tail).
  { apply calls_made_extended. unfold world_after. rewrite Hrun. exact Hcalls. }
  split.
  - rewrite Hmade, filter_app, length_app, count_posts_failed.
    destruct Hcases as [(Hlt & _ & ->)|(-> & ->)].
    + rewrite filter_cons_True by exact I. rewrite filter_cons_False by (intros []).
      simpl. lia.
    + rewrite filter_cons_False by (intros []). simpl. lia.
  - apply steps_calls_made.
    apply quietly_extends.
    apply (fire_callback_steps E
             (fun c => is_post c = true -> c = HttpPostJson url payload));
      [reflexivity|discriminate|discriminate].
Qed.

End CallbackReach.

Lemma unreachable_engine_fails_fast_witness :
  _execute_job default_config absent_engine 1 "J" simple_request initial_world
    = (Ret [("status", JStr "failed"); ("error", JStr "ComfyUI not reachable")],
       World (calls initial_world ++ Cleanup :: failed_probes comfy_root 1 5)
             (connected initial_world)).
Proof.
  apply (unreachable_engine_fails_fast default_config absent_engine 1 "J" simple_request
           initial_world).
  - reflexivity.
  - repeat split; reflexivity.
Defined.

(** X3: the health endpoint always answers.  Whatever the engine does with
    the one GET it is sent (no answer, an exception, any status), [health]
    returns [{status: "ok", pod_id, comfy_ready}], where [comfy_ready] is
    true exactly when the GET was answered with status 200; it never raises
    and makes no other call. *)
Theorem health_always_answers (K : service_config) (E : env) (w : world) :
  health K E w
    = (Ret [("status", JStr "ok"); ("pod_id", JStr (POD_ID K));
            ("comfy_ready", JBool (ready_at E (now w)))],
       record (HttpGet comfy_root) w).
Proof.
  unfold health, ready_at, bind, try_except, http.
  destruct (http_reply E (now w)) as [e|r]; reflexivity.
Qed.

(** X4: admission to [POST /run].  With no SIDECAR_API_KEY configured, or
    with the header [Authorization: Bearer <key>], the request is accepted:
    a fresh job id is drawn, logged and returned with status "accepted", and
    the task handed to the event loop is [_run_job] of that id and that
    request.  With a key configured and any other header, or none, the
    answer is 401 "Unauthorized" and nothing is done: no id is drawn and no
    task is made. *)
Theorem run_admits_by_bearer_key
    (K : service_config) (E : env) (request : RunRequest)
    (authorization : option string) (w : world) :
  (SIDECAR_API_KEY K = "" \/ authorization = Some ("Bearer " +:+ SIDECAR_API_KEY K) ->
   run K E request authorization w
     = (Ret (inr ([("job_id", JStr (uuid_reply E (now w))); ("status", JStr "accepted")],
                  RunJob (uuid_reply E (now w)) request)),
        World (calls w ++ [Uuid4;
                           Print ("[sidecar] Accepted job " +:+ uuid_reply E (now w))])
              (connected w))) /\
  (SIDECAR_API_KEY K <> "" ->
   authorization <> Some ("Bearer " +:+ SIDECAR_API_KEY K) ->
   run K E request authorization w
     = (Ret (inl (HTTPException 401 "Unauthorized")), w)).
Proof.
  split.
  - intros Hok.
    assert (Hauth : _check_auth K authorization = inr tt).
    { unfold _check_auth. destruct (String.eqb (SIDECAR_API_KEY K) "") eqn:Hkey;
        [reflexivity|].
      destruct Hok as [Hempty|Hbearer].
      - apply String.eqb_neq in Hkey. contradiction.
      - rewrite bool_decide_eq_true_2 by exact Hbearer. reflexivity. }
    unfold run. rewrite Hauth.
    unfold bind, uuid4, print, emit, ret, record. cbn [calls connected].
    rewrite <- app_assoc. reflexivity.
  - intros Hkey Hbearer. unfold run, _check_auth.
    apply String.eqb_neq in Hkey. rewrite Hkey.
    rewrite bool_decide_eq_false_2 by exact Hbearer. reflexivity.
Qed.

Lemma run_admits_by_bearer_key_witness :
  run key_config absent_engine simple_request (Some "Bearer s3cret") initial_world
    = (Ret (inr ([("job_id", JStr "uuid"); ("status", JStr "accepted")],
                 RunJob "uuid" simple_request)),
       World [Uuid4; Print "[sidecar] Accepted job uuid"] ∅) /\
  run key_config absent_engine simple_request (Some "Bearer guess") initial_world
    = (Ret (inl (HTTPException 401 "Unauthorized")), initial_world).
Proof.
  destruct (run_admits_by_bearer_key key_config absent_engine simple_request
              (Some "Bearer s3cret") initial_world) as [Hin _].
  destruct (run_admits_by_bearer_key key_config absent_engine simple_request
              (Some "Bearer guess") initial_world) as [_ Hout].
  split.
  - apply Hin. right. reflexivity.
  - apply Hout; discriminate.
Defined.

(** X5: an accepted job reports under the id the caller was given.  When
    [run] accepts a request, the id in its answer is the id of the task it
    made, and every JSON POST that task makes, however long it runs and in
    whatever state of the world it starts, goes to the callback URL of the
    request with a payload that carries this id and a status that is
    "completed" or "failed". *)
Theorem accepted_job_reports_under_its_id
    (K : service_config) (C : config) (E : env) (request : RunRequest)
    (authorization : option string) (w : world)
    (reply : list (string * json)) (t : task) (w' : world) :
  run K E request authorization w = (Ret (inr (reply, t)), w') ->
  exists job_id,
    reply = [("job_id", JStr job_id); ("status", JStr "accepted")] /\
    t = RunJob job_id request /\
    forall fuel w1 url payload,
      HttpPostJson url payload ∈ calls_made (run_task C E fuel t) w1 ->
      url = callback_url request /\
      dict_get "job_id" payload = Some (JStr job_id) /\
      (dict_get "status" payload = Some (JStr "completed") \/
       dict_get "status" payload = Some (JStr "failed")).
Proof.
  unfold run. destruct (_check_auth K authorization); [discriminate|].
  intros Hrun. apply bind_returns in Hrun as (job_id & w2 & _ & Hrun).
  apply bind_returns in Hrun as ([] & w3 & _ & Hrun).
  injection Hrun as <- <- _. exists job_id.
  split; [reflexivity|]. split; [reflexivity|].
  intros fuel w1 url payload. cbn [run_task].
  destruct (execute_job_steps C E fuel job_id request w1) as (cs & Hcs & Hjob).
  unfold world_after in Hcs. unfold _run_job.
  destruct (_execute_job C E fuel job_id request w1) as [[result|e|] w4] eqn:Hexec;
    cbn [snd] in Hcs.
  - destruct (fire_callback_posts E (callback_url request)
                (callback_payload job_id result) "job-callback" w4)
      as (_ & _ & Honly).
    destruct (fire_callback_outcome E (callback_url request)
                (callback_payload job_id result) "job-callback" w4)
      as (k & w5 & tail & Hfire & _ & Hcalls & _).
    assert (Hpart : calls_made
                      (_fire_callback E (callback_url request)
                         (callback_payload job_id result) "job-callback") w4
                    = failed_deliveries E (callback_url request)
                        (callback_payload job_id result) "job-callback" 0 (now w4) k
                      ++ tail).
    { apply calls_made_extended. unfold world_after. rewrite Hfire. exact Hcalls. }
    rewrite Hpart in Honly.
    rewrite (calls_made_extended _ w1
               (cs ++ failed_deliveries E (callback_url request)
                        (callback_payload job_id result) "job-callback" 0 (now w4) k
                   ++ tail)).
    + intros Hin. apply elem_of_app in Hin as [Hin|Hin].
      * rewrite Forall_forall in Hjob. apply Hjob in Hin.
        inversion Hin as [c Hc| |wsu c _ Hc| |c Hc| |]; subst.
        -- apply prepare_call_plain in Hc as (_ & _ & Hc). discriminate.
        -- apply monitor_call_plain in Hc as (_ & _ & Hc). discriminate.
        -- apply collect_call_plain in Hc as (_ & _ & Hc). discriminate.
      * rewrite Forall_forall in Honly. apply Honly in Hin; [|reflexivity].
        injection Hin as -> ->. split; [reflexivity|].
        assert (Hshape : job_result_shape result).
        { apply (job_result_has_shape C E fuel job_id request w1).
          unfold result_of. rewrite Hexec. reflexivity. }
        destruct (payload_keeps_status job_id result Hshape) as [Hstatus Hid].
        split; [exact Hid|]. rewrite Hstatus.
        destruct Hshape; [right|right|left|left]; reflexivity.
    + unfold world_after, bind. rewrite Hexec, Hfire. cbn [snd].
      rewrite Hcalls, Hcs, <- !app_assoc. reflexivity.
  - exfalso. apply (job_never_raises C E fuel job_id request w1 e).
    unfold result_of. rewrite Hexec. reflexivity.
  - rewrite (calls_made_extended _ w1 cs).
    + intros Hin. rewrite Forall_forall in Hjob. apply Hjob in Hin.
      inversion Hin as [c Hc| |wsu c _ Hc| |c Hc| |]; subst.
      * apply prepare_call_plain in Hc as (_ & _ & Hc). discriminate.
      * apply monitor_call_plain in Hc as (_ & _ & Hc). discriminate.
      * apply collect_call_plain in Hc as (_ & _ & Hc). discriminate.
    + unfold world_after, bind. rewrite Hexec. exact Hcs.
Qed.

Lemma accepted_job_reports_under_its_id_witness :
  exists job_id,
    [("job_id", JStr "uuid"); ("status", JStr "accepted")]
      = [("job_id", JStr job_id); ("status", JStr "accepted")] /\
    RunJob "uuid" simple_request = RunJob job_id simple_request /\
    forall fuel w1 url payload,
      HttpPostJson url payload
        ∈ calls_made (run_task default_config absent_engine fuel
                        (RunJob "uuid" simple_request)) w1 ->
      url = callback_url simple_request /\
      dict_get "job_id" payload = Some (JStr job_id) /\
      (dict_get "status" payload = Some (JStr "completed") \/
       dict_get "status" payload = Some (JStr "failed")).
Proof.
  apply (accepted_job_reports_under_its_id key_config default_config absent_engine
           simple_request (Some "Bearer s3cret") initial_world _ _
           (World [Uuid4; Print "[sidecar] Accepted job uuid"] ∅)).
  reflexivity.
Defined.

(** ** What a job reaches, submits and closes *)

(** X6: what a job reaches.  Among the calls [_execute_job] makes, whatever
    its outcome: every GET goes to an address of the engine or to the URL of
    one of the request's download items; every POST of files goes to the
    engine; every POST of raw data goes to the engine's prompt endpoint;
    every PUT goes to the URL of one of the request's output targets; every
    websocket is opened on the engine's websocket address; and no JSON
    payload is posted anywhere. *)
Theorem job_reaches_only_engine_and_listed_urls
    (C : config) (E : env) (fuel : nat) (job_id : string) (req : RunRequest)
    (w0 : world) :
  (forall url,
      HttpGet url ∈ calls_made (_execute_job C E fuel job_id req) w0 ->
      engine_url url \/
      exists item, item ∈ or_empty (download_urls req) /\ item !! "url" = Some url) /\
  (forall url files,
      HttpPostFiles url files ∈ calls_made (_execute_job C E fuel job_id req) w0 ->
      engine_url url) /\
  (forall url body,
      HttpPostData url body ∈ calls_made (_execute_job C E fuel job_id req) w0 ->
      url = "http://" +:+ COMFY_HOST +:+ "/prompt") /\
  (forall dest data content_type,
      HttpPut dest data content_type
        ∈ calls_made (_execute_job C E fuel job_id req) w0 ->
      exists item, item ∈ or_empty (upload_urls req) /\ item !! "url" = Some dest) /\
  (forall url,
      WsConnect url ∈ calls_made (_execute_job C E fuel job_id req) w0 ->
      engine_ws_url url) /\
  (forall url payload,
      HttpPostJson url payload ∉ calls_made (_execute_job C E fuel job_id req) w0).
Proof.
  pose proof (steps_calls_made _ _ w0 (execute_job_steps C E fuel job_id req)) as Hall.
  rewrite Forall_forall in Hall.
  repeat split; intros.
  all: match goal with
       | H : _ ∈ calls_made _ _ |- _ => apply Hall in H; inversion H; subst; clear H
       | |- _ ∉ _ => intros Hin; apply Hall in Hin; inversion Hin; subst; clear Hin
       end.
  all: repeat match goal with
         | H : prepare_call _ _ |- _ => inversion H; subst; clear H
         | H : probe_call _ _ _ |- _ => inversion H; subst; clear H
         | H : staging_call _ _ |- _ => inversion H; subst; clear H
         | H : monitor_call _ _ _ |- _ => inversion H; subst; clear H
         | H : collect_call _ _ |- _ => inversion H; subst; clear H
         end.
  all: first [ assumption | reflexivity | left; assumption | left; at_engine
             | right; eauto | eauto ].
Qed.

Section SocketFacts.
Context (C : config) (E : env).

(** Where a job that returned left the websockets: as its inner [try] left
    them, less the one it opened. *)
Lemma job_sockets_at_return fuel job_id req w0 client_id ws_url ws w1 result w' :
  prepare E req w0 = (Ret (inr (client_id, ws_url, ws)), w1) ->
  _execute_job C E fuel job_id req w0 = (Ret result, w') ->
  connected w' =
    connected (world_after (submit_and_monitor C E fuel job_id req client_id ws_url ws) w1)
    ∖ {[ws]}.
Proof.
  intros Hprep. unfold _execute_job, try_except, execute_job_body, world_after.
  rewrite (bind_of_run _ _ _ _ _ Hprep). unfold bind at 1, try_finally.
  destruct (submit_and_monitor C E fuel job_id req client_id ws_url ws w1)
    as [[[early|[prompt_id [execution_done exec_errors]]]|e|] w2];
    rewrite ?close_if_connected_calls; cbn [snd].
  - intros [= _ <-]. reflexivity.
  - pose proof (quietly_same_sockets _ _
                  (World (calls w2 ++ (if bool_decide (ws ∈ connected w2)
                                       then [WsClose ws] else []))
                         (connected w2 ∖ {[ws]}))
                  (collect_result_steps E req prompt_id execution_done exec_errors))
      as Hsame.
    unfold world_after in Hsame. cbn [connected] in Hsame.
    destruct (collect_result E req prompt_id execution_done exec_errors _)
      as [[r|e|] w5]; cbn [snd] in Hsame.
    + intros [= _ <-]. exact Hsame.
    + settle. intros [= _ <-]. exact Hsame.
    + discriminate.
  - settle. intros [= _ <-]. reflexivity.
  - discriminate.
Qed.

End SocketFacts.

(** X7: a workflow is submitted at most once.  [_execute_job] posts to the
    prompt endpoint at most once, whatever happens afterwards (no stage
    retries the submission), and what it posts carries the workflow of the
    request and the client id under which the job's websocket was opened. *)
Theorem workflow_is_submitted_at_most_once
    (C : config) (E : env) (fuel : nat) (job_id : string) (req : RunRequest)
    (w0 : world) :
  (length (filter is_queue (calls_made (_execute_job C E fuel job_id req) w0)) <= 1)%nat /\
  (forall url body,
      HttpPostData url body ∈ calls_made (_execute_job C E fuel job_id req) w0 ->
      url = "http://" +:+ COMFY_HOST +:+ "/prompt" /\
      dict_get "prompt" body = Some (JObj (workflow req)) /\
      exists client_id ws w1,
        prepare E req w0
          = (Ret (inr (client_id,
                       "ws://" +:+ COMFY_HOST +:+ "/ws?clientId=" +:+ client_id, ws)),
             w1) /\
        dict_get "client_id" body = Some (JStr client_id)).
Proof.
  destruct (job_calls_in_order C E fuel job_id req w0)
    as (pre & sub & mon & cl & col & tr & ws_url
        & Hcalls & Hpre & Hsub & Hmon & Hcl & Hcol & Htr).
  rewrite (calls_made_extended _ _ _ Hcalls).
  assert (Hplain : forall c,
    c ∈ pre ++ mon ++ cl ++ col ++ tr -> is_queue c = false).
  { intros c Hin. rewrite !elem_of_app in Hin.
    rewrite Forall_forall in Hpre, Hmon, Hcol.
    destruct Hin as [Hin|[Hin|[Hin|[Hin|Hin]]]].
    - apply Hpre, prepare_call_plain in Hin. tauto.
    - apply Hmon, monitor_call_plain in Hin. tauto.
    - destruct Hcl as [->|(? & ? & ? & _ & ->)];
        [inversion Hin|apply list_elem_of_singleton in Hin as ->; reflexivity].
    - apply Hcol, collect_call_plain in Hin. tauto.
    - destruct Htr as [->|(? & ->)];
        [inversion Hin|apply list_elem_of_singleton in Hin as ->; reflexivity]. }
  split.
  - rewrite !filter_app, !length_app.
    rewrite (filter_none is_queue pre), (filter_none is_queue mon),
      (filter_none is_queue cl), (filter_none is_queue col), (filter_none is_queue tr).
    + destruct Hsub as [->|(? & ? & ? & ? & _ & -> & _)]; simpl; lia.
    + apply Forall_forall. intros c Hin. apply Hplain. rewrite !elem_of_app. auto.
    + apply Forall_forall. intros c Hin. apply Hplain. rewrite !elem_of_app. auto.
    + apply Forall_forall. intros c Hin. apply Hplain. rewrite !elem_of_app. auto.
    + apply Forall_forall. intros c Hin. apply Hplain. rewrite !elem_of_app. auto.
    + apply Forall_forall. intros c Hin. apply Hplain. rewrite !elem_of_app. auto.
  - intros url body Hin.
    assert (Hhere : HttpPostData url body ∈ sub).
    { rewrite !elem_of_app in Hin.
      destruct Hin as [Hin|[Hin|Hin]]; [|exact Hin|].
      - assert (is_queue (HttpPostData url body) = false); [|discriminate].
        apply Hplain. rewrite !elem_of_app. auto.
      - assert (is_queue (HttpPostData url body) = false); [|discriminate].
        apply Hplain. rewrite !elem_of_app. tauto. }
    destruct Hsub as [->|(client_id & ws & w1 & body' & Hprep & -> & Hprompt & Hclient)];
      [inversion Hhere|].
    apply list_elem_of_singleton in Hhere. injection Hhere as -> ->.
    split; [reflexivity|]. split; [exact Hprompt|].
    exists client_id, ws, w1. split; [|exact Hclient].
    destruct (prepare_opens E req w0 client_id ws_url ws w1 Hprep) as (<- & _).
    exact Hprep.
Qed.

(** The one close a job can make is of the websocket its preparation
    opened. *)
Lemma job_close_calls (C : config) (E : env) fuel job_id req w0 :
  (length (filter is_close (calls_made (_execute_job C E fuel job_id req) w0)) <= 1)%nat /\
  (forall x,
      WsClose x ∈ calls_made (_execute_job C E fuel job_id req) w0 ->
      exists client_id ws_url w1,
        prepare E req w0 = (Ret (inr (client_id, ws_url, x)), w1)).
Proof.
  destruct (job_calls_in_order C E fuel job_id req w0)
    as (pre & sub & mon & cl & col & tr & ws_url'
        & Hcalls & Hpre & Hsub & Hmon & Hcl & Hcol & Htr).
  rewrite (calls_made_extended _ _ _ Hcalls).
  assert (Hplain : forall c,
    c ∈ pre ++ sub ++ mon ++ col ++ tr -> is_close c = false).
  { intros c Hin. rewrite !elem_of_app in Hin.
    rewrite Forall_forall in Hpre, Hmon, Hcol.
    destruct Hin as [Hin|[Hin|[Hin|[Hin|Hin]]]].
    - apply Hpre, prepare_call_plain in Hin. tauto.
    - destruct Hsub as [->|(? & ? & ? & ? & _ & -> & _)];
        [inversion Hin|apply list_elem_of_singleton in Hin as ->; reflexivity].
    - apply Hmon, monitor_call_plain in Hin. tauto.
    - apply Hcol, collect_call_plain in Hin. tauto.
    - destruct Htr as [->|(? & ->)];
        [inversion Hin|apply list_elem_of_singleton in Hin as ->; reflexivity]. }
  split.
  - rewrite !filter_app, !length_app.
    rewrite (filter_none is_close pre), (filter_none is_close sub),
      (filter_none is_close mon), (filter_none is_close col), (filter_none is_close tr).
    + destruct Hcl as [->|(? & ? & ? & _ & ->)]; simpl; lia.
    + apply Forall_forall. intros c Hin. apply Hplain. rewrite !elem_of_app. auto.
    + apply Forall_forall. intros c Hin. apply Hplain. rewrite !elem_of_app. auto.
    + apply Forall_forall. intros c Hin. apply Hplain. rewrite !elem_of_app. auto.
    + apply Forall_forall. intros c Hin. apply Hplain. rewrite !elem_of_app. auto.
    + apply Forall_forall. intros c Hin. apply Hplain. rewrite !elem_of_app. auto.
  - intros x Hin.
    assert (Hhere : WsClose x ∈ cl).
    { rewrite !elem_of_app in Hin.
      destruct Hin as [Hin|[Hin|[Hin|[Hin|Hin]]]]; [| | |exact Hin|].
      all: assert (is_close (WsClose x) = false); [|discriminate].
      all: apply Hplain; rewrite !elem_of_app; tauto. }
    destruct Hcl as [->|(client_id' & ws' & w1' & Hprep' & ->)]; [inversion Hhere|].
    apply list_elem_of_singleton in Hhere. injection Hhere as ->. eauto.
Qed.

(** X8: a job that returns has closed the websocket it opened.  When the
    preparation opened the websocket [ws] and [_execute_job] returns, [ws]
    is not connected in the final world; the job made at most one close, and
    a close it made was of [ws]. *)
Theorem job_closes_its_websocket
    (C : config) (E : env) (fuel : nat) (job_id : string) (req : RunRequest)
    (w0 : world) (client_id ws_url : string) (ws : nat) (w1 : world)
    (result : list (string * json)) (w' : world) :
  prepare E req w0 = (Ret (inr (client_id, ws_url, ws)), w1) ->
  _execute_job C E fuel job_id req w0 = (Ret result, w') ->
  (ws ∉ connected w') /\
  (length (filter is_close (calls_made (_execute_job C E fuel job_id req) w0)) <= 1)%nat /\
  (forall x,
      WsClose x ∈ calls_made (_execute_job C E fuel job_id req) w0 -> x = ws).
Proof.
  intros Hprep Hrun. split.
  { rewrite (job_sockets_at_return C E fuel job_id req w0 client_id ws_url ws w1
               result w' Hprep Hrun).
    rewrite elem_of_difference, elem_of_singleton. tauto. }
  destruct (job_close_calls C E fuel job_id req w0) as [Hone Honly].
  split; [exact Hone|]. intros x Hin.
  apply Honly in Hin as (client_id' & ws_url' & w1' & Hprep').
  rewrite Hprep in Hprep'. injection Hprep' as _ _ -> _. reflexivity.
Qed.

Lemma job_closes_its_websocket_witness :
  (3%nat ∉ connected (world_after (_execute_job default_config out_of_memory 1 "J"
                                     simple_request) initial_world)) /\
  (length (filter is_close
             (calls_made (_execute_job default_config out_of_memory 1 "J" simple_request)
                         initial_world)) <= 1)%nat /\
  (forall x,
      WsClose x ∈ calls_made (_execute_job default_config out_of_memory 1 "J"
                                simple_request) initial_world ->
      x = 3%nat).
Proof.
  apply (job_closes_its_websocket default_config out_of_memory 1 "J" simple_request
           initial_world "c1" "ws://127.0.0.1:8188/ws?clientId=c1" 3
           (world_after (prepare out_of_memory simple_request) initial_world)
           (failed_with "Job produced no output" ["Node 3 (KSampler): OOM"])).
  - vm_compute; reflexivity.
  - vm_compute; reflexivity.
Defined.

Section ReconnectedSocket.
Context (C : config) (E : env).

Lemma for_until_found {A B : Type} (l : list A) (body : A -> M (option B)) : forall w v w',
  for_until l body w = (Ret (Some v), w') ->
  exists x w1, x ∈ l /\ body x w1 = (Ret (Some v), w').
Proof.
  induction l as [|x l IH]; intros w v w' H; [discriminate|].
  cbn [for_until] in H. apply bind_returns in H as ([v'|] & w1 & Hx & H).
  - injection H as <- <-. exists x, w. split; [left|exact Hx].
  - apply IH in H as (y & w2 & Hy & H). exists y, w2. split; [right; exact Hy|exact H].
Qed.

(** A websocket handed back by a reconnection is connected, and was opened
    by a connect to the address asked for. *)
Lemma reconnect_returns_open ws_url e w new_ws w' :
  _reconnect_websocket C E ws_url e w = (Ret new_ws, w') ->
  open_socket ws_url new_ws w'.
Proof.
  unfold _reconnect_websocket. intros H.
  apply bind_returns in H as ([v|] & w1 & Hloop & H); [|discriminate].
  injection H as <- <-.
  apply for_until_found in Hloop as (attempt & w2 & _ & Hattempt).
  unfold reconnect_attempt in Hattempt.
  apply bind_returns in Hattempt as ([] & w3 & Hprobe & Hattempt).
  apply try_except_returns in Hattempt
    as [Hok|(e' & w4 & _ & Hfail)].
  - apply bind_returns in Hok as (ws' & w4 & Hconnect & Hok).
    apply bind_returns in Hok as ([] & w5 & Hprint & Hok).
    injection Hok as <- <-. injection Hprint as <-.
    unfold ws_connect in Hconnect.
    destruct (ws_connect_reply E (now w3)); [discriminate|].
    injection Hconnect as <- <-. unfold open_socket, record. cbn [calls connected].
    split; [set_solver|].
    unfold now. rewrite <- app_assoc.
    rewrite lookup_app_r by lia. rewrite Nat.sub_diag. reflexivity.
  - apply bind_returns in Hfail as ([] & w5 & _ & Hfail).
    apply bind_returns in Hfail as ([] & w6 & _ & Hfail). discriminate.
Qed.

Lemma read_frame_pure prompt_id errors out : steps eq (read_frame E prompt_id errors out).
Proof. unfold read_frame. footprint. Qed.

(** The world after a round is the world after its [recv]. *)
Lemma round_after_recv ws prompt_id errors w r w1 :
  monitor_round E ws prompt_id errors w = (r, w1) ->
  calls w1 = calls w ++ [WsRecv ws] /\
  ((exists e, ws_recv_reply E (now w) = inl e /\ r = Raise e /\
              connected w1 =
                if decide (exn_kind e = WebSocketConnectionClosedException)
                then connected w ∖ {[ws]} else connected w) \/
   ((exists f, ws_recv_reply E (now w) = inr f) /\ connected w1 = connected w)).
Proof.
  change (monitor_round E ws prompt_id errors)
    with (bind (ws_recv E ws) (read_frame E prompt_id errors)).
  unfold bind, ws_recv.
  destruct (ws_recv_reply E (now w)) as [e|f].
  - intros [= <- <-]. split; [reflexivity|]. left. exists e. auto.
  - pose proof (read_frame_pure prompt_id errors f (record (WsRecv ws) w)) as Hpure.
    unfold world_after in Hpure. intros Hrun. rewrite Hrun in Hpure.
    cbn [snd] in Hpure. subst w1. split; [reflexivity|]. right. eauto.
Qed.

Lemma open_socket_later ws_url ws w w' cs :
  open_socket ws_url ws w -> calls w' = calls w ++ cs -> connected w' = connected w ->
  open_socket ws_url ws w'.
Proof.
  intros [Hin Hat] Hcalls Hsockets. split; [rewrite Hsockets; exact Hin|].
  rewrite Hcalls. apply lookup_app_l_Some. exact Hat.
Qed.

(** A pass that goes on, goes on with an open websocket. *)
Lemma iteration_keeps_a_socket ws_url prompt_id ws errors w ws' w' :
  open_socket ws_url ws w ->
  monitor_iteration C E ws_url prompt_id ws errors w = (Ret (inr ws'), w') ->
  open_socket ws_url ws' w'.
Proof.
  intros Hopen. unfold monitor_iteration, try_except, bind at 1.
  destruct (monitor_round E ws prompt_id errors w) as [[[result|]|e|] w1] eqn:Hround;
    try discriminate.
  - intros [= <- <-].
    apply round_after_recv in Hround as (Hcalls & [(e & _ & He & _)|(_ & Hsame)]);
      [discriminate|].
    eapply open_socket_later; eassumption.
  - apply round_after_recv in Hround as (Hcalls & Hcases).
    destruct (decide (exn_kind e = WebSocketTimeoutException)) as [Htimeout|_].
    { intros [= <- <-]. eapply open_socket_later; [exact Hopen|exact Hcalls|].
      destruct Hcases as [(e0 & _ & [= <-] & ->)|(_ & ->)]; [|reflexivity].
      destruct (decide (exn_kind e = WebSocketConnectionClosedException)); [congruence|].
      reflexivity. }
    destruct (decide (exn_kind e = WebSocketConnectionClosedException)) as [Hclosed|Hopen'].
    { intros Hrun. apply bind_returns in Hrun as (new_ws & w2 & Hre & Hrun).
      injection Hrun as <- <-. eapply reconnect_returns_open. exact Hre. }
    destruct (decide (exn_kind e = JSONDecodeError)) as [Hjson|_]; [|discriminate].
    intros [= <- <-]. eapply open_socket_later; [exact Hopen|exact Hcalls|].
    destruct Hcases as [(e0 & _ & [= <-] & ->)|(_ & ->)]; [|reflexivity].
    destruct (decide (exn_kind e = WebSocketConnectionClosedException)); [congruence|].
    reflexivity.
Qed.

(** The monitor returns on the frame of an open websocket. *)
Lemma monitor_keeps_a_socket ws_url prompt_id fuel : forall ws errors w r w',
  open_socket ws_url ws w ->
  monitor_loop C E fuel ws_url prompt_id ws errors w = (Ret r, w') ->
  exists ws1 w1, w' = record (WsRecv ws1) w1 /\ open_socket ws_url ws1 w1.
Proof.
  induction fuel as [|fuel IH]; intros ws errors w r w' Hopen Hrun; [discriminate|].
  rewrite loop_unfold in Hrun.
  destruct (monitor_iteration C E ws_url prompt_id ws errors w)
    as [[[result|ws']|e|] w1] eqn:Hiter; try discriminate.
  - injection Hrun as <- <-.
    apply iteration_returns, round_returns in Hiter as (-> & _).
    exists ws, w. split; [reflexivity|exact Hopen].
  - eapply IH; [|exact Hrun]. eapply iteration_keeps_a_socket; eassumption.
Qed.

End ReconnectedSocket.

(** X9: a websocket opened by a reconnection is never closed.  When the
    monitor returns and the websocket [ws1] on which it received its last
    frame is not the one the preparation opened, [ws1] was opened by a
    connect of [_reconnect_websocket] on the job's websocket URL, it is still
    connected when [_execute_job] is over, and the job made no close of it:
    the [finally] of the job closes the websocket object it created itself,
    which the reconnection replaced inside the monitor only. *)
Theorem reconnected_websocket_is_left_open
    (C : config) (E : env) (fuel : nat) (job_id : string) (req : RunRequest)
    (w0 : world) (ws_url : string) (ws : nat) (prompt_id : json) (wm : world)
    (r : bool * list string) (w3 : world) (ws1 : nat) :
  reaches_monitor C E job_id req w0 ws_url ws prompt_id wm ->
  _monitor_execution C E fuel ws ws_url prompt_id wm = (Ret r, w3) ->
  last (calls w3) = Some (WsRecv ws1) ->
  ws1 <> ws ->
  calls w3 !! ws1 = Some (WsConnect ws_url) /\
  ws1 ∈ connected (world_after (_execute_job C E fuel job_id req) w0) /\
  (WsClose ws1 ∉ calls_made (_execute_job C E fuel job_id req) w0).
Proof.
  intros Hreach Hmon Hlast Hother.
  pose proof (body_at_monitor C E fuel job_id req w0 ws_url ws prompt_id wm Hreach)
    as Hbody.
  destruct Hreach as (client_id & w1 & queued & w2 & Hprep & Hqueue & _ & _ & ->).
  assert (Hopen : open_socket ws_url ws
                    (record (Print ("[sidecar] Job " +:+ job_id +:+ " -> prompt "
                                    +:+ py_str (lib E) prompt_id)) w2)).
  { destruct (prepare_opens E req w0 client_id ws_url ws w1 Hprep)
      as (_ & Hin & _ & _ & Hat).
    destruct (queue_workflow_calls C E (workflow req) client_id (comfy_org_api_key req) w1)
      as (body & Hcalls & Hsame & _).
    unfold world_after in Hcalls, Hsame. rewrite Hqueue in Hcalls, Hsame.
    cbn [snd] in Hcalls, Hsame.
    eapply (open_socket_later _ _ w2); [|reflexivity|reflexivity].
    eapply open_socket_later; [split; eassumption|exact Hcalls|exact Hsame]. }
  unfold _monitor_execution in Hmon.
  destruct (monitor_keeps_a_socket C E ws_url prompt_id fuel ws [] _ r w3 Hopen Hmon)
    as (ws1' & w1' & -> & Hin & Hat).
  unfold record in Hlast. cbn [calls] in Hlast. rewrite last_snoc in Hlast.
  injection Hlast as <-.
  split; [unfold record; cbn [calls]; apply lookup_app_l_Some; exact Hat|].
  split.
  - unfold _execute_job, try_except, world_after. rewrite Hbody.
    unfold _monitor_execution. rewrite Hmon. destruct r as [execution_done exec_errors].
    unfold world_after. rewrite close_if_connected_calls. cbn [snd].
    pose proof (quietly_same_sockets _ _
                  (World (calls (record (WsRecv ws1') w1')
                          ++ (if bool_decide (ws ∈ connected (record (WsRecv ws1') w1'))
                              then [WsClose ws] else []))
                         (connected (record (WsRecv ws1') w1') ∖ {[ws]}))
                  (collect_result_steps E req prompt_id execution_done exec_errors))
      as Hsame.
    unfold world_after in Hsame. cbn [connected] in Hsame.
    destruct (collect_result E req prompt_id execution_done exec_errors _)
      as [[res|e|] w5]; settle; cbn [snd connected] in *; rewrite Hsame;
      rewrite elem_of_difference, elem_of_singleton; split; assumption.
  - intros Hclose.
    apply (job_close_calls C E fuel job_id req w0) in Hclose
      as (client_id' & ws_url' & w1'' & Hprep').
    rewrite Hprep in Hprep'. injection Hprep' as _ _ Heq _. congruence.
Qed.

Lemma reconnected_websocket_is_left_open_witness :
  8%nat ∈ connected (world_after (_execute_job default_config reconnecting_engine 2 "J"
                                    simple_request) initial_world) /\
  (WsClose 8 ∉ calls_made (_execute_job default_config reconnecting_engine 2 "J"
                             simple_request) initial_world).
Proof.
  pose (w1 := world_after (prepare reconnecting_engine simple_request) initial_world).
  pose (w2 := world_after (_queue_workflow default_config reconnecting_engine
                             (workflow simple_request) "c1" None) w1).
  pose (wm := record (Print "[sidecar] Job J -> prompt P1") w2).
  refine (proj2 (reconnected_websocket_is_left_open default_config reconnecting_engine
                   2 "J" simple_request initial_world
                   "ws://127.0.0.1:8188/ws?clientId=c1" 3 (JStr "P1") wm (true, [])
                   (world_after (_monitor_execution default_config reconnecting_engine 2 3
                                   "ws://127.0.0.1:8188/ws?clientId=c1" (JStr "P1")) wm)
                   8 _ _ _ _)).
  - exists "c1", w1, (JObj [("prompt_id", JStr "P1")]), w2.
    repeat split; vm_compute; reflexivity.
  - vm_compute; reflexivity.
  - vm_compute; reflexivity.
  - discriminate.
Defined.



(** ** Staging the inputs *)



Lemma after_first_None (c : ascii) (s : string) :
  c ∉ list_ascii_of_string s -> after_first c s = None.
Proof.
  induction s as [|a s IH]; intros H; [reflexivity|].
  cbn [list_ascii_of_string] in H. apply not_elem_of_cons in H as [Hne H].
  cbn [after_first]. destruct (Ascii.eqb a c) eqn:Hac; [|apply IH; exact H].
  apply Ascii.eqb_eq in Hac. congruence.
Qed.

Lemma after_first_prefix (c : ascii) (prefix rest : string) :
  c ∉ list_ascii_of_string prefix ->
  after_first c (prefix +:+ String c rest) = Some rest.
Proof.
  induction prefix as [|a s IH]; intros H.
  - simpl. rewrite Ascii.eqb_refl. reflexivity.
  - cbn [list_ascii_of_string] in H. apply not_elem_of_cons in H as [Hne H].
    simpl. destruct (Ascii.eqb a c) eqn:Hac; [|apply IH; exact H].
    apply Ascii.eqb_eq in Hac. congruence.
Qed.

Module Base64Text.
Import Base64.
#[local] Open Scope N_scope.

Lemma b64_char_not_comma n : Ascii.eqb (b64_char n) ","%char = false.
Proof.
  destruct (N.lt_ge_cases n 64) as [Hn|Hn].
  - assert (Hcases : In n (N.of_nat <$> seq 0 64)).
    { apply in_map_iff. exists (N.to_nat n). split; [lia|]. apply in_seq. lia. }
    vm_compute in Hcases.
    repeat (destruct Hcases as [<-|Hcases]; [vm_compute; reflexivity|]).
    destruct Hcases.
  - unfold b64_char.
    destruct (n <? 26) eqn:H1; [apply N.ltb_lt in H1; lia|].
    destruct (n <? 52) eqn:H2; [apply N.ltb_lt in H2; lia|].
    destruct (n <? 62) eqn:H3; [apply N.ltb_lt in H3; lia|].
    destruct (n =? 62) eqn:H4; [apply N.eqb_eq in H4; lia|].
    reflexivity.
Qed.

(** The text [b64encode] writes holds no comma. *)
Lemma b64encode_no_comma : forall bs, after_first ","%char (b64encode bs) = None.
Proof.
  fix IH 1. intros [|a [|b [|c rest]]].
  - reflexivity.
  - cbn [b64encode]. unfold encode1. cbn [after_first].
    rewrite !b64_char_not_comma. reflexivity.
  - cbn [b64encode]. unfold encode2. cbn [after_first].
    rewrite !b64_char_not_comma. reflexivity.
  - cbn [b64encode]. unfold encode3. cbn [after_first].
    rewrite !b64_char_not_comma. apply IH.
Qed.

End Base64Text.



(** X12: the bytes of an image reach the engine.  For an image item whose
    data is the base64 text of some bytes, alone or after a prefix that ends
    at the first comma (a data URL), [upload_image_item] makes exactly one
    call: a POST to the engine's image endpoint whose file part carries the
    item's name and exactly those bytes, whatever the engine answers.  The
    library's decoder is only assumed to read back what the encoder wrote. *)
Theorem image_data_reaches_the_engine
    (E : env) (image : gmap string string) (name prefix : string)
    (file_bytes : string) (w : world) :
  (forall bs, py_b64decode (lib E) (Base64.b64encode bs) = inr bs) ->
  image !! "name" = Some name ->
  (","%char ∉ list_ascii_of_string prefix) ->
  image !! "image" = Some (Base64.b64encode file_bytes) \/
  image !! "image" = Some (prefix +:+ "," +:+ Base64.b64encode file_bytes) ->
  calls_made (upload_image_item E image) w
    = [HttpPostFiles ("http://" +:+ COMFY_HOST +:+ "/upload/image")
         [("image", FilePart (Some name) file_bytes (Some "image/png"));
          overwrite_part]].
Proof.
  intros Hlib Hname Hprefix Hdata.
  assert (Hblob : exists data,
    image !! "image" = Some data /\
    py_b64decode (lib E) (from_option id data (after_first "," data)) = inr file_bytes).
  { destruct Hdata as [Hdata|Hdata]; eexists; (split; [exact Hdata|]).
    - rewrite Base64Text.b64encode_no_comma. apply Hlib.
    - change (prefix +:+ "," +:+ Base64.b64encode file_bytes)
        with (prefix +:+ String "," (Base64.b64encode file_bytes)).
      rewrite (after_first_prefix _ _ _ Hprefix). apply Hlib. }
  destruct Hblob as (data & Himage & Hblob).
  apply calls_made_extended.
  unfold world_after, upload_image_item, str_dict_item. rewrite Hname, Himage.
  cbn [lift]. unfold bind at 1 2, ret at 1 2. rewrite Hblob.
  cbn [lift]. unfold bind at 1, ret at 1.
  unfold bind, http, raise_for_status.
  destruct (http_reply E (now w)) as [e|r]; cbn;
    try destruct ((400 <=? status_code r) && (status_code r <? 600)); reflexivity.
Qed.

Lemma image_data_reaches_the_engine_witness :
  calls_made (upload_image_item absent_engine data_url_image) initial_world
    = [HttpPostFiles ("http://" +:+ COMFY_HOST +:+ "/upload/image")
         [("image", FilePart (Some "a.png") "PNG" (Some "image/png"));
          overwrite_part]].
Proof.
  apply (image_data_reaches_the_engine absent_engine data_url_image "a.png"
           "data:image/png;base64" "PNG" initial_world).
  - intros bs. cbn. rewrite Base64Facts.b64decode_b64encode. reflexivity.
  - reflexivity.
  - intros Hin. apply list_elem_of_In in Hin. cbn in Hin. intuition discriminate.
  - right. reflexivity.
Defined.

Lemma upload_image_item_lacking_key (E : env) image w :
  image !! "name" = None \/ image !! "image" = None ->
  upload_image_item E image w
    = (Raise (Exn KeyError (if bool_decide (is_Some (image !! "name"))
                            then "'image'" else "'name'")), w).
Proof.
  intros Hlack. unfold upload_image_item, str_dict_item, bind.
  destruct (image !! "name") as [name|] eqn:Hname; [|reflexivity].
  destruct Hlack as [Hlack|Hlack]; [discriminate|]. rewrite Hlack. reflexivity.
Qed.

Lemma upload_images_lacking_keys (E : env) staged : forall errors w,
  Forall (fun image => image !! "name" = None \/ image !! "image" = None) staged ->
  for_each staged
    (fun image errors =>
       try_except
         (upload_image_item E image ;;; ret errors)
         (fun e =>
            ret (errors ++ ["Failed to upload " +:+ str_dict_get_str image "name"
                            +:+ ": " +:+ exn_msg e]))) errors w
    = (Ret (errors ++ (missing_key_line <$> staged)), w).
Proof.
  induction staged as [|image staged IH]; intros errors w Hall.
  - simpl. rewrite app_nil_r. reflexivity.
  - apply Forall_cons in Hall as [Hlack Hall]. cbn [for_each].
    unfold bind at 1, try_except at 1, bind at 1.
    rewrite (upload_image_item_lacking_key E image w Hlack).
    unfold ret at 1. rewrite (IH _ _ Hall). cbn [fmap list_fmap].
    rewrite <- app_assoc. reflexivity.
Qed.

(** X13: image items that lack a key fail the job before any upload.  When
    the job has come to its staging and every image item of the request
    lacks its "name" or its "image", [_upload_images] makes no call and
    reports one line per item, naming the first key the item lacks, and
    [_execute_job] returns the failed result "Image upload failed" with
    these lines as details, in the world in which the staging began. *)
Theorem images_lacking_a_key_fail_the_job
    (C : config) (E : env) (fuel : nat) (job_id : string) (req : RunRequest)
    (w0 w : world) (staged : list (gmap string string)) :
  reaches_staging E w0 w ->
  images req = Some staged ->
  staged <> [] ->
  Forall (fun image => image !! "name" = None \/ image !! "image" = None) staged ->
  _upload_images E staged w
    = (Ret (StagingReport "error" (missing_key_line <$> staged)), w) /\
  _execute_job C E fuel job_id req w0
    = (Ret [("status", JStr "failed"); ("error", JStr "Image upload failed");
            ("details", str_list (missing_key_line <$> staged))], w).
Proof.
  intros (w1 & Hclean & Hcheck) Himages Hne Hall.
  assert (Hupload : _upload_images E staged w
                    = (Ret (StagingReport "error" (missing_key_line <$> staged)), w)).
  { unfold _upload_images.
    rewrite (bind_of_run _ _ _ _ _ (upload_images_lacking_keys E staged [] w Hall)).
    cbn [app]. destruct staged; [contradiction|]. reflexivity. }
  split; [exact Hupload|].
  apply non_empty_true in Hne.
  assert (Hstage : stage_inputs (images req) (_upload_images E) "Image upload failed" w
                   = (Ret (Some (failed_with "Image upload failed"
                                   (missing_key_line <$> staged))), w)).
  { unfold stage_inputs. rewrite Himages. cbn [or_empty from_option id]. rewrite Hne.
    rewrite (bind_of_run _ _ _ _ _ Hupload). reflexivity. }
  assert (Hprep : prepare E req w0
                  = (Ret (inl (failed_with "Image upload failed"
                                 (missing_key_line <$> staged))), w)).
  { unfold prepare.
    rewrite (bind_of_run _ _ _ _ _ Hclean), (bind_of_run _ _ _ _ _ Hcheck).
    cbn [negb]. rewrite (bind_of_run _ _ _ _ _ Hstage). reflexivity. }
  apply job_keeps_result. unfold execute_job_body.
  rewrite (bind_of_run _ _ _ _ _ Hprep). reflexivity.
Qed.

Lemma images_lacking_a_key_fail_the_job_witness :
  _upload_images accepting_engine [bad_image; {["image" := "UE5H"]}]
      (World [Cleanup; HttpGet comfy_root] ∅)
    = (Ret (StagingReport "error"
              ["Failed to upload b.png: 'image'"; "Failed to upload None: 'name'"]),
       World [Cleanup; HttpGet comfy_root] ∅) /\
  _execute_job default_config accepting_engine 1 "J" two_bad_images initial_world
    = (Ret [("status", JStr "failed"); ("error", JStr "Image upload failed");
            ("details", JArr [JStr "Failed to upload b.png: 'image'";
                              JStr "Failed to upload None: 'name'"])],
       World [Cleanup; HttpGet comfy_root] ∅).
Proof.
  assert (Hstaging : reaches_staging accepting_engine initial_world
                       (World [Cleanup; HttpGet comfy_root] ∅)).
  { exists (World [Cleanup] ∅). split; reflexivity. }
  assert (Hlack : Forall (fun image : gmap string string =>
                            image !! "name" = None \/ image !! "image" = None)
                         [bad_image; {["image" := "UE5H"]}]).
  { constructor; [right; reflexivity|].
    constructor; [left; reflexivity|constructor]. }
  generalize (images_lacking_a_key_fail_the_job default_config accepting_engine 1 "J"
                two_bad_images initial_world (World [Cleanup; HttpGet comfy_root] ∅)
                [bad_image; {["image" := "UE5H"]}] Hstaging eq_refl
                ltac:(discriminate) Hlack).
  vm_compute. exact (fun H => H).
Defined.

(** ** Jobs that end before or after the monitoring *)

Section SubmissionFacts.
Context (C : config) (E : env).

(** A job whose inner [try] came back without a prompt to collect: the
    websocket is closed and the job ends as the [try] did. *)
Lemma job_ends_at_submission fuel job_id req w0 client_id ws_url ws w1 w2 :
  prepare E req w0 = (Ret (inr (client_id, ws_url, ws)), w1) ->
  connected w2 = connected w1 ->
  (forall early,
      submit_and_monitor C E fuel job_id req client_id ws_url ws w1
        = (Ret (inl early), w2) ->
      _execute_job C E fuel job_id req w0
        = (Ret early, World (calls w2 ++ [WsClose ws]) (connected w1 ∖ {[ws]}))) /\
  (forall e,
      submit_and_monitor C E fuel job_id req client_id ws_url ws w1 = (Raise e, w2) ->
      _execute_job C E fuel job_id req w0
        = (Ret (failed (exn_msg e)),
           World (calls w2 ++ [WsClose ws; PrintExc e]) (connected w1 ∖ {[ws]}))).
Proof.
  intros Hprep Hsame.
  destruct (prepare_opens E req w0 client_id ws_url ws w1 Hprep) as (_ & Hin & _).
  assert (Hclose : close_if_connected ws w2
                   = (Ret tt, World (calls w2 ++ [WsClose ws]) (connected w1 ∖ {[ws]}))).
  { rewrite close_if_connected_calls, Hsame.
    rewrite bool_decide_eq_true_2 by exact Hin. reflexivity. }
  split.
  - intros early Hrun. apply job_keeps_result. unfold execute_job_body.
    rewrite (bind_of_run _ _ _ _ _ Hprep). unfold bind, try_finally.
    rewrite Hrun, Hclose. reflexivity.
  - intros e Hrun.
    rewrite (job_fails_on_exception C E fuel job_id req w0 e
               (World (calls w2 ++ [WsClose ws]) (connected w1 ∖ {[ws]}))).
    + unfold record. cbn [calls connected]. rewrite <- app_assoc. reflexivity.
    + unfold execute_job_body.
      rewrite (bind_of_run _ _ _ _ _ Hprep). unfold bind, try_finally.
      rewrite Hrun, Hclose. reflexivity.
Qed.

End SubmissionFacts.

(** X14: a rejected workflow fails the job with the engine's text.  When the
    preparation went through and the engine answers the submission with
    status 400, [_execute_job] makes the one POST to the prompt endpoint,
    closes the websocket it opened, logs the traceback and returns the
    failed result "Workflow validation failed: " followed by the text of the
    answer; it does not monitor and does not read the history. *)
Theorem rejected_workflow_fails_the_job
    (C : config) (E : env) (fuel : nat) (job_id : string) (req : RunRequest)
    (w0 : world) (client_id ws_url : string) (ws : nat) (w1 : world) (r : response) :
  prepare E req w0 = (Ret (inr (client_id, ws_url, ws)), w1) ->
  http_reply E (now w1) = inr r ->
  status_code r = 400 ->
  exists body,
    _execute_job C E fuel job_id req w0
      = (Ret [("status", JStr "failed");
              ("error", JStr ("Workflow validation failed: " +:+ text r))],
         World (calls w1
                ++ [HttpPostData ("http://" +:+ COMFY_HOST +:+ "/prompt") body;
                    WsClose ws;
                    PrintExc (Exn ValueError
                                ("Workflow validation failed: " +:+ text r))])
               (connected w1 ∖ {[ws]})).
Proof.
  intros Hprep Hreply Hstatus.
  assert (Hqueue : exists body,
    _queue_workflow C E (workflow req) client_id (comfy_org_api_key req) w1
      = (Raise (Exn ValueError ("Workflow validation failed: " +:+ text r)),
         record (HttpPostData ("http://" +:+ COMFY_HOST +:+ "/prompt") body) w1)).
  { unfold _queue_workflow.
    match goal with |- context [http E (HttpPostData _ ?p)] => exists p end.
    unfold bind, http. rewrite Hreply, Hstatus. reflexivity. }
  destruct Hqueue as (body & Hqueue). exists body.
  destruct (job_ends_at_submission C E fuel job_id req w0 client_id ws_url ws w1
              (record (HttpPostData ("http://" +:+ COMFY_HOST +:+ "/prompt") body) w1)
              Hprep eq_refl) as [_ Hraise].
  rewrite (Hraise (Exn ValueError ("Workflow validation failed: " +:+ text r))).
  - unfold record. cbn [calls]. rewrite <- app_assoc. reflexivity.
  - unfold submit_and_monitor, bind. rewrite Hqueue. reflexivity.
Qed.

Lemma rejected_workflow_fails_the_job_witness :
  exists body,
    _execute_job default_config rejecting_engine 1 "J" simple_request initial_world
      = (Ret [("status", JStr "failed");
              ("error", JStr ("Workflow validation failed: " +:+ text bad_request))],
         World (calls (world_after (prepare rejecting_engine simple_request) initial_world)
                ++ [HttpPostData ("http://" +:+ COMFY_HOST +:+ "/prompt") body;
                    WsClose 3;
                    PrintExc (Exn ValueError
                                ("Workflow validation failed: " +:+ text bad_request))])
               (connected (world_after (prepare rejecting_engine simple_request)
                             initial_world) ∖ {[3%nat]})).
Proof.
  apply (rejected_workflow_fails_the_job default_config rejecting_engine 1 "J"
           simple_request initial_world "c1" "ws://127.0.0.1:8188/ws?clientId=c1" 3
           (world_after (prepare rejecting_engine simple_request) initial_world)
           bad_request).
  - vm_compute; reflexivity.
  - vm_compute; reflexivity.
  - reflexivity.
Defined.

(** X15: an answer without a prompt id fails the job.  When the preparation
    went through and the engine answers the submission with a status that
    [raise_for_status] lets pass (and that is not 400) and a JSON object
    whose "prompt_id" is absent or falsy, [_execute_job] closes the
    websocket and returns the failed result "No prompt_id in response: "
    followed by the answer; it does not monitor, and no traceback is logged
    since nothing was raised. *)
Theorem missing_prompt_id_fails_the_job
    (C : config) (E : env) (fuel : nat) (job_id : string) (req : RunRequest)
    (w0 : world) (client_id ws_url : string) (ws : nat) (w1 : world) (r : response)
    (fields : list (string * json)) :
  prepare E req w0 = (Ret (inr (client_id, ws_url, ws)), w1) ->
  http_reply E (now w1) = inr r ->
  status_code r < 400 \/ 600 <= status_code r ->
  json_body r = inr (JObj fields) ->
  py_truthy (field "prompt_id" fields) = false ->
  exists body,
    _execute_job C E fuel job_id req w0
      = (Ret [("status", JStr "failed");
              ("error", JStr ("No prompt_id in response: "
                              +:+ py_str (lib E) (JObj fields)))],
         World (calls w1
                ++ [HttpPostData ("http://" +:+ COMFY_HOST +:+ "/prompt") body;
                    WsClose ws])
               (connected w1 ∖ {[ws]})).
Proof.
  intros Hprep Hreply Hstatus Hbody Hfalsy.
  assert (Hqueue : exists body,
    _queue_workflow C E (workflow req) client_id (comfy_org_api_key req) w1
      = (Ret (JObj fields),
         record (HttpPostData ("http://" +:+ COMFY_HOST +:+ "/prompt") body) w1)).
  { unfold _queue_workflow.
    match goal with |- context [http E (HttpPostData _ ?p)] => exists p end.
    unfold bind, http, raise_for_status. rewrite Hreply.
    destruct (status_code r =? 400) eqn:H400; [lia|].
    destruct ((400 <=? status_code r) && (status_code r <? 600)) eqn:Herr; [lia|].
    rewrite Hbody. reflexivity. }
  destruct Hqueue as (body & Hqueue). exists body.
  destruct (job_ends_at_submission C E fuel job_id req w0 client_id ws_url ws w1
              (record (HttpPostData ("http://" +:+ COMFY_HOST +:+ "/prompt") body) w1)
              Hprep eq_refl) as [Hearly _].
  rewrite (Hearly (failed ("No prompt_id in response: " +:+ py_str (lib E) (JObj fields)))).
  - unfold record. cbn [calls]. rewrite <- app_assoc. reflexivity.
  - unfold submit_and_monitor. rewrite (bind_of_run _ _ _ _ _ Hqueue).
    cbn [py_get lift]. unfold bind, ret.
    change (from_option id JNull (dict_get "prompt_id" fields))
      with (field "prompt_id" fields).
    rewrite Hfalsy. reflexivity.
Qed.

Lemma missing_prompt_id_fails_the_job_witness :
  exists body,
    _execute_job default_config forgetful_engine 1 "J" simple_request initial_world
      = (Ret [("status", JStr "failed");
              ("error", JStr ("No prompt_id in response: "
                              +:+ py_str (lib forgetful_engine)
                                    (JObj [("number", JNum 1)])))],
         World (calls (world_after (prepare forgetful_engine simple_request) initial_world)
                ++ [HttpPostData ("http://" +:+ COMFY_HOST +:+ "/prompt") body;
                    WsClose 3])
               (connected (world_after (prepare forgetful_engine simple_request)
                             initial_world) ∖ {[3%nat]})).
Proof.
  apply (missing_prompt_id_fails_the_job default_config forgetful_engine 1 "J"
           simple_request initial_world "c1" "ws://127.0.0.1:8188/ws?clientId=c1" 3
           (world_after (prepare forgetful_engine simple_request) initial_world)
           (ok_response (JObj [("number", JNum 1)]))).
  - vm_compute; reflexivity.
  - vm_compute; reflexivity.
  - left. reflexivity.
  - reflexivity.
  - reflexivity.
Defined.

(** X16: a history that does not know the prompt fails the job.  When the
    monitor has returned, with a completion or with an error, and the
    history the engine serves does not hold the prompt id, [_execute_job]
    returns the failed result "Prompt <id> not found in history" right after
    the one GET of the history: no output is collected, whatever the monitor
    had reported. *)
Theorem missing_history_fails_the_job
    (C : config) (E : env) (fuel : nat) (job_id : string) (req : RunRequest)
    (w0 : world) (ws_url : string) (ws : nat) (prompt_id : json) (wm : world)
    (r : bool * list string) (w3 : world) (history : json) (w4 : world) :
  reaches_monitor C E job_id req w0 ws_url ws prompt_id wm ->
  _monitor_execution C E fuel ws ws_url prompt_id wm = (Ret r, w3) ->
  _get_history E prompt_id (world_after (close_if_connected ws) w3) = (Ret history, w4) ->
  py_contains history prompt_id = inr false ->
  _execute_job C E fuel job_id req w0
    = (Ret [("status", JStr "failed");
            ("error", JStr ("Prompt " +:+ py_str (lib E) prompt_id
                            +:+ " not found in history"))], w4) /\
  calls w4
    = calls (world_after (close_if_connected ws) w3)
      ++ [HttpGet ("http://" +:+ COMFY_HOST +:+ "/history/" +:+ py_str (lib E) prompt_id)].
Proof.
  intros Hreach Hmon Hhistory Hfound. split.
  - apply job_keeps_result.
    rewrite (body_at_monitor C E fuel job_id req w0 ws_url ws prompt_id wm Hreach), Hmon.
    destruct r as [execution_done exec_errors].
    unfold collect_result.
    rewrite (monitor_guard C E fuel ws ws_url prompt_id wm execution_done exec_errors w3
               Hmon).
    rewrite (bind_of_run _ _ _ _ _ Hhistory), Hfound. reflexivity.
  - unfold _get_history, bind, http, raise_for_status in Hhistory.
    destruct (http_reply E _) as [e|reply]; [discriminate|].
    destruct ((400 <=? status_code reply) && (status_code reply <? 600));
      [discriminate|].
    cbn in Hhistory. destruct (json_body reply); [discriminate|].
    injection Hhistory as _ <-. reflexivity.
Qed.

Lemma missing_history_fails_the_job_witness :
  result_of (_execute_job default_config amnesic_engine 1 "J" simple_request)
            initial_world
    = Ret [("status", JStr "failed"); ("error", JStr "Prompt P1 not found in history")].
Proof.
  pose (w1 := world_after (prepare amnesic_engine simple_request) initial_world).
  pose (w2 := world_after (_queue_workflow default_config amnesic_engine
                             (workflow simple_request) "c1" None) w1).
  pose (wm := record (Print "[sidecar] Job J -> prompt P1") w2).
  pose (w3 := world_after (_monitor_execution default_config amnesic_engine 1 3
                             "ws://127.0.0.1:8188/ws?clientId=c1" (JStr "P1")) wm).
  unfold result_of.
  rewrite (proj1 (missing_history_fails_the_job default_config amnesic_engine 1 "J"
                    simple_request initial_world "ws://127.0.0.1:8188/ws?clientId=c1"
                    3 (JStr "P1") wm (true, []) w3 (JObj [])
                    (world_after (_get_history amnesic_engine (JStr "P1"))
                                 (world_after (close_if_connected 3) w3))
                    ltac:(exists "c1", w1, (JObj [("prompt_id", JStr "P1")]), w2;
                          repeat split; vm_compute; reflexivity)
                    ltac:(vm_compute; reflexivity)
                    ltac:(vm_compute; reflexivity)
                    eq_refl)).
  reflexivity.
Defined.

Section TargetFacts.

Lemma build_upload_map_last (targets : list (gmap string string)) name :
  forall (m0 : gmap string string) w m w',
    for_each targets
      (fun item (m : gmap string string) =>
         bind (lift (str_dict_item item "name")) (fun name =>
         bind (lift (str_dict_item item "url")) (fun dest =>
         ret (<[name := dest]> m)))) m0 w = (Ret m, w') ->
    m !! name = match last (target_urls name targets) with
                | Some dest => Some dest
                | None => m0 !! name
                end.
Proof.
  induction targets as [|item targets IH]; intros m0 w m w' Hrun.
  - injection Hrun as <- _. reflexivity.
  - cbn [for_each] in Hrun. apply bind_returns in Hrun as (m1 & w1 & Hitem & Hrest).
    apply bind_returns in Hitem as (name' & w2 & Hname & Hitem).
    apply bind_returns in Hitem as (dest' & w3 & Hdest & Hitem).
    unfold str_dict_item in Hname, Hdest.
    destruct (item !! "name") as [n|] eqn:Hn; [|discriminate].
    destruct (item !! "url") as [u|] eqn:Hu; [|discriminate].
    injection Hname as <- <-. injection Hdest as <- <-. injection Hitem as <- <-.
    rewrite (IH _ _ _ _ Hrest). unfold target_urls. cbn [omap list_omap]. rewrite Hn.
    fold (target_urls name targets).
    case_bool_decide as Hsame.
    + injection Hsame as ->. rewrite Hu, last_cons.
      destruct (last (target_urls name targets)); [reflexivity|].
      apply lookup_insert_eq.
    + rewrite lookup_insert_ne by congruence. reflexivity.
Qed.

Lemma build_upload_map_lacking (targets : list (gmap string string)) :
  forall (m0 : gmap string string) w item key,
    Forall (fun item => lacking_key item = None) targets ->
    lacking_key item = Some key ->
    forall rest,
      for_each (targets ++ item :: rest)
        (fun item (m : gmap string string) =>
           bind (lift (str_dict_item item "name")) (fun name =>
           bind (lift (str_dict_item item "url")) (fun dest =>
           ret (<[name := dest]> m)))) m0 w
      = (Raise (Exn KeyError ("'" +:+ key +:+ "'")), w).
Proof.
  induction targets as [|first targets IH]; intros m0 w item key Hgood Hbad rest.
  - cbn [app for_each]. unfold bind, lift, str_dict_item, lacking_key in *.
    destruct (item !! "name"); [destruct (item !! "url")|];
      try discriminate; injection Hbad as <-; reflexivity.
  - apply Forall_cons in Hgood as [Hfirst Hgood]. cbn [app for_each].
    unfold lacking_key in Hfirst. unfold bind at 1, bind at 1, lift, str_dict_item.
    destruct (first !! "name"); [|discriminate].
    destruct (first !! "url"); [|discriminate].
    unfold bind at 1, ret at 1. apply IH; assumption.
Qed.

End TargetFacts.

(** X17: of several output targets with one name, the last one counts.  The
    map of targets [_process_outputs] builds gives every name the URL of the
    last target of the request that carries it, and nothing to a name no
    target carries: an artifact is uploaded to that last URL only. *)
Theorem last_upload_target_wins
    (targets : list (gmap string string)) (w : world)
    (upload_map : gmap string string) (w' : world) (name : string) :
  build_upload_map targets w = (Ret upload_map, w') ->
  upload_map !! name = last (target_urls name targets).
Proof.
  intros Hrun. unfold build_upload_map in Hrun.
  rewrite (build_upload_map_last targets name ∅ w upload_map w' Hrun).
  rewrite lookup_empty. destruct (last (target_urls name targets)); reflexivity.
Qed.

Lemma last_upload_target_wins_witness :
  exists upload_map,
    build_upload_map rival_targets initial_world = (Ret upload_map, initial_world) /\
    upload_map !! "clip.mp4" = Some "http://store/other" /\
    upload_map !! "still.png" = None.
Proof.
  assert (Hbuilt : exists upload_map,
             build_upload_map rival_targets initial_world = (Ret upload_map, initial_world)).
  { eexists. vm_compute. reflexivity. }
  destruct Hbuilt as [upload_map Hbuilt]. exists upload_map.
  split; [exact Hbuilt|]. split.
  - rewrite (last_upload_target_wins rival_targets initial_world upload_map initial_world
               "clip.mp4" Hbuilt).
    vm_compute. reflexivity.
  - rewrite (last_upload_target_wins rival_targets initial_world upload_map initial_world
               "still.png" Hbuilt).
    vm_compute. reflexivity.
Defined.

(** X18: an output target that lacks a key fails a job that has already
    run.  When the first target of the request that lacks its "name" or its
    "url" lacks [key], and the execution has been monitored to its end and
    the manifest fetched, [_process_outputs] raises KeyError for [key]
    before it fetches any artifact, and [_execute_job] returns the failed
    result whose error is that key in quotes: the targets are only read
    after the workflow has run, and the outputs of the run are lost. *)
Theorem malformed_upload_target_fails_after_execution
    (C : config) (E : env) (fuel : nat) (job_id : string) (req : RunRequest)
    (w0 : world) (ws_url : string) (ws : nat) (prompt_id : json) (wm : world)
    (r : bool * list string) (w3 : world) (outputs : json) (w4 : world)
    (good : list (gmap string string)) (item : gmap string string) (key : string)
    (rest : list (gmap string string)) :
  upload_urls req = Some (good ++ item :: rest) ->
  Forall (fun item => lacking_key item = None) good ->
  lacking_key item = Some key ->
  reaches_monitor C E job_id req w0 ws_url ws prompt_id wm ->
  _monitor_execution C E fuel ws ws_url prompt_id wm = (Ret r, w3) ->
  reaches_collection E prompt_id (world_after (close_if_connected ws) w3) outputs w4 ->
  _process_outputs E outputs (upload_urls req) w4
    = (Raise (Exn KeyError ("'" +:+ key +:+ "'")), w4) /\
  _execute_job C E fuel job_id req w0
    = (Ret [("status", JStr "failed"); ("error", JStr ("'" +:+ key +:+ "'"))],
       record (PrintExc (Exn KeyError ("'" +:+ key +:+ "'"))) w4).
Proof.
  intros Htargets Hgood Hbad Hreach Hmon (history & record_ & Hhistory & Hfound & Hitem
                                          & Houtputs).
  assert (Hprocess : _process_outputs E outputs (upload_urls req) w4
                     = (Raise (Exn KeyError ("'" +:+ key +:+ "'")), w4)).
  { unfold _process_outputs, build_upload_map. rewrite Htargets.
    cbn [or_empty from_option id]. unfold bind at 1.
    rewrite (build_upload_map_lacking good ∅ w4 item key Hgood Hbad rest). reflexivity. }
  split; [exact Hprocess|].
  apply (job_fails_on_exception C E fuel job_id req w0
           (Exn KeyError ("'" +:+ key +:+ "'")) w4).
  rewrite (body_at_monitor C E fuel job_id req w0 ws_url ws prompt_id wm Hreach), Hmon.
  destruct r as [execution_done exec_errors].
  unfold collect_result.
  rewrite (monitor_guard C E fuel ws ws_url prompt_id wm execution_done exec_errors w3
             Hmon).
  rewrite (bind_of_run _ _ _ _ _ Hhistory). cbv beta.
  rewrite Hfound, bind_lift_inr. cbn [negb].
  rewrite Hitem, bind_lift_inr.
  rewrite Houtputs, bind_lift_inr.
  unfold bind. rewrite Hprocess. reflexivity.
Qed.

Lemma malformed_upload_target_fails_after_execution_witness :
  result_of (_execute_job default_config completing_engine 1 "J" half_targeted)
            initial_world
    = Ret [("status", JStr "failed"); ("error", JStr "'url'")].
Proof.
  pose (w1 := world_after (prepare completing_engine half_targeted) initial_world).
  pose (w2 := world_after (_queue_workflow default_config completing_engine
                             (workflow half_targeted) "c1" None) w1).
  pose (wm := record (Print "[sidecar] Job J -> prompt P1") w2).
  pose (w3 := world_after (_monitor_execution default_config completing_engine 1 3
                             "ws://127.0.0.1:8188/ws?clientId=c1" (JStr "P1")) wm).
  pose (w4 := world_after (_get_history completing_engine (JStr "P1"))
                          (world_after (close_if_connected 3) w3)).
  unfold result_of.
  rewrite (proj2 (malformed_upload_target_fails_after_execution default_config
                    completing_engine 1 "J" half_targeted initial_world
                    "ws://127.0.0.1:8188/ws?clientId=c1" 3 (JStr "P1") wm (true, []) w3
                    one_image w4 [clip_target] {["name" := "still.png"]} "url" []
                    eq_refl
                    ltac:(repeat constructor)
                    eq_refl
                    ltac:(exists "c1", w1, (JObj [("prompt_id", JStr "P1")]), w2;
                          repeat split; vm_compute; reflexivity)
                    ltac:(vm_compute; reflexivity)
                    ltac:(exists (JObj [("P1", JObj [("outputs", one_image)])]),
                                 (JObj [("outputs", one_image)]);
                          repeat split; vm_compute; reflexivity))).
  reflexivity.
Defined.
